(** * Case.dev tool layer of Thurgood Desktop: request executor, credential
    resolution, vault upload / search, research and transcription tools.

  The TypeScript sources embedded here are
    - [CaseDevClient.getApiKey], [CaseDevClient.request]   (casedev/client)
    - [VaultUploadTool.execute], [VaultSearchTool.execute]  (casedev/vault)
    - [LegalSearchTool.execute]                             (casedev/search)
    - [TranscribeTool.execute]                              (casedev/transcribe)

  JavaScript numbers are IEEE-754 binary64 values; they are modelled with
  the executable specification of floating point of the standard library
  ([spec_float], precision 53, maximal exponent 1024). *)

From Stdlib Require Import ZArith List String Bool Lia.
From Stdlib Require Import Floats.SpecFloat.
Import ListNotations.
Open Scope string_scope.
Open Scope Z_scope.

(* ------------------------------------------------------------------ *)
(** * JavaScript values used by the tools *)
(* ------------------------------------------------------------------ *)

Module Js.

(** A JS [number]. *)
Definition number := spec_float.

Definition prec : Z := 53.
Definition emax : Z := 1024.

Definition NaN : number := S754_nan.

(** An integer literal of the source ([1], [100], [30000], ...). *)
Definition lit (z : Z) : number := binary_normalize prec emax z 0 false.

Definition isNaN (x : number) : bool :=
  match x with S754_nan => true | _ => false end.

Definition lt (x y : number) : bool := SFltb x y.
Definition le (x y : number) : bool := SFleb x y.

(** [x * y] and [x / y] on numbers. *)
Definition mul (x y : number) : number := SFmul prec emax x y.
Definition div (x y : number) : number := SFdiv prec emax x y.

(** [Math.max(a, b)]: NaN if either is NaN, the larger otherwise, with
    [+0] above [-0]. *)
Definition Math_max (a b : number) : number :=
  if isNaN a || isNaN b then NaN
  else if lt a b then b
  else if lt b a then a
  else match a, b with
       | S754_zero true, S754_zero false => b
       | _, _ => a
       end.

(** [Math.min(a, b)]: NaN if either is NaN, the smaller otherwise, with
    [-0] below [+0]. *)
Definition Math_min (a b : number) : number :=
  if isNaN a || isNaN b then NaN
  else if lt b a then b
  else if lt a b then a
  else match a, b with
       | S754_zero false, S754_zero true => b
       | _, _ => a
       end.

(** [Math.round(x)]: the integral number closest to [x], ties towards
    [+Infinity]; NaN, the infinities, the zeros and integral values are
    returned unchanged, and a result of magnitude zero keeps the sign of
    [x].  For a finite [x = (-1)^s * m * 2^e] with [e < 0] the rounded
    integer is [floor (x + 1/2)], computed exactly on integers. *)
Definition Math_round (x : number) : number :=
  match x with
  | S754_finite s m e =>
      if 0 <=? e then x
      else
        let d := 2 ^ (- e) in
        let n := (2 * cond_Zopp s (Zpos m) + d) / (2 * d) in
        if n =? 0 then S754_zero s else binary_normalize prec emax n 0 false
  | _ => x
  end.

(** [a ?? b] where the left operand may be [undefined]. *)
Definition nullish {A : Type} (a : option A) (b : A) : A :=
  match a with Some v => v | None => b end.

(** [a ?? b] where both operands may be [undefined]. *)
Definition nullish_opt {A : Type} (a b : option A) : option A :=
  match a with Some v => Some v | None => b end.

(** Truthiness of an optional string: [undefined] and the empty string are
    falsy. *)
Definition truthy_str (s : option string) : bool :=
  match s with
  | None => false
  | Some s => negb (String.eqb s EmptyString)
  end.

(** [String(b)] for a boolean. *)
Definition string_of_bool (b : bool) : string :=
  if b then "true" else "false".

(** Truthiness of a number: [0], [-0] and [NaN] are falsy. *)
Definition truthy_num (x : number) : bool :=
  match x with
  | S754_zero _ | S754_nan => false
  | _ => true
  end.

End Js.

Notation "a ?? b" := (Js.nullish a b) (at level 45, right associativity).


#[local] Set Warnings "-register-all".

(** Values of the object literals the tools build (request bodies, result
    metadata) and of loosely typed response fields. *)
Inductive value : Type :=
| VUndefined
| VNull
| VBool (b : bool)
| VNum (n : Js.number)
| VStr (s : string)
| VArr (items : list value)
| VObj (fields : list (string * value)).

Definition truthy (v : value) : bool :=
  match v with
  | VUndefined | VNull => false
  | VBool b => b
  | VNum n => Js.truthy_num n
  | VStr s => negb (String.eqb s EmptyString)
  | VArr _ | VObj _ => true
  end.

(** An optional field read as a value: absent is [undefined]. *)
Definition opt_value {A : Type} (inj : A -> value) (a : option A) : value :=
  match a with Some x => inj x | None => VUndefined end.

(** [obj[key] = v] on the entries of an object, in insertion order. *)
Fixpoint obj_set {A : Type} (key : string) (v : A) (fields : list (string * A))
  : list (string * A) :=
  match fields with
  | [] => [(key, v)]
  | (k, w) :: rest =>
      if String.eqb k key then (k, v) :: rest else (k, w) :: obj_set key v rest
  end.

(** [obj[key]], [undefined] when the key is absent. *)
Fixpoint obj_get {A : Type} (key : string) (fields : list (string * A)) : option A :=
  match fields with
  | [] => None
  | (k, w) :: rest => if String.eqb k key then Some w else obj_get key rest
  end.

(** [{ ...base, ...extra }]. *)
Definition obj_spread {A : Type} (base extra : list (string * A)) : list (string * A) :=
  fold_left (fun acc kv => obj_set (fst kv) (snd kv) acc) extra base.

Definition bytes := list Byte.byte.

(** The double quote character, for the quoted parts of the messages. *)
Definition dq : string := String (Ascii.ascii_of_nat 34) EmptyString.

(** A line feed. *)
Definition nl : string := String (Ascii.ascii_of_nat 10) EmptyString.

(* ------------------------------------------------------------------ *)
(** * Errors *)
(* ------------------------------------------------------------------ *)

(** The errors that travel through the tools.  The client and the upload
    tool raise plain [Error] objects told apart by their message; one
    constructor stands for each [throw new Error(...)] of the source.
    [Foreign] is an error raised by the runtime (a rejected [fetch], a body
    that cannot be read, a file that cannot be opened) with its [name]. *)
Inductive JsError : Type :=
| ApiKeyNotFound
    (* "Case.dev API key not found. Please set THURGOOD_API_KEY or ..." *)
| ApiError (status : Js.number) (errorText : string)
    (* `Case.dev API error (${response.status}): ${errorText}` *)
| RequestTimedOut (timeout : Js.number)
    (* `Case.dev API request timed out after ${timeout}ms` *)
| S3UploadFailed (status : Js.number) (statusText : string)
    (* `Failed to upload file to S3: ${status} ${statusText}` *)
| Foreign (name : string) (message : string).

(** [error.name]. *)
Definition error_name (e : JsError) : string :=
  match e with
  | Foreign name _ => name
  | _ => "Error"
  end.

(** What [fetch] rejects with once its signal is aborted. *)
Definition AbortError : JsError := Foreign "AbortError" "The operation was aborted.".

(** The error taxonomy of the design: which class each raised error is. *)
Inductive ErrorKind : Type :=
| AuthError | TimeoutError | HttpError | OtherError.

Definition kind_of (e : JsError) : ErrorKind :=
  match e with
  | ApiKeyNotFound => AuthError
  | RequestTimedOut _ => TimeoutError
  | ApiError _ _ => HttpError
  | S3UploadFailed _ _ => HttpError
  | Foreign _ _ => OtherError
  end.

(** The HTTP status an [HttpError] reports. *)
Definition http_status (e : JsError) : option Js.number :=
  match e with
  | ApiError status _ => Some status
  | S3UploadFailed status _ => Some status
  | _ => None
  end.

(* ------------------------------------------------------------------ *)
(** * Response interfaces *)
(* ------------------------------------------------------------------ *)

Record VaultUploadResponse : Type := {
  objectId : string;
  uploadUrl : string;
  expiresIn : Js.number;
  s3Key : string;
  auto_index : bool;
  next_step : option string          (* string | null *)
}.

(** Declared with [object_id] and [chunk_index] required; the display loop
    still guards both, so they are kept optional here. *)
Record VaultSearchResult : Type := {
  text : string;
  object_id : option string;
  chunk_index : option Js.number;
  score : option Js.number;
  hybridScore : option Js.number
}.

Record VaultSearchSource : Type := {
  source_id : string;
  source_filename : string;
  pageCount : option Js.number;
  textLength : option Js.number;
  chunkCount : option Js.number
}.

Record VaultSearchResponse : Type := {
  sr_method : string;
  sr_query : string;
  sr_response : option string;
  chunks : option (list VaultSearchResult);
  sources : option (list VaultSearchSource);
  sr_vault_id : string
}.

(** [results]: the known keys [summary], [sources], [analysis], and the
    entries under any other key, in the order of the object. *)
Record ResearchResults : Type := {
  summary : option string;
  rs_sources : option (list string);
  analysis : option string;
  other_entries : list (string * value)
}.

(** [results] is declared required; the tool still guards it. *)
Record ResearchResponse : Type := {
  researchId : string;
  rr_model : string;
  results : option ResearchResults
}.

Inductive TranscriptionStatus : Type :=
| queued | processing | completed | error.

Definition status_name (s : TranscriptionStatus) : string :=
  match s with
  | queued => "queued"
  | processing => "processing"
  | completed => "completed"
  | error => "error"
  end.

Record Word : Type := {
  w_text : string;
  w_start : Js.number;
  w_end : Js.number;
  w_confidence : Js.number;
  w_speaker : option string
}.

Record Utterance : Type := {
  u_text : string;
  u_start : Js.number;
  u_end : Js.number;
  u_confidence : Js.number;
  u_speaker : string
}.

Record TranscriptionResponse : Type := {
  tr_id : string;
  tr_status : TranscriptionStatus;
  tr_vault_id : option string;
  tr_source_object_id : option string;
  tr_text : option string;
  tr_words : option (list Word);
  tr_utterances : option (list Utterance);
  tr_audio_duration : option Js.number;
  tr_language_code : option string
}.

(** The type argument [T] of [request<T>]: the interface the decoded JSON
    body is read at. *)
Inductive Shape : Type :=
| TVaultUploadResponse
| TIngestResponse
| TVaultSearchResponse
| TResearchResponse
| TTranscriptionResponse
| TUnknown.

Definition El (T : Shape) : Type :=
  match T with
  | TVaultUploadResponse => VaultUploadResponse
  | TIngestResponse => string               (* { status: string } *)
  | TVaultSearchResponse => VaultSearchResponse
  | TResearchResponse => ResearchResponse
  | TTranscriptionResponse => TranscriptionResponse
  | TUnknown => value
  end.

(* ------------------------------------------------------------------ *)
(** * The network, the file system and the stores the client reads *)
(* ------------------------------------------------------------------ *)

Inductive Method : Type := GET | POST | PUT | DELETE.

Inductive ResponseType : Type := json | text_ | arraybuffer.

Inductive FetchBody : Type :=
| JsonString (v : value)        (* JSON.stringify(body) *)
| Buffer (b : bytes).

(** One call of [fetch(url, init)].  [signal] is the abort controller whose
    signal the call carries, if any. *)
Record FetchCall : Type := {
  url : string;
  method : Method;
  signal : option nat;
  headers : list (string * string);
  body : option FetchBody
}.

(** A [Response].  The three body readers may each fail; [read_json] is
    the parsed body read at the interface [T]. *)
Record Response (T : Shape) : Type := {
  ok : bool;
  status : Js.number;
  statusText : string;
  read_text : JsError + string;
  read_json : JsError + El T;
  read_arrayBuffer : JsError + bytes
}.

Arguments ok {T} _.
Arguments status {T} _.
Arguments statusText {T} _.
Arguments read_text {T} _.
Arguments read_json {T} _.
Arguments read_arrayBuffer {T} _.

(** A persisted authentication record ([Auth.Info]), a union told apart by
    its [type] field. *)
Inductive AuthInfo : Type :=
| AuthOauth (refresh access : string) (expires : Js.number)
| AuthApi (key : string)
| AuthWellKnown (key token : string).

Record ProviderOptions : Type := { apiKey : option string }.
Record ProviderConfig : Type := { options : option ProviderOptions }.
Record Config : Type := { provider : option (list (string * ProviderConfig)) }.

Record Stats : Type := { size : Js.number }.

(** Everything outside the tools: the process environment, the auth store,
    the configuration, the file system, the remote services and the
    library functions of the runtime.  [network T history call] is how the
    exchange [call] settles after the calls in [history]; [deadline_first
    history call timeout] tells whether a timer of [timeout] milliseconds
    fires before it settles. *)
Record World : Type := {
  env_THURGOOD_API_KEY : option string;
  env_CASEDEV_API_KEY : option string;
  Auth_get : string -> option AuthInfo;
  Config_get : Config;
  fs_readFile : string -> JsError + bytes;
  fs_stat : string -> JsError + Stats;
  network : forall T : Shape, list FetchCall -> FetchCall -> JsError + Response T;
  deadline_first : list FetchCall -> FetchCall -> Js.number -> bool;
  path_resolve : string -> string;
  path_basename : string -> string;
  path_extname : string -> string;
  toLowerCase : string -> string;
  toUpperCase : string -> string;
  Number_toString : Js.number -> string;
  JSON_stringify : value -> string;
  JSON_stringify_pretty : value -> string    (* JSON.stringify(v, null, 2) *)
}.

(* ------------------------------------------------------------------ *)
(** * State and the monad of the tools *)
(* ------------------------------------------------------------------ *)

(** A pending timer: its id, the controller it aborts, its delay. *)
Record Timer : Type := {
  timer_id : nat;
  timer_aborts : nat;
  timer_delay : Js.number
}.

(** A [ctx.metadata(...)] update. *)
Record Notice : Type := {
  notice_title : string;
  notice_metadata : list (string * value)
}.

Record State : Type := {
  fetched : list FetchCall;      (* the calls of [fetch] so far, oldest first *)
  timers : list Timer;           (* the timers set and neither cleared nor fired *)
  next_id : nat;                 (* next controller or timer id *)
  notices : list Notice          (* the [ctx.metadata] updates so far *)
}.

Definition initial : State :=
  {| fetched := []; timers := []; next_id := 0%nat; notices := [] |}.

Inductive Completion (A : Type) : Type :=
| Return (a : A)
| Throw (e : JsError).

Arguments Return {A} _.
Arguments Throw {A} _.

Definition M (A : Type) : Type := State -> State * Completion A.

Definition ret {A : Type} (a : A) : M A := fun st => (st, Return a).

Definition throw {A : Type} (e : JsError) : M A := fun st => (st, Throw e).

Definition bind {A B : Type} (c : M A) (k : A -> M B) : M B :=
  fun st =>
    match c st with
    | (st', Return a) => k a st'
    | (st', Throw e) => (st', Throw e)
    end.

(** [try { c } catch (e) { h(e) }]. *)
Definition try_catch {A : Type} (c : M A) (h : JsError -> M A) : M A :=
  fun st =>
    match c st with
    | (st', Return a) => (st', Return a)
    | (st', Throw e) => h e st'
    end.

(** [await p] for a promise that is already settled. *)
Definition await {A : Type} (p : JsError + A) : M A :=
  match p with
  | inl e => throw e
  | inr a => ret a
  end.

Notation "'let*' x ':=' c 'in' k" := (bind c (fun x => k))
  (at level 10, x name, c at level 100, k at level 200).
Notation "c ';;' k" := (bind c (fun _ => k))
  (at level 100, k at level 200, right associativity).

(** [new AbortController()]. *)
Definition new_AbortController : M nat :=
  fun st =>
    ({| fetched := fetched st; timers := timers st;
        next_id := S (next_id st); notices := notices st |},
     Return (next_id st)).

(** [setTimeout(() => controller.abort(), delay)]. *)
Definition setTimeout_abort (controller : nat) (delay : Js.number) : M nat :=
  fun st =>
    let t := {| timer_id := next_id st; timer_aborts := controller;
                timer_delay := delay |} in
    ({| fetched := fetched st; timers := timers st ++ [t];
        next_id := S (next_id st); notices := notices st |},
     Return (next_id st)).

Definition drop_timer (id : nat) (ts : list Timer) : list Timer :=
  filter (fun t => negb (Nat.eqb (timer_id t) id)) ts.

(** [clearTimeout(id)]; clearing a timer that is gone does nothing. *)
Definition clearTimeout (id : nat) : M unit :=
  fun st =>
    ({| fetched := fetched st; timers := drop_timer id (timers st);
        next_id := next_id st; notices := notices st |},
     Return tt).

(** The pending timer that aborts the controller of [sig], if there is one. *)
Definition armed (sig : option nat) (ts : list Timer) : option Timer :=
  match sig with
  | None => None
  | Some c => find (fun t => Nat.eqb (timer_aborts t) c) ts
  end.

(** [fetch(url, init)].  The call is recorded.  When it carries the signal
    of a controller with a pending timer and that timer fires first, the
    timer is spent, the controller aborts and the promise rejects with an
    [AbortError]; otherwise the exchange settles as the network decides. *)
Definition fetch (W : World) (T : Shape) (call : FetchCall) : M (Response T) :=
  fun st =>
    let history := fetched st in
    let settle (ts : list Timer) (c : Completion (Response T)) :=
      ({| fetched := history ++ [call]; timers := ts;
          next_id := next_id st; notices := notices st |}, c) in
    match armed (signal call) (timers st) with
    | Some t =>
        if deadline_first W history call (timer_delay t)
        then settle (drop_timer (timer_id t) (timers st)) (Throw AbortError)
        else settle (timers st)
               match network W T history call with
               | inl e => Throw e
               | inr r => Return r
               end
    | None =>
        settle (timers st)
          match network W T history call with
          | inl e => Throw e
          | inr r => Return r
          end
    end.

(** [ctx.metadata({ title, metadata })]. *)
Definition ctx_metadata (title : string) (metadata : list (string * value)) : M unit :=
  fun st =>
    ({| fetched := fetched st; timers := timers st; next_id := next_id st;
        notices := notices st ++ [{| notice_title := title;
                                     notice_metadata := metadata |}] |},
     Return tt).

(* ------------------------------------------------------------------ *)
(** * The client: credential resolution and the request executor *)
(* ------------------------------------------------------------------ *)

Module CaseDevClient.

Definition CASEDEV_API_URL : string := "https://api.case.dev".

(** [config.provider?.["thurgood"]?.options?.apiKey]. *)
Definition config_apiKey (config : Config) : option string :=
  match provider config with
  | None => None
  | Some providers =>
      match obj_get "thurgood" providers with
      | None => None
      | Some p =>
          match options p with
          | None => None
          | Some o => apiKey o
          end
      end
  end.

(** [getApiKey()].  [Auth.get] and [Config.get] are reads of the world. *)
Definition getApiKey (W : World) : M (option string) :=
  (* Check environment variables first *)
  let envKey := Js.nullish_opt (env_THURGOOD_API_KEY W) (env_CASEDEV_API_KEY W) in
  if Js.truthy_str envKey then ret envKey
  else
    (* Check auth storage *)
    let auth := Auth_get W "thurgood" in
    match auth with
    | Some (AuthApi key) => ret (Some key)
    | _ =>
        (* Check config *)
        let config := Config_get W in
        let configKey := config_apiKey config in
        if Js.truthy_str configKey then ret configKey
        else ret None
    end.

Record RequestOptions : Type := {
  o_method : option Method;
  o_body : option value;
  o_headers : option (list (string * string));
  o_timeout : option Js.number;
  o_responseType : option ResponseType
}.

(** The default [options = {}]. *)
Definition no_options : RequestOptions :=
  {| o_method := None; o_body := None; o_headers := None;
     o_timeout := None; o_responseType := None |}.

(** What [request] resolves to, by response type. *)
Definition Result (T : Shape) (responseType : ResponseType) : Type :=
  match responseType with
  | json => El T
  | text_ => string
  | arraybuffer => bytes
  end.

(** [request<T>(endpoint, options)]. *)
Definition request (W : World) (T : Shape) (endpoint : string)
  (options : RequestOptions)
  : M (Result T (Js.nullish (o_responseType options) json)) :=
  let* apiKey := getApiKey W in
  match apiKey with
  | None => throw ApiKeyNotFound                          (* !apiKey *)
  | Some apiKey =>
  if String.eqb apiKey EmptyString then throw ApiKeyNotFound   (* !apiKey *)
  else
    let url := CASEDEV_API_URL ++ endpoint in
    let method := Js.nullish (o_method options) GET in
    let body := o_body options in
    let headers := Js.nullish (o_headers options) [] in
    let timeout := Js.nullish (o_timeout options) (Js.lit 30000) in
    let responseType := Js.nullish (o_responseType options) json in
    let* controller := new_AbortController in
    let* timeoutId := setTimeout_abort controller timeout in
    try_catch
      (let* response :=
         fetch W T
           {| url := url;
              method := method;
              signal := Some controller;
              headers :=
                obj_spread
                  [("Authorization", "Bearer " ++ apiKey);
                   ("Content-Type", "application/json")]
                  headers;
              body :=
                match body with
                | Some b => if truthy b then Some (JsonString b) else None
                | None => None
                end |} in
       clearTimeout timeoutId ;;
       if negb (ok response) then
         let errorText :=
           match read_text response with
           | inr t => t
           | inl _ => "Unknown error"
           end in
         throw (ApiError (status response) errorText)
       else
         (* Handle different response types *)
         match responseType as r return M (Result T r) with
         | arraybuffer => await (read_arrayBuffer response)
         | text_ => await (read_text response)
         | json => await (read_json response)
         end)
      (fun error =>
         clearTimeout timeoutId ;;
         if String.eqb (error_name error) "AbortError"
         then throw (RequestTimedOut timeout)
         else throw error)
  end.

(** The call of [fetch] a request makes with the key [apiKey] under the
    controller [controller]: the argument of [fetch] in [request]. *)
Definition exchange (apiKey : string) (endpoint : string)
  (options : RequestOptions) (controller : nat) : FetchCall :=
  {| url := CASEDEV_API_URL ++ endpoint;
     method := Js.nullish (o_method options) GET;
     signal := Some controller;
     headers :=
       obj_spread
         [("Authorization", "Bearer " ++ apiKey);
          ("Content-Type", "application/json")]
         (Js.nullish (o_headers options) []);
     body :=
       match o_body options with
       | Some b => if truthy b then Some (JsonString b) else None
       | None => None
       end |}.

(** The timeout in force for a call: [timeout = 30000] unless overridden. *)
Definition timeout_in_force (options : RequestOptions) : Js.number :=
  Js.nullish (o_timeout options) (Js.lit 30000).

(** What credential resolution yields in the world [W]. *)
Definition resolved (W : World) : Completion (option string) :=
  snd (getApiKey W initial).

(** What the catch block of [request] rethrows for a caught [error]. *)
Definition rethrown {A : Type} (timeout : Js.number) (error : JsError)
  : Completion A :=
  if String.eqb (error_name error) "AbortError"
  then Throw (RequestTimedOut timeout)
  else Throw error.

(** What a body reader gives back through the catch block. *)
Definition read {A : Type} (timeout : Js.number) (p : JsError + A)
  : Completion A :=
  match p with
  | inl e => rethrown timeout e
  | inr a => Return a
  end.

(** How a request completes once its call [call] is issued after the calls
    in [history]: by the deadline, by a failed exchange, by a non-success
    status or by the decoded body. *)
Definition outcome (W : World) (T : Shape) (options : RequestOptions)
  (history : list FetchCall) (call : FetchCall)
  : Completion (Result T (Js.nullish (o_responseType options) json)) :=
  let timeout := timeout_in_force options in
  if deadline_first W history call timeout
  then Throw (RequestTimedOut timeout)
  else
    match network W T history call with
    | inl e => rethrown timeout e
    | inr response =>
        if ok response then
          match Js.nullish (o_responseType options) json as r
                return Completion (Result T r) with
          | arraybuffer => read timeout (read_arrayBuffer response)
          | text_ => read timeout (read_text response)
          | json => read timeout (read_json response)
          end
        else
          Throw (ApiError (status response)
                   match read_text response with
                   | inr t => t
                   | inl _ => "Unknown error"
                   end)
    end.

(** The state a request that reached the network leaves behind: its call
    recorded, two ids used, the timers as they were. *)
Definition after (st : State) (call : FetchCall) : State :=
  {| fetched := fetched st ++ [call];
     timers := timers st;
     next_id := S (S (next_id st));
     notices := notices st |}.

(** The credential precedence as the design words it: the first present
    source among [THURGOOD_API_KEY], [CASEDEV_API_KEY], a persisted record
    of kind "api", the configured key.  An environment variable or a
    configured key is present when it is set and not empty. *)
Definition resolve_by_precedence (W : World) : option string :=
  if Js.truthy_str (env_THURGOOD_API_KEY W) then env_THURGOOD_API_KEY W
  else if Js.truthy_str (env_CASEDEV_API_KEY W) then env_CASEDEV_API_KEY W
  else
    match Auth_get W "thurgood" with
    | Some (AuthApi key) => Some key
    | _ =>
        if Js.truthy_str (config_apiKey (Config_get W))
        then config_apiKey (Config_get W)
        else None
    end.

End CaseDevClient.

(** Timer and controller ids in use are below the next id to allocate. *)
Definition well_formed (st : State) : Prop :=
  Forall (fun t => (timer_id t < next_id st)%nat /\ (timer_aborts t < next_id st)%nat)
    (timers st).

(* ------------------------------------------------------------------ *)
(** * The tools *)
(* ------------------------------------------------------------------ *)

(** What a tool returns. *)
Record ToolResult : Type := {
  title : string;
  metadata : list (string * value);
  output : string
}.

(** Strings.  A JS string is a sequence of UTF-16 code units.  It is held
    here as the bytes of its UTF-8 form, so that the literals of the source
    read the same on both sides; a surrogate that stands alone, which only
    a cut through a pair produces, is held as the three bytes of its
    generalised form.  A code point of the basic plane is one code unit
    and one to three bytes; a code point above it is two code units, a
    surrogate pair, and four bytes.  [length] and [slice0] count code
    units, as [s.length] and [s.slice(0, n)] do. *)
Module JsString.

Definition code (c : Ascii.ascii) : N := Ascii.N_of_ascii c.

(** A byte [10xxxxxx], which continues the code point of the bytes before. *)
Definition is_continuation (c : Ascii.ascii) : bool :=
  ((128 <=? code c) && (code c <? 192))%N.

(** A byte [11110xxx], which opens a code point above the basic plane. *)
Definition is_pair_lead (c : Ascii.ascii) : bool := (240 <=? code c)%N.

(** The code units a byte stands for. *)
Definition units (c : Ascii.ascii) : nat :=
  if is_continuation c then 0%nat
  else if is_pair_lead c then 2%nat
  else 1%nat.

(** [s.length]. *)
Fixpoint length (s : string) : nat :=
  match s with
  | EmptyString => 0%nat
  | String c rest => (units c + length rest)%nat
  end.

Definition byte_at (i : nat) (s : string) : N :=
  match String.get i s with
  | Some c => code c
  | None => 0%N
  end.

(** The first half of the surrogate pair of the code point that [lead]
    opens and [rest] continues: [0xD800 + ((cp - 0x10000) >> 10)], in its
    three-byte form. *)
Definition high_surrogate (lead : Ascii.ascii) (rest : string) : string :=
  let top :=
    ((code lead mod 8) * 256 + (byte_at 0 rest mod 64) * 4
     + (byte_at 1 rest mod 64) / 16)%N in
  let high := (55296 + (top - 64))%N in
  String (Ascii.ascii_of_N 237)
    (String (Ascii.ascii_of_N (128 + (high / 64) mod 64))
       (String (Ascii.ascii_of_N (128 + high mod 64)) EmptyString)).

(** [s.slice(0, n)]: the first [n] code units of [s], all of [s] when it
    has no more.  A cut between the two halves of a pair keeps the first
    half alone. *)
Fixpoint slice0 (n : nat) (s : string) : string :=
  match s with
  | EmptyString => EmptyString
  | String c rest =>
      if is_continuation c then String c (slice0 n rest)
      else
        match n with
        | O => EmptyString
        | S n' =>
            if is_pair_lead c then
              match n' with
              | O => high_surrogate c rest
              | S n'' => String c (slice0 n'' rest)
              end
            else String c (slice0 n' rest)
        end
  end.

(** The bytes past the continuation bytes that open [s]. *)
Fixpoint past_continuation (s : string) : string :=
  match s with
  | EmptyString => EmptyString
  | String c rest => if is_continuation c then past_continuation rest else s
  end.

(** [s.slice(1)] for an [s] that opens with a code point of the basic
    plane. *)
Definition slice1 (s : string) : string :=
  match s with
  | EmptyString => EmptyString
  | String _ rest => past_continuation rest
  end.

End JsString.

(** [s.slice(0, n)]. *)
Definition slice0 (n : nat) (s : string) : string := JsString.slice0 n s.

Definition bullet : string := "•".

Module VaultUploadTool.

Record Params : Type := {
  p_vault_id : string;
  p_file_path : string;
  p_auto_index : option bool
}.

Definition contentTypeMap : list (string * string) :=
  [ (* Documents *)
    (".pdf", "application/pdf");
    (".png", "image/png");
    (".jpg", "image/jpeg");
    (".jpeg", "image/jpeg");
    (".tiff", "image/tiff");
    (".tif", "image/tiff");
    (".docx", "application/vnd.openxmlformats-officedocument.wordprocessingml.document");
    (".txt", "text/plain");
    (* Audio *)
    (".mp3", "audio/mpeg");
    (".wav", "audio/wav");
    (".m4a", "audio/mp4");
    (".aac", "audio/aac");
    (".ogg", "audio/ogg");
    (".flac", "audio/flac");
    (* Video *)
    (".mp4", "video/mp4");
    (".webm", "video/webm");
    (".mov", "video/quicktime");
    (".avi", "video/x-msvideo") ].

(** The object the tool returns, given what the three steps produced. *)
Definition result (W : World) (params : Params) (filename : string)
  (stats : Stats) (uploadResponse : VaultUploadResponse) (ingestStatus : string)
  : ToolResult :=
  {| title := "Uploaded: " ++ filename;
     metadata :=
       [("objectId", VStr (objectId uploadResponse));
        ("vaultId", VStr (p_vault_id params));
        ("filename", VStr filename);
        ("autoIndex", VBool (auto_index uploadResponse))];
     output :=
       "Document uploaded to vault." ++ nl ++ nl
       ++ "Object ID: " ++ objectId uploadResponse ++ nl
       ++ "Filename: " ++ filename ++ nl
       ++ "Size: "
       ++ Number_toString W (Js.Math_round (Js.div (size stats) (Js.lit 1024)))
       ++ " KB" ++ nl
       ++ "Auto-index: " ++ Js.string_of_bool (auto_index uploadResponse) ++ nl
       ++ "Ingestion: " ++ ingestStatus ++ nl ++ nl
       ++ (if auto_index uploadResponse
           then "The document is being processed for indexing. Once complete, it will be searchable via casedev_vault_search."
           else "Document stored but not indexed. Use casedev_vault_ingest to process it later.") |}.

(** [contentTypeMap[ext] ?? "application/octet-stream"] for the extension
    of [filePath]. *)
Definition contentType_of (W : World) (filePath : string) : string :=
  let ext := toLowerCase W (path_extname W filePath) in
  Js.nullish (obj_get ext contentTypeMap) "application/octet-stream".

(** Step 1: the request for a presigned upload URL. *)
Definition request_slot (W : World) (params : Params) (filename : string)
  (contentType : string) (stats : Stats) : M VaultUploadResponse :=
  CaseDevClient.request W TVaultUploadResponse
    ("/vault/" ++ p_vault_id params ++ "/upload")
    {| CaseDevClient.o_method := Some POST;
       CaseDevClient.o_body :=
         Some (VObj
           [("filename", VStr filename);
            ("contentType", VStr contentType);
            ("auto_index", VBool (Js.nullish (p_auto_index params) true));
            ("sizeBytes", VNum (size stats))]);
       CaseDevClient.o_headers := None;
       CaseDevClient.o_timeout := None;
       CaseDevClient.o_responseType := None |}.

(** Step 2: the direct transfer of the bytes to the presigned URL. *)
Definition transfer_call (uploadResponse : VaultUploadResponse)
  (contentType : string) (fileBuffer : bytes) : FetchCall :=
  {| url := uploadUrl uploadResponse;
     method := PUT;
     signal := None;
     headers := [("Content-Type", contentType)];
     body := Some (Buffer fileBuffer) |}.

(** Step 3: the request that triggers ingestion. *)
Definition request_ingest (W : World) (params : Params)
  (uploadResponse : VaultUploadResponse) : M string :=
  CaseDevClient.request W TIngestResponse
    ("/vault/" ++ p_vault_id params ++ "/ingest/" ++ objectId uploadResponse)
    {| CaseDevClient.o_method := Some POST;
       CaseDevClient.o_body := None;
       CaseDevClient.o_headers := None;
       CaseDevClient.o_timeout := None;
       CaseDevClient.o_responseType := None |}.

Definition execute (W : World) (params : Params) : M ToolResult :=
  (* Read the file *)
  let filePath := path_resolve W (p_file_path params) in
  let* fileBuffer := await (fs_readFile W filePath) in
  let filename := path_basename W filePath in
  let* stats := await (fs_stat W filePath) in
  (* Determine content type *)
  let contentType := contentType_of W filePath in
  (* Step 1: Get presigned upload URL *)
  let* uploadResponse := request_slot W params filename contentType stats in
  (* Step 2: Upload file directly to S3 using presigned URL *)
  let* s3Response :=
    fetch W TUnknown (transfer_call uploadResponse contentType fileBuffer) in
  if negb (ok s3Response) then
    throw (S3UploadFailed (status s3Response) (statusText s3Response))
  else
    (* Step 3: Trigger ingestion if auto_index is enabled *)
    let* ingestStatus :=
      if Js.truthy_str (next_step uploadResponse) && auto_index uploadResponse
      then
        try_catch
          (request_ingest W params uploadResponse ;; ret "started")
          (fun e => ret "failed to start")
      else ret "skipped" in
    ret (result W params filename stats uploadResponse ingestStatus).

End VaultUploadTool.

Module VaultSearchTool.

Inductive SearchMethod : Type :=
| hybrid | fast | global | entity | local | vector | graph.

Definition method_name (m : SearchMethod) : string :=
  match m with
  | hybrid => "hybrid"
  | fast => "fast"
  | global => "global"
  | entity => "entity"
  | local => "local"
  | vector => "vector"
  | graph => "graph"
  end.

Record Params : Type := {
  p_vault_id : string;
  p_query : string;
  p_method : option SearchMethod;
  p_top_k : option Js.number;
  p_object_id : option string
}.

(** The [filters] object built before the request. *)
Definition filters_of (params : Params) : list (string * value) :=
  let filters := [] in
  if Js.truthy_str (p_object_id params)
  then obj_set "object_id" (opt_value VStr (p_object_id params)) filters
  else filters.

(** The [body] of the search request. *)
Definition request_body (params : Params) : list (string * value) :=
  let filters := filters_of params in
  [("query", VStr (p_query params));
   ("method", VStr (method_name (Js.nullish (p_method params) hybrid)));
   ("topK",
    VNum (Js.Math_min
            (Js.Math_max (Js.nullish (p_top_k params) (Js.lit 10)) (Js.lit 1))
            (Js.lit 100)));
   ("filters", if (0 <? List.length filters)%nat then VObj filters else VUndefined)].

(** The options of the search request. *)
Definition request_options (params : Params) : CaseDevClient.RequestOptions :=
  {| CaseDevClient.o_method := Some POST;
     CaseDevClient.o_body := Some (VObj (request_body params));
     CaseDevClient.o_headers := None;
     CaseDevClient.o_timeout := None;
     CaseDevClient.o_responseType := None |}.

(** One turn of the loop over [response.chunks], at index [i]. *)
Definition show_chunk (W : World) (i : nat) (chunk : VaultSearchResult)
  (output : string) : string :=
  let score :=
    Js.nullish (Js.nullish_opt (hybridScore chunk) (score chunk)) (Js.lit 0) in
  let confidence := Js.Math_round (Js.mul score (Js.lit 100)) in
  let output :=
    output ++ ("--- Result " ++ Number_toString W (Js.lit (Z.of_nat i + 1))
               ++ " (" ++ Number_toString W confidence ++ "% match) ---" ++ nl) in
  let output :=
    if Js.truthy_str (object_id chunk) then
      let output :=
        output ++ ("Document: " ++ Js.nullish (object_id chunk) EmptyString) in
      let output :=
        match chunk_index chunk with
        | Some ci => output ++ (" (chunk " ++ Number_toString W ci ++ ")")
        | None => output
        end in
      output ++ nl
    else output in
  output ++ (nl ++ text chunk ++ nl ++ nl).

(** [for (let i = 0; i < response.chunks.length; i++) ...], from index [i]. *)
Fixpoint show_chunks (W : World) (i : nat) (chunks : list VaultSearchResult)
  (output : string) : string :=
  match chunks with
  | [] => output
  | chunk :: rest => show_chunks W (S i) rest (show_chunk W i chunk output)
  end.

(** [for (const source of response.sources) ...]. *)
Fixpoint show_sources (W : World) (srcs : list VaultSearchSource)
  (output : string) : string :=
  match srcs with
  | [] => output
  | source :: rest =>
      let output :=
        output ++ (bullet ++ " " ++ source_filename source
                   ++ " (" ++ source_id source ++ ")") in
      let output :=
        match pageCount source with
        | Some pc =>
            if Js.truthy_num pc
            then output ++ (" - " ++ Number_toString W pc ++ " pages")
            else output
        | None => output
        end in
      show_sources W rest (output ++ nl)
  end.

Definition source_value (src : VaultSearchSource) : value :=
  VObj [("id", VStr (source_id src));
        ("filename", VStr (source_filename src));
        ("pageCount", opt_value VNum (pageCount src));
        ("textLength", opt_value VNum (textLength src));
        ("chunkCount", opt_value VNum (chunkCount src))].

Definition no_results (params : Params) (response : VaultSearchResponse)
  : ToolResult :=
  {| title := "No results found";
     metadata :=
       [("vaultId", VStr (p_vault_id params));
        ("query", VStr (p_query params));
        ("method", VStr (sr_method response));
        ("resultCount", VNum (Js.lit 0))];
     output :=
       "No documents matched your query: " ++ dq ++ p_query params ++ dq ++ nl
       ++ nl
       ++ "Try:" ++ nl
       ++ "- Using different keywords or phrasing" ++ nl
       ++ "- Checking if documents have been uploaded and indexed" ++ nl
       ++ "- Using a broader search term" ++ nl
       ++ "- Trying a different search method (global, fast, hybrid)" |}.

(** The [output] built when there are chunks to show. *)
Definition found_output (W : World) (params : Params)
  (response : VaultSearchResponse) (cs : list VaultSearchResult) : string :=
  let count := Js.lit (Z.of_nat (List.length cs)) in
  let output :=
    "Search results for: " ++ dq ++ p_query params ++ dq ++ nl in
  let output := output ++ ("Method: " ++ sr_method response ++ nl) in
  let output :=
    output ++ ("Found " ++ Number_toString W count
               ++ " relevant chunk(s)" ++ nl ++ nl) in
  (* Show AI response if available (from global/entity methods) *)
  let output :=
    if Js.truthy_str (sr_response response)
    then output ++ ("--- AI Analysis ---" ++ nl
                    ++ Js.nullish (sr_response response) EmptyString
                    ++ nl ++ nl)
    else output in
  (* Show chunks *)
  let output := show_chunks W 0 cs output in
  (* Show source documents *)
  match sources response with
  | Some (src :: srcs) =>
      show_sources W (src :: srcs)
        (output ++ ("--- Source Documents ---" ++ nl))
  | _ => output
  end.

(** The result returned when there are chunks to show. *)
Definition found (W : World) (params : Params)
  (response : VaultSearchResponse) (cs : list VaultSearchResult) : ToolResult :=
  let count := Js.lit (Z.of_nat (List.length cs)) in
  {| title :=
       Number_toString W count ++ " result(s) for " ++ dq
       ++ slice0 30 (p_query params) ++ "..." ++ dq;
     metadata :=
       [("vaultId", VStr (p_vault_id params));
        ("query", VStr (p_query params));
        ("method", VStr (sr_method response));
        ("resultCount", VNum count);
        ("sources",
         opt_value (fun l => VArr (map source_value l)) (sources response))];
     output := found_output W params response cs |}.

Definition execute (W : World) (params : Params) : M ToolResult :=
  let* response :=
    CaseDevClient.request W TVaultSearchResponse
      ("/vault/" ++ p_vault_id params ++ "/search")
      (request_options params) in
  match chunks response with
  | None | Some [] => ret (no_results params response)
  | Some cs => ret (found W params response cs)
  end.





End VaultSearchTool.

Module LegalSearchTool.

Inductive Mode : Type := fast | normal | pro.

Definition mode_name (m : Mode) : string :=
  match m with
  | fast => "fast"
  | normal => "normal"
  | pro => "pro"
  end.

Record Params : Type := {
  p_query : string;
  p_mode : option Mode
}.

(** [params.mode === "pro" ? 360000 : params.mode === "normal" ? 180000 : 60000]. *)
Definition timeout_of (mode : option Mode) : Js.number :=
  match mode with
  | Some pro => Js.lit 360000
  | _ =>
      match mode with
      | Some normal => Js.lit 180000
      | _ => Js.lit 60000
      end
  end.

(** The [model] field of the request body: [params.mode ?? "normal"]. *)
Definition model_of (mode : option Mode) : string :=
  Js.nullish (option_map mode_name mode) "normal".

(** The options of the research request, with the timeout chosen. *)
Definition request_options (params : Params) (timeout : Js.number)
  : CaseDevClient.RequestOptions :=
  {| CaseDevClient.o_method := Some POST;
     CaseDevClient.o_body :=
       Some (VObj [("instructions", VStr (p_query params));
                   ("model", VStr (model_of (p_mode params)))]);
     CaseDevClient.o_headers := None;
     CaseDevClient.o_timeout := Some timeout;
     CaseDevClient.o_responseType := None |}.

Definition knownKeys : list string := ["summary"; "sources"; "analysis"].

Definition includes (keys : list string) (key : string) : bool :=
  existsb (String.eqb key) keys.

(** [key.charAt(0).toUpperCase() + key.slice(1)].  When [key] opens with
    a surrogate pair, [charAt(0)] is its first half alone, which has no
    upper case, and the two halves join again: the key is unchanged. *)
Definition capitalize (W : World) (key : string) : string :=
  match key with
  | String c _ =>
      if JsString.is_pair_lead c then key
      else toUpperCase W (JsString.slice0 1 key) ++ JsString.slice1 key
  | EmptyString => toUpperCase W EmptyString
  end.

Definition show_items (W : World) (items : list value) : string :=
  fold_left
    (fun out item =>
       out ++ (bullet ++ " "
               ++ match item with
                  | VStr s => s
                  | _ => JSON_stringify W item
                  end ++ nl))
    items EmptyString.

(** The loop over [Object.entries(response.results)] for the other keys. *)
Fixpoint show_others (W : World) (entries : list (string * value))
  (output : string) : string :=
  match entries with
  | [] => output
  | (key, v) :: rest =>
      let output :=
        if negb (includes knownKeys key) && truthy v then
          let output :=
            output ++ (nl ++ "--- " ++ capitalize W key ++ " ---" ++ nl) in
          match v with
          | VStr s => output ++ (s ++ nl)
          | VArr items => output ++ show_items W items
          | _ => output ++ (JSON_stringify_pretty W v ++ nl)
          end
        else output in
      show_others W rest output
  end.

Definition show_source_lines (srcs : list string) : string :=
  fold_left (fun out source => out ++ (bullet ++ " " ++ source ++ nl))
    srcs EmptyString.

Definition execute (W : World) (params : Params) : M ToolResult :=
  ctx_metadata
    ("Researching: " ++ slice0 40 (p_query params) ++ "...")
    [("mode", opt_value (fun m => VStr (mode_name m)) (p_mode params));
     ("status", VStr "searching")] ;;
  (* For pro mode, we need longer timeout *)
  let timeout := timeout_of (p_mode params) in
  let* response :=
    CaseDevClient.request W TResearchResponse "/search/v1/research"
      (request_options params timeout) in
  match results response with
  | None =>
      ret {| title := "No results found";
             metadata :=
               [("query", VStr (p_query params));
                ("mode", opt_value (fun m => VStr (mode_name m)) (p_mode params));
                ("resultCount", VNum (Js.lit 0))];
             output :=
               "No results found for: " ++ dq ++ p_query params ++ dq ++ nl
               ++ nl
               ++ "Try:" ++ nl
               ++ "- Rephrasing your query" ++ nl
               ++ "- Using more specific legal terms" ++ nl
               ++ "- Breaking complex questions into simpler parts" |}
  | Some res =>
      let output :=
        "Research results for: " ++ dq ++ p_query params ++ dq ++ nl in
      let output := output ++ ("Mode: " ++ rr_model response ++ nl) in
      let output :=
        output ++ ("Research ID: " ++ researchId response ++ nl ++ nl) in
      (* Show summary if available *)
      let output :=
        if Js.truthy_str (summary res)
        then output ++ ("--- Summary ---" ++ nl
                        ++ Js.nullish (summary res) EmptyString ++ nl ++ nl)
        else output in
      (* Show analysis if available *)
      let output :=
        if Js.truthy_str (analysis res)
        then output ++ ("--- Analysis ---" ++ nl
                        ++ Js.nullish (analysis res) EmptyString ++ nl ++ nl)
        else output in
      (* Show sources if available *)
      let output :=
        match rs_sources res with
        | Some (src :: srcs) =>
            output ++ ("--- Sources ---" ++ nl)
            ++ show_source_lines (src :: srcs)
        | _ => output
        end in
      (* Show any other results *)
      let output := show_others W (other_entries res) output in
      ret {| title :=
               "Research complete: " ++ dq ++ slice0 30 (p_query params)
               ++ "..." ++ dq;
             metadata :=
               [("query", VStr (p_query params));
                ("mode", VStr (rr_model response));
                ("researchId", VStr (researchId response))];
             output := output |}
  end.

End LegalSearchTool.

Module TranscribeTool.

Inductive Format : Type := fmt_json | fmt_text.

Definition format_name (f : Format) : string :=
  match f with
  | fmt_json => "json"
  | fmt_text => "text"
  end.

Record Params : Type := {
  p_vault_id : option string;
  p_object_id : option string;
  p_audio_url : option string;
  p_format : option Format;
  p_language_code : option string;
  p_speaker_labels : option bool;
  p_speakers_expected : option Js.number;
  p_word_boost : option (list string)
}.

(** [params.vault_id && params.object_id], as a condition. *)
Definition isVaultMode (params : Params) : bool :=
  Js.truthy_str (p_vault_id params) && Js.truthy_str (p_object_id params).

(** The result returned when neither entry mode is given. *)
Definition missing_parameters : ToolResult :=
  {| title := "Error: Missing parameters";
     metadata := [("error", VBool true)];
     output :=
       "Either vault_id + object_id OR audio_url is required." ++ nl
       ++ nl
       ++ "Vault mode (recommended):" ++ nl
       ++ "- vault_id: The vault containing your audio file" ++ nl
       ++ "- object_id: The object ID of the audio file" ++ nl
       ++ nl
       ++ "Direct URL mode:" ++ nl
       ++ "- audio_url: Public URL to the audio file" |}.

(** The request body, built field by field. *)
Definition request_body (params : Params) : list (string * value) :=
  let body := [] in
  let body :=
    if isVaultMode params then
      let body := obj_set "vault_id" (opt_value VStr (p_vault_id params)) body in
      let body := obj_set "object_id" (opt_value VStr (p_object_id params)) body in
      obj_set "format"
        (VStr (format_name (Js.nullish (p_format params) fmt_json))) body
    else obj_set "audio_url" (opt_value VStr (p_audio_url params)) body in
  (* Add optional parameters *)
  let body :=
    if Js.truthy_str (p_language_code params)
    then obj_set "language_code" (opt_value VStr (p_language_code params)) body
    else body in
  let body :=
    match p_speaker_labels params with
    | Some b => obj_set "speaker_labels" (VBool b) body
    | None => body
    end in
  let body :=
    match p_speakers_expected params with
    | Some n =>
        if Js.truthy_num n then obj_set "speakers_expected" (VNum n) body
        else body
    | None => body
    end in
  match p_word_boost params with
  | Some ws => obj_set "word_boost" (VArr (map VStr ws)) body
  | None => body
  end.

(** The options of the submission request. *)
Definition request_options (body : list (string * value))
  : CaseDevClient.RequestOptions :=
  {| CaseDevClient.o_method := Some POST;
     CaseDevClient.o_body := Some (VObj body);
     CaseDevClient.o_headers := None;
     CaseDevClient.o_timeout := Some (Js.lit 30000);
     CaseDevClient.o_responseType := None |}.

Definition execute (W : World) (params : Params) : M ToolResult :=
  (* Validate mode *)
  if negb (isVaultMode params) && negb (Js.truthy_str (p_audio_url params))
  then ret missing_parameters
  else
    ctx_metadata "Transcribing audio..." [("status", VStr "submitting")] ;;
    (* Build request body *)
    let body := request_body params in
    (* Submit transcription job *)
    let* response :=
      CaseDevClient.request W TTranscriptionResponse "/voice/transcription"
        (request_options body) in
    let job := tr_id response in
    let stat := status_name (tr_status response) in
    (* For vault mode, the job runs async and results are stored in vault *)
    if isVaultMode params then
      let vault := Js.nullish (p_vault_id params) EmptyString in
      let object := Js.nullish (p_object_id params) EmptyString in
      ret {| title := "Transcription job started: " ++ job;
             metadata :=
               [("jobId", VStr job);
                ("status", VStr stat);
                ("vaultId", VStr vault);
                ("objectId", VStr object)];
             output :=
               "Transcription job submitted." ++ nl
               ++ nl
               ++ "Job ID: " ++ job ++ nl
               ++ "Status: " ++ stat ++ nl
               ++ "Vault: " ++ vault ++ nl
               ++ "Source: " ++ object ++ nl
               ++ nl
               ++ "The transcription is processing asynchronously. When complete:" ++ nl
               ++ "- Results will be saved to the vault" ++ nl
               ++ "- Use casedev_transcribe_status with job_id=" ++ dq ++ job
               ++ dq ++ " to check progress" |}
    else
      (* For direct URL mode, also returns async job *)
      ret {| title := "Transcription job started: " ++ job;
             metadata := [("jobId", VStr job); ("status", VStr stat)];
             output :=
               "Transcription job submitted." ++ nl
               ++ nl
               ++ "Job ID: " ++ job ++ nl
               ++ "Status: " ++ stat ++ nl
               ++ "Audio URL: " ++ Js.nullish (p_audio_url params) EmptyString ++ nl
               ++ nl
               ++ "The transcription is processing. Use casedev_transcribe_status with job_id="
               ++ dq ++ job ++ dq ++ " to check progress and get results." |}.




End TranscribeTool.

(* ------------------------------------------------------------------ *)
(** * Concrete worlds, used to run the tools *)
(* ------------------------------------------------------------------ *)

Module Example.

Definition uploadResponse : VaultUploadResponse :=
  {| objectId := "obj_123";
     uploadUrl := "https://s3.example.com/put/obj_123";
     expiresIn := Js.lit 3600;
     s3Key := "vaults/vault_abc/obj_123";
     auto_index := true;
     next_step := Some "ingest" |}.

Definition chunk (h p : option Js.number) : VaultSearchResult :=
  {| text := "termination clause";
     object_id := Some "obj_123";
     chunk_index := Some (Js.lit 0);
     score := p;
     hybridScore := h |}.

Definition searchResponse : VaultSearchResponse :=
  {| sr_method := "hybrid";
     sr_query := "termination";
     sr_response := None;
     chunks := Some [chunk None None];
     sources := None;
     sr_vault_id := "vault_abc" |}.

Definition researchResponse : ResearchResponse :=
  {| researchId := "res_1"; rr_model := "normal"; results := None |}.

Definition transcriptionResponse : TranscriptionResponse :=
  {| tr_id := "job_1";
     tr_status := queued;
     tr_vault_id := None;
     tr_source_object_id := None;
     tr_text := None;
     tr_words := None;
     tr_utterances := None;
     tr_audio_duration := None;
     tr_language_code := None |}.

(** The JSON body the example backend answers with, at each interface. *)
Definition payload (T : Shape) : El T :=
  match T with
  | TVaultUploadResponse => uploadResponse
  | TIngestResponse => "processing"
  | TVaultSearchResponse => searchResponse
  | TResearchResponse => researchResponse
  | TTranscriptionResponse => transcriptionResponse
  | TUnknown => VNull
  end.

Definition respond (T : Shape) (code : Z) : Response T :=
  {| ok := (200 <=? code) && (code <=? 299);
     status := Js.lit code;
     statusText := EmptyString;
     read_text := inr EmptyString;
     read_json := inr (payload T);
     read_arrayBuffer := inr [] |}.

(** A world whose [n]-th exchange answers with the [n]-th status code of
    [script] (and fails to connect past its end), with the given
    credential sources and deadline behaviour. *)
Definition world (thurgood casedev : option string) (auth : option AuthInfo)
  (configKey : option string) (script : list Z) (late : bool) : World :=
  {| env_THURGOOD_API_KEY := thurgood;
     env_CASEDEV_API_KEY := casedev;
     Auth_get := fun _ => auth;
     Config_get :=
       {| provider :=
            Some [("thurgood",
                   {| options := Some {| apiKey := configKey |} |})] |};
     fs_readFile := fun _ => inr [];
     fs_stat := fun _ => inr {| size := Js.lit 2048 |};
     network := fun T history _ =>
       match nth_error script (List.length history) with
       | Some code => inr (respond T code)
       | None => inl (Foreign "TypeError" "fetch failed")
       end;
     deadline_first := fun _ _ _ => late;
     path_resolve := fun p => p;
     path_basename := fun p => p;
     path_extname := fun _ => ".pdf";
     toLowerCase := fun x => x;
     toUpperCase := fun x => x;
     Number_toString := fun _ => "n";
     JSON_stringify := fun _ => "{}";
     JSON_stringify_pretty := fun _ => "{}" |}.

(** A key in the environment, every exchange answered in time. *)
Definition online (script : list Z) : World :=
  world (Some "sk_live") None None None script false.

(** No credential anywhere. *)
Definition no_credential : World :=
  world None None None None [200; 200; 200] false.

(** [THURGOOD_API_KEY] set to the empty string, [CASEDEV_API_KEY] to a key. *)
Definition empty_thurgood : World :=
  world (Some EmptyString) (Some "sk_casedev") None None [200] false.

Definition uploadParams : VaultUploadTool.Params :=
  {| VaultUploadTool.p_vault_id := "vault_abc";
     VaultUploadTool.p_file_path := "/tmp/contract.pdf";
     VaultUploadTool.p_auto_index := None |}.

Definition searchParams (top_k : option Js.number) : VaultSearchTool.Params :=
  {| VaultSearchTool.p_vault_id := "vault_abc";
     VaultSearchTool.p_query := "termination clause";
     VaultSearchTool.p_method := None;
     VaultSearchTool.p_top_k := top_k;
     VaultSearchTool.p_object_id := None |}.

Definition researchParams (mode : option LegalSearchTool.Mode)
  : LegalSearchTool.Params :=
  {| LegalSearchTool.p_query := "HIPAA breach notification requirements";
     LegalSearchTool.p_mode := mode |}.



(** A world with a key whose exchanges all miss their deadline. *)
Definition slow : World :=
  world (Some "sk_live") None None None [200] true.

End Example.
(* ------------------------------------------------------------------ *)
(** * More of the number operations *)
(* ------------------------------------------------------------------ *)

Module JsNum.

(** [Math.floor(x)]: NaN, the infinities, the zeros and integral values
    are returned unchanged; a finite [x = (-1)^s * m * 2^e] with [e < 0]
    gives the integer [floor x], computed exactly, and [+0] when that
    integer is 0. *)
Definition Math_floor (x : Js.number) : Js.number :=
  match x with
  | S754_finite s m e =>
      if 0 <=? e then x
      else
        let n := cond_Zopp s (Zpos m) / 2 ^ (- e) in
        if n =? 0 then S754_zero false
        else binary_normalize Js.prec Js.emax n 0 false
  | _ => x
  end.

(** [x % y]: NaN when an operand is NaN, [x] is infinite or [y] is a
    zero; [x] when [x] is a zero or [y] is infinite; otherwise the exact
    remainder of the truncated division, with the sign of [x]. *)
Definition rem (x y : Js.number) : Js.number :=
  match x, y with
  | S754_nan, _ | _, S754_nan => Js.NaN
  | S754_infinity _, _ => Js.NaN
  | _, S754_zero _ => Js.NaN
  | S754_zero _, _ => x
  | S754_finite _ _ _, S754_infinity _ => x
  | S754_finite sx mx ex, S754_finite _ my ey =>
      let e := Z.min ex ey in
      let r := (Zpos mx * 2 ^ (ex - e)) mod (Zpos my * 2 ^ (ey - e)) in
      if r =? 0 then S754_zero sx
      else binary_normalize Js.prec Js.emax (cond_Zopp sx r) e false
  end.

(** [s.padStart(2, "0")]. *)
Definition padStart2 (s : string) : string :=
  match String.length s with
  | O => "00"
  | S O => "0" ++ s
  | _ => s
  end.

End JsNum.

(* ------------------------------------------------------------------ *)
(** * The transcription status tool *)
(* ------------------------------------------------------------------ *)

Module TranscribeStatusTool.

Record Params : Type := { p_job_id : string }.

Definition statusEmoji : list (string * string) :=
  [("queued", "â³");
   ("processing", "ðŸ”„");
   ("completed", "âœ…");
   ("error", "âŒ")].

Definition unknownEmoji : string := "â“".

Definition formatTimestamp (W : World) (seconds : Js.number) : string :=
  let hours := JsNum.Math_floor (Js.div seconds (Js.lit 3600)) in
  let minutes :=
    JsNum.Math_floor (Js.div (JsNum.rem seconds (Js.lit 3600)) (Js.lit 60)) in
  let secs := JsNum.Math_floor (JsNum.rem seconds (Js.lit 60)) in
  if Js.lt (Js.lit 0) hours then
    "[" ++ Number_toString W hours ++ ":"
    ++ JsNum.padStart2 (Number_toString W minutes) ++ ":"
    ++ JsNum.padStart2 (Number_toString W secs) ++ "]"
  else
    "[" ++ Number_toString W minutes ++ ":"
    ++ JsNum.padStart2 (Number_toString W secs) ++ "]".

Definition formatDuration (W : World) (seconds : Js.number) : string :=
  let hours := JsNum.Math_floor (Js.div seconds (Js.lit 3600)) in
  let minutes :=
    JsNum.Math_floor (Js.div (JsNum.rem seconds (Js.lit 3600)) (Js.lit 60)) in
  let secs := JsNum.Math_floor (JsNum.rem seconds (Js.lit 60)) in
  if Js.lt (Js.lit 0) hours then
    Number_toString W hours ++ "h " ++ Number_toString W minutes ++ "m "
    ++ Number_toString W secs ++ "s"
  else if Js.lt (Js.lit 0) minutes then
    Number_toString W minutes ++ "m " ++ Number_toString W secs ++ "s"
  else Number_toString W secs ++ "s".

(** [for (const utterance of response.utterances) ...]. *)
Fixpoint show_utterances (W : World) (us : list Utterance) (output : string)
  : string :=
  match us with
  | [] => output
  | utterance :: rest =>
      let timestamp := formatTimestamp W (u_start utterance) in
      show_utterances W rest
        (output ++ (timestamp ++ " [" ++ u_speaker utterance ++ "]: "
                    ++ u_text utterance ++ nl))
  end.

(** The lines of the output that do not depend on the status. *)
Definition heading (W : World) (response : TranscriptionResponse) : string :=
  let output :=
    "Transcription Status: "
    ++ Js.nullish (obj_get (status_name (tr_status response)) statusEmoji)
         unknownEmoji
    ++ " " ++ status_name (tr_status response) ++ nl in
  let output := output ++ ("Job ID: " ++ tr_id response ++ nl) in
  let output :=
    match tr_audio_duration response with
    | Some d =>
        if Js.truthy_num d
        then output ++ ("Duration: " ++ formatDuration W d ++ nl)
        else output
    | None => output
    end in
  if Js.truthy_str (tr_language_code response)
  then output ++ ("Language: "
                  ++ Js.nullish (tr_language_code response) EmptyString ++ nl)
  else output.

(** The [output] of the tool. *)
Definition output_of (W : World) (response : TranscriptionResponse) : string :=
  let output := heading W response in
  match tr_status response with
  | completed =>
      let output := output ++ (nl ++ "--- Transcript ---" ++ nl ++ nl) in
      match tr_utterances response with
      | Some (u :: us) =>
          (* Format with timestamps and speakers *)
          show_utterances W (u :: us) output
      | _ =>
          if Js.truthy_str (tr_text response)
          then output ++ Js.nullish (tr_text response) EmptyString
          else output
      end
  | error =>
      output ++ (nl ++ "The transcription failed. Please try again or contact support.")
  | _ =>
      output ++ (nl ++ "Transcription is still processing. Check back in a moment.")
  end.

Definition execute (W : World) (params : Params) : M ToolResult :=
  let* response :=
    CaseDevClient.request W TTranscriptionResponse
      ("/voice/transcription/" ++ p_job_id params)
      CaseDevClient.no_options in
  ret {| title := "Transcription: " ++ status_name (tr_status response);
         metadata :=
           [("jobId", VStr (p_job_id params));
            ("status", VStr (status_name (tr_status response)));
            ("duration", opt_value VNum (tr_audio_duration response));
            ("language", opt_value VStr (tr_language_code response))];
         output := output_of W response |}.

(** The line shown for one utterance. *)
Definition utterance_line (W : World) (utterance : Utterance) : string :=
  formatTimestamp W (u_start utterance) ++ " [" ++ u_speaker utterance
  ++ "]: " ++ u_text utterance ++ nl.

(** The lines of a list of utterances, in the order of the list. *)
Fixpoint transcript (W : World) (us : list Utterance) : string :=
  match us with
  | [] => EmptyString
  | utterance :: rest => utterance_line W utterance ++ transcript W rest
  end.

(** A response with other transcript content: same job, same status. *)
Definition with_content (response : TranscriptionResponse)
  (text' : option string) (words' : option (list Word))
  (utterances' : option (list Utterance)) : TranscriptionResponse :=
  {| tr_id := tr_id response;
     tr_status := tr_status response;
     tr_vault_id := tr_vault_id response;
     tr_source_object_id := tr_source_object_id response;
     tr_text := text';
     tr_words := words';
     tr_utterances := utterances';
     tr_audio_duration := tr_audio_duration response;
     tr_language_code := tr_language_code response |}.

End TranscribeStatusTool.

(* ------------------------------------------------------------------ *)
(** * Writing files: the host, the disk and the monad of the saving tools *)
(* ------------------------------------------------------------------ *)

(** What a file holds: the bytes of a buffer, or the text of a string. *)
Inductive FileData : Type :=
| DataBytes (b : bytes)
| DataText (s : string).

(** The size in bytes of what a file holds; a text is written in UTF-8. *)
Definition byteLength (d : FileData) : nat :=
  match d with
  | DataBytes b => List.length b
  | DataText s => String.length s
  end.

(** The rest of the surroundings of the tools.
    - [path_dirname]: the directory part of a path;
    - [fs_mkdir], [fs_writeFile]: whether creating a directory, or writing
      a string or a buffer to a file, fails at a path;
    - [fs_writeFile_leaves path data]: what a failed write of [data] leaves
      in the file, [None] when the file is not touched (the file is opened
      for writing, and so emptied, before the data is written);
    - [fs_writeFile_other path v]: what [fs.writeFile] does when it is
      handed a value that is neither a string nor a buffer: what it leaves
      in the file, and the error it rejects with, if any;
    - [Buffer_from_base64 v]: [Buffer.from(v, "base64")];
    - [toLocaleString], [list_separator]: the locale rendering of a number
      and the separator [Array.prototype.toLocaleString] joins with;
    - [Number_of_string]: the number a string converts to;
    - [TypeError_message]: the message of the [TypeError] the runtime
      raises at an expression;
    - [untyped_output v]: how a value that is not a string is carried in a
      field declared a string. *)
Record Host : Type := {
  path_dirname : string -> string;
  fs_mkdir : string -> option JsError;
  fs_writeFile : string -> option JsError;
  fs_writeFile_leaves : string -> FileData -> option FileData;
  fs_writeFile_other : string -> value -> option FileData * option JsError;
  Buffer_from_base64 : value -> JsError + bytes;
  toLocaleString : Js.number -> string;
  list_separator : string;
  Number_of_string : string -> Js.number;
  TypeError_message : string -> string;
  untyped_output : value -> string
}.

(** The files written and the directories created so far. *)
Record Disk : Type := {
  files : list (string * FileData);
  dirs : list string
}.

Definition blank : Disk := {| files := []; dirs := [] |}.

(** Computations that also write to the disk. *)
Definition MD (A : Type) : Type := Disk -> State -> Disk * State * Completion A.

Definition retD {A : Type} (a : A) : MD A := fun d st => (d, st, Return a).

Definition bindD {A B : Type} (c : MD A) (k : A -> MD B) : MD B :=
  fun d st =>
    match c d st with
    | (d', st', Return a) => k a d' st'
    | (d', st', Throw e) => (d', st', Throw e)
    end.

(** A computation that leaves the disk alone. *)
Definition lift {A : Type} (c : M A) : MD A :=
  fun d st => let (st', r) := c st in (d, st', r).

Notation "'let+' x ':=' c 'in' k" := (bindD c (fun x => k))
  (at level 10, x name, c at level 100, k at level 200).

(** [fs.mkdir(dir, { recursive: true })]. *)
Definition mkdir (H : Host) (dir : string) : MD unit :=
  fun d st =>
    match fs_mkdir H dir with
    | Some e => (d, st, Throw e)
    | None => ({| files := files d; dirs := dir :: dirs d |}, st, Return tt)
    end.

(** The disk with [data] in the file at [path]. *)
Definition holding (path : string) (data : FileData) (d : Disk) : Disk :=
  {| files := obj_set path data (files d); dirs := dirs d |}.

(** [fs.writeFile(path, data)] for a string or a buffer: the file is
    created or replaced; a write that fails leaves the file as the host
    says, untouched or with what was written before the failure. *)
Definition writeFile (H : Host) (path : string) (data : FileData) : MD unit :=
  fun d st =>
    match fs_writeFile H path with
    | Some e =>
        (match fs_writeFile_leaves H path data with
         | Some residue => holding path residue d
         | None => d
         end, st, Throw e)
    | None => (holding path data d, st, Return tt)
    end.

(** [fs.writeFile(path, v)] for a value read from a response. *)
Definition writeFile_value (H : Host) (path : string) (v : value) : MD unit :=
  match v with
  | VStr s => writeFile H path (DataText s)
  | _ =>
      fun d st =>
        (match fst (fs_writeFile_other H path v) with
         | Some residue => holding path residue d
         | None => d
         end, st,
         match snd (fs_writeFile_other H path v) with
         | Some e => Throw e
         | None => Return tt
         end)
  end.

(** [fs.stat(path)]: a file written here has the size of what was
    written; any other file is as the world has it. *)
Definition stat (W : World) (path : string) : MD Stats :=
  fun d st =>
    match obj_get path (files d) with
    | Some data =>
        (d, st, Return {| size := Js.lit (Z.of_nat (byteLength data)) |})
    | None =>
        match fs_stat W path with
        | inl e => (d, st, Throw e)
        | inr s => (d, st, Return s)
        end
    end.

(* ------------------------------------------------------------------ *)
(** * Reading a decoded body *)
(* ------------------------------------------------------------------ *)

(** [request<T>] hands back the decoded JSON body as it came: the [T] of
    the source is not checked.  The tools below read its fields with the
    operations of the language, which are spelled out here on [value]. *)
Module Dyn.

Definition TypeError (H : Host) (at_ : string) : JsError :=
  Foreign "TypeError" (TypeError_message H at_).

(** [v.name], for a [name] that no built-in prototype defines: a
    [TypeError] on [null] and [undefined], the field of an object,
    [undefined] when it has none and on every other value. *)
Definition prop (H : Host) (at_ : string) (v : value) (name : string)
  : JsError + value :=
  match v with
  | VUndefined | VNull => inl (TypeError H at_)
  | VObj fields => inr (Js.nullish (obj_get name fields) VUndefined)
  | _ => inr VUndefined
  end.

Definition nullish (v : value) : bool :=
  match v with
  | VUndefined | VNull => true
  | _ => false
  end.

(** [String(v)], which is also how a template literal shows [v]. *)
Fixpoint to_string (W : World) (v : value) : string :=
  match v with
  | VUndefined => "undefined"
  | VNull => "null"
  | VBool b => Js.string_of_bool b
  | VNum n => Number_toString W n
  | VStr s => s
  | VArr items =>
      (fix go (items : list value) : string :=
         match items with
         | [] => EmptyString
         | x :: rest =>
             (if nullish x then EmptyString else to_string W x)
             ++ match rest with
                | [] => EmptyString
                | _ :: _ => "," ++ go rest
                end
         end) items
  | VObj _ => "[object Object]"
  end.

(** [v.toLocaleString()] for a [v] that is neither [null] nor
    [undefined]. *)
Fixpoint localized (W : World) (H : Host) (v : value) : string :=
  match v with
  | VNum n => toLocaleString H n
  | VArr items =>
      (fix go (items : list value) : string :=
         match items with
         | [] => EmptyString
         | x :: rest =>
             (if nullish x then EmptyString else localized W H x)
             ++ match rest with
                | [] => EmptyString
                | _ :: _ => list_separator H ++ go rest
                end
         end) items
  | _ => to_string W v
  end.

(** [v.toLocaleString()]. *)
Definition toLocaleString_of (W : World) (H : Host) (at_ : string) (v : value)
  : JsError + string :=
  if nullish v then inl (TypeError H at_) else inr (localized W H v).

(** [v ?? fallback], shown in a template literal. *)
Definition shown_or (W : World) (v : value) (fallback : string) : string :=
  if nullish v then fallback else to_string W v.

(** The number a value converts to. *)
Definition to_number (W : World) (H : Host) (v : value) : Js.number :=
  match v with
  | VUndefined => Js.NaN
  | VNull => Js.lit 0
  | VBool b => Js.lit (if b then 1 else 0)
  | VNum n => n
  | VStr s => Number_of_string H s
  | VArr _ | VObj _ => Number_of_string H (to_string W v)
  end.

(** [v === 0]. *)
Definition is_zero (v : value) : bool :=
  match v with
  | VNum (S754_zero _) => true
  | _ => false
  end.

(** [v.length]: the code units of a string, the elements of an array, the
    field of that name of an object. *)
Definition length_of (H : Host) (at_ : string) (v : value) : JsError + value :=
  match v with
  | VUndefined | VNull => inl (TypeError H at_)
  | VStr s => inr (VNum (Js.lit (Z.of_nat (JsString.length s))))
  | VArr items => inr (VNum (Js.lit (Z.of_nat (List.length items))))
  | VObj fields => inr (Js.nullish (obj_get "length" fields) VUndefined)
  | VBool _ | VNum _ => inr VUndefined
  end.

(** [v.length === 0] for a [v] that is neither [null] nor [undefined]. *)
Definition length_is_zero (v : value) : bool :=
  match v with
  | VStr s => (JsString.length s =? 0)%nat
  | VArr items => (List.length items =? 0)%nat
  | VObj fields => is_zero (Js.nullish (obj_get "length" fields) VUndefined)
  | _ => false
  end.

(** [v.length > k] for a [v] that is neither [null] nor [undefined].  The
    length of a string or of an array is an integer that a number holds
    exactly, so the comparison is the one of the integers. *)
Definition length_exceeds (W : World) (H : Host) (k : nat) (v : value) : bool :=
  match v with
  | VStr s => (k <? JsString.length s)%nat
  | VArr items => (k <? List.length items)%nat
  | VObj fields =>
      Js.lt (Js.lit (Z.of_nat k))
        (to_number W H (Js.nullish (obj_get "length" fields) VUndefined))
  | _ => false
  end.

(** [v.slice(0, n)]: a string and an array have the method, nothing else
    that a body can hold has it. *)
Definition slice0_of (H : Host) (at_ : string) (n : nat) (v : value)
  : JsError + value :=
  match v with
  | VStr s => inr (VStr (slice0 n s))
  | VArr items => inr (VArr (firstn n items))
  | _ => inl (TypeError H at_)
  end.

(** [JSON.stringify(v, null, 2)], which is [undefined] for [undefined]. *)
Definition stringify_pretty (W : World) (v : value) : value :=
  match v with
  | VUndefined => VUndefined
  | _ => VStr (JSON_stringify_pretty W v)
  end.

(** A value in a field declared a string. *)
Definition as_output (H : Host) (v : value) : string :=
  match v with
  | VStr s => s
  | _ => untyped_output H v
  end.

End Dyn.

(* ------------------------------------------------------------------ *)
(** * The remaining vault tools *)
(* ------------------------------------------------------------------ *)

Module VaultIngestTool.

Record Params : Type := {
  p_vault_id : string;
  p_object_id : string
}.

Definition request_options : CaseDevClient.RequestOptions :=
  {| CaseDevClient.o_method := Some POST;
     CaseDevClient.o_body := None;
     CaseDevClient.o_headers := None;
     CaseDevClient.o_timeout := None;
     CaseDevClient.o_responseType := None |}.

Definition execute (W : World) (H : Host) (params : Params) : M ToolResult :=
  let* response :=
    CaseDevClient.request W TUnknown
      ("/vault/" ++ p_vault_id params ++ "/ingest/" ++ p_object_id params)
      request_options in
  let* status := await (Dyn.prop H "response.status" response "status") in
  let* message := await (Dyn.prop H "response.message" response "message") in
  ret {| title := "Ingestion started: " ++ p_object_id params;
         metadata :=
           [("vaultId", VStr (p_vault_id params));
            ("objectId", VStr (p_object_id params));
            ("status", status)];
         output :=
           "Document ingestion started." ++ nl
           ++ nl
           ++ "Vault ID: " ++ p_vault_id params ++ nl
           ++ "Object ID: " ++ p_object_id params ++ nl
           ++ "Status: " ++ Dyn.to_string W status ++ nl
           ++ (if truthy message
               then "Message: " ++ Dyn.to_string W message
               else EmptyString) ++ nl
           ++ nl
           ++ "The document will be OCR'd (if needed), chunked, and embedded for search." ++ nl
           ++ "This may take a few minutes depending on document size." |}.

End VaultIngestTool.

Module VaultObjectTextTool.

Record Params : Type := {
  p_vault_id : string;
  p_object_id : string
}.

Definition previewLength : nat := 5000.

Definition no_text (params : Params) : ToolResult :=
  {| title := "No text available";
     metadata :=
       [("vaultId", VStr (p_vault_id params));
        ("objectId", VStr (p_object_id params))];
     output :=
       "No text available for this document." ++ nl
       ++ nl
       ++ "This could mean:" ++ nl
       ++ "- The document is still processing (check status with casedev_vault_objects)" ++ nl
       ++ "- The document failed to process" ++ nl
       ++ "- The document contains no extractable text (e.g., blank pages)" |}.

(** [isLong ? response.text.slice(0, previewLength) + "..." :
    response.text], as the template shows it. *)
Definition shown_text (W : World) (H : Host) (text : value) (isLong : bool)
  : JsError + string :=
  if isLong then
    match Dyn.slice0_of H "response.text.slice" previewLength text with
    | inl e => inl e
    | inr cut =>
        inr (Dyn.to_string W cut
             ++ nl ++ nl ++ "...(truncated, showing first 5000 chars)")
    end
  else inr (Dyn.to_string W text).

Definition execute (W : World) (H : Host) (params : Params) : M ToolResult :=
  let* response :=
    CaseDevClient.request W TUnknown
      ("/vault/" ++ p_vault_id params ++ "/objects/" ++ p_object_id params
       ++ "/text")
      CaseDevClient.no_options in
  let* text := await (Dyn.prop H "response.text" response "text") in
  if negb (truthy text) || Dyn.length_is_zero text
  then ret (no_text params)
  else
    let isLong := Dyn.length_exceeds W H previewLength text in
    let* filename :=
      await (Dyn.prop H "response.filename" response "filename") in
    let* textLength :=
      await (Dyn.prop H "response.textLength" response "textLength") in
    let* pageCount :=
      await (Dyn.prop H "response.pageCount" response "pageCount") in
    let* characters :=
      await (Dyn.toLocaleString_of W H "response.textLength.toLocaleString"
               textLength) in
    let* shown := await (shown_text W H text isLong) in
    ret {| title := "Text from " ++ Dyn.to_string W filename;
           metadata :=
             [("vaultId", VStr (p_vault_id params));
              ("objectId", VStr (p_object_id params));
              ("filename", filename);
              ("textLength", textLength);
              ("pageCount", pageCount)];
           output :=
             "Document: " ++ Dyn.to_string W filename ++ nl
             ++ "Pages: " ++ Dyn.shown_or W pageCount "unknown" ++ nl
             ++ "Text length: " ++ characters ++ " characters" ++ nl
             ++ nl
             ++ "--- Document Text ---" ++ nl
             ++ nl
             ++ shown |}.

End VaultObjectTextTool.

Module VaultObjectDownloadTool.

Record Params : Type := {
  p_vault_id : string;
  p_object_id : string;
  p_save_to : string
}.

Definition request_options : CaseDevClient.RequestOptions :=
  {| CaseDevClient.o_method := None;
     CaseDevClient.o_body := None;
     CaseDevClient.o_headers := None;
     CaseDevClient.o_timeout := None;
     CaseDevClient.o_responseType := Some arraybuffer |}.

Definition execute (W : World) (H : Host) (params : Params) : MD ToolResult :=
  let+ _ :=
    lift (ctx_metadata "Downloading from vault..."
            [("status", VStr "downloading");
             ("objectId", VStr (p_object_id params))]) in
  (* Download the file as arraybuffer *)
  let+ response :=
    lift (CaseDevClient.request W TUnknown
            ("/vault/" ++ p_vault_id params ++ "/objects/"
             ++ p_object_id params ++ "/download")
            request_options) in
  (* Save to local path *)
  let savePath := path_resolve W (p_save_to params) in
  let saveDir := path_dirname H savePath in
  (* Ensure directory exists *)
  let+ _ := mkdir H saveDir in
  (* Write the file *)
  let buffer : bytes := response in
  let+ _ := writeFile H savePath (DataBytes buffer) in
  let+ stats := stat W savePath in
  let sizeKB := Js.Math_round (Js.div (size stats) (Js.lit 1024)) in
  retD {| title := "Downloaded: " ++ path_basename W savePath;
          metadata :=
            [("vaultId", VStr (p_vault_id params));
             ("objectId", VStr (p_object_id params));
             ("savedTo", VStr savePath);
             ("size", VNum (size stats))];
          output :=
            "File downloaded successfully!" ++ nl
            ++ nl
            ++ "Saved to: " ++ savePath ++ nl
            ++ "Size: " ++ Number_toString W sizeKB ++ " KB" ++ nl
            ++ nl
            ++ "The file is ready to use locally." |}.

End VaultObjectDownloadTool.

(* ------------------------------------------------------------------ *)
(** * The document format tool *)
(* ------------------------------------------------------------------ *)

Module FormatDocumentTool.

Inductive OutputFormat : Type := pdf | docx | html_preview.

Definition output_format_name (f : OutputFormat) : string :=
  match f with
  | pdf => "pdf"
  | docx => "docx"
  | html_preview => "html_preview"
  end.

Inductive InputFormat : Type := md | in_json | in_text.

Definition input_format_name (f : InputFormat) : string :=
  match f with
  | md => "md"
  | in_json => "json"
  | in_text => "text"
  end.

Record Params : Type := {
  p_content : string;
  p_output_format : OutputFormat;
  p_save_to : string;
  p_input_format : option InputFormat;
  p_variables : option (list (string * string))
}.

(** The request body, with [options] set when there are variables. *)
Definition request_body (params : Params) : list (string * value) :=
  let body :=
    [("content", VStr (p_content params));
     ("input_format",
      VStr (input_format_name (Js.nullish (p_input_format params) md)));
     ("output_format", VStr (output_format_name (p_output_format params)))] in
  (* If variables provided, set up components for interpolation *)
  match p_variables params with
  | Some (v :: vs) =>
      obj_set "options"
        (VObj [("components",
                VArr [VObj [("content", VStr (p_content params));
                            ("variables",
                             VObj (map (fun kv => (fst kv, VStr (snd kv)))
                                     (v :: vs)))]])])
        body
  | _ => body
  end.

(** [params.output_format === "html_preview" ? "text" : "arraybuffer"]. *)
Definition responseType_of (f : OutputFormat) : ResponseType :=
  match f with
  | html_preview => text_
  | _ => arraybuffer
  end.

Definition request_options (params : Params) : CaseDevClient.RequestOptions :=
  {| CaseDevClient.o_method := Some POST;
     CaseDevClient.o_body := Some (VObj (request_body params));
     CaseDevClient.o_headers := None;
     CaseDevClient.o_timeout := None;
     CaseDevClient.o_responseType :=
       Some (responseType_of (p_output_format params)) |}.

(** What is written for a response: the string as it is for the HTML
    preview, the bytes of the buffer for PDF and DOCX. *)
Definition file_data (f : OutputFormat)
  : CaseDevClient.Result TUnknown (responseType_of f) -> FileData :=
  match f with
  | html_preview => fun response => DataText response
  | pdf => fun response => DataBytes response
  | docx => fun response => DataBytes response
  end.

Definition execute (W : World) (H : Host) (params : Params) : MD ToolResult :=
  let+ _ :=
    lift (ctx_metadata "Formatting document..."
            [("status", VStr "formatting");
             ("output_format",
              VStr (output_format_name (p_output_format params)))]) in
  (* Make request - API returns binary directly for PDF/DOCX, HTML string
     for html_preview *)
  let+ response :=
    lift (CaseDevClient.request W TUnknown "/format/v1/document"
            (request_options params)) in
  (* Resolve and prepare output path *)
  let outputPath := path_resolve W (p_save_to params) in
  let outputDir := path_dirname H outputPath in
  (* Ensure directory exists *)
  let+ _ := mkdir H outputDir in
  (* Write the file *)
  let+ _ :=
    writeFile H outputPath (file_data (p_output_format params) response) in
  let+ stats := stat W outputPath in
  let sizeKB := Js.Math_round (Js.div (size stats) (Js.lit 1024)) in
  retD {| title := "Document created: " ++ path_basename W outputPath;
          metadata :=
            [("format", VStr (output_format_name (p_output_format params)));
             ("savedTo", VStr outputPath);
             ("size", VNum (size stats))];
          output :=
            "Document generated successfully!" ++ nl
            ++ nl
            ++ "File: " ++ outputPath ++ nl
            ++ "Format: "
            ++ toUpperCase W (output_format_name (p_output_format params))
            ++ nl
            ++ "Size: " ++ Number_toString W sizeKB ++ " KB" ++ nl
            ++ nl
            ++ "The document has been saved and is ready to use." |}.

End FormatDocumentTool.

(* ------------------------------------------------------------------ *)
(** * The OCR download tool *)
(* ------------------------------------------------------------------ *)

Module OcrDownloadTool.

Inductive Format : Type := fmt_text | fmt_json | fmt_pdf.

Definition format_name (f : Format) : string :=
  match f with
  | fmt_text => "text"
  | fmt_json => "json"
  | fmt_pdf => "pdf"
  end.

Definition is_pdf (f : Format) : bool :=
  match f with fmt_pdf => true | _ => false end.

Definition is_json (f : Format) : bool :=
  match f with fmt_json => true | _ => false end.

Record Params : Type := {
  p_job_id : string;
  p_format : option Format;
  p_save_to : option string
}.

Definition save_to_required : ToolResult :=
  {| title := "Error: save_to required for PDF";
     metadata := [("error", VBool true)];
     output :=
       "When downloading as PDF format, you must specify save_to path to save the file." |}.

(** [format === "json" ? JSON.stringify(response, null, 2) : response.content]. *)
Definition content_of (W : World) (H : Host) (format : Format)
  (response : value) : JsError + value :=
  if is_json format then inr (Dyn.stringify_pretty W response)
  else Dyn.prop H "response.content" response "content".

(** The part of the output that follows "Preview:":
    [content.slice(0, 2000)] and, past 2000, the mark of the cut. *)
Definition preview (W : World) (H : Host) (content : value)
  : JsError + string :=
  match Dyn.slice0_of H "content.slice" 2000 content with
  | inl e => inl e
  | inr cut =>
      inr (Dyn.to_string W cut
           ++ (if Dyn.length_exceeds W H 2000 content
               then nl ++ "...(truncated)" else EmptyString))
  end.

(** What the tool does with the response, once the request has returned. *)
Definition deliver (W : World) (H : Host) (params : Params) (format : Format)
  (response : value) : MD ToolResult :=
  let save_to := Js.nullish (p_save_to params) EmptyString in
  (* For PDF, we need to save to file *)
  if is_pdf format && Js.truthy_str (p_save_to params) then
    let+ encoded :=
      lift (await (Dyn.prop H "response.content" response "content")) in
    let+ pdfContent := lift (await (Buffer_from_base64 H encoded)) in
    let+ _ := writeFile H save_to (DataBytes pdfContent) in
    let+ pages :=
      lift (await (Dyn.prop H "response.pages" response "pages")) in
    retD {| title := "OCR PDF saved to " ++ save_to;
            metadata :=
              [("jobId", VStr (p_job_id params));
               ("format", VStr (format_name format));
               ("savedTo", VStr save_to);
               ("pages", pages)];
            output :=
              "Searchable PDF saved to: " ++ save_to ++ nl
              ++ "Pages: " ++ Dyn.shown_or W pages "unknown" |}
  else
    (* For text or json, optionally save and/or return content *)
    if Js.truthy_str (p_save_to params) then
      let+ content := lift (await (content_of W H format response)) in
      let+ _ := writeFile_value H save_to content in
      let+ shown := lift (await (preview W H content)) in
      retD {| title :=
                "OCR " ++ format_name format ++ " saved to " ++ save_to;
              metadata :=
                [("jobId", VStr (p_job_id params));
                 ("format", VStr (format_name format));
                 ("savedTo", VStr save_to)];
              output :=
                "OCR results saved to: " ++ save_to ++ nl
                ++ nl
                ++ "Preview:" ++ nl
                ++ shown |}
    else
      (* Return content directly *)
      let+ content := lift (await (content_of W H format response)) in
      let+ length := lift (await (Dyn.length_of H "content.length" content)) in
      retD {| title := "OCR " ++ format_name format ++ " content";
              metadata :=
                [("jobId", VStr (p_job_id params));
                 ("format", VStr (format_name format));
                 ("length", length)];
              output := Dyn.as_output H content |}.

Definition execute (W : World) (H : Host) (params : Params) : MD ToolResult :=
  let format := Js.nullish (p_format params) fmt_text in
  if is_pdf format && negb (Js.truthy_str (p_save_to params)) then
    retD save_to_required
  else
    let+ response :=
      lift (CaseDevClient.request W TUnknown
              ("/ocr/v1/" ++ p_job_id params ++ "/download/"
               ++ format_name format)
              CaseDevClient.no_options) in
    deliver W H params format response.

End OcrDownloadTool.

(* ------------------------------------------------------------------ *)
(** * The provider list of the desktop application *)
(* ------------------------------------------------------------------ *)

Module Providers.

Record Provider : Type := {
  provider_id : string;
  provider_name : string
}.

(** The provider store of a project or of the global sync. *)
Record Store : Type := {
  all : list Provider;
  connected : list string;
  default : list (string * string)
}.

(** Thurgood Desktop: Only show thurgood provider. *)
Definition popularProviders : list string := ["thurgood"].

(** What [useProviders()] returns, each memo read once. *)
Record Shown : Type := {
  shown_all : list Provider;
  shown_default : list (string * string);
  shown_popular : list Provider;
  shown_connected : list Provider;
  shown_paid : list Provider
}.

(** [useProviders()], for the current directory, the project stores and
    the global store. *)
Definition useProviders (currentDirectory : string)
  (child : string -> Store) (global : Store) : Shown :=
  let providers :=
    if negb (String.eqb currentDirectory EmptyString)
    then child currentDirectory
    else global in
  (* Filter to only show thurgood provider *)
  let thurgoodOnly :=
    filter (fun p => String.eqb (provider_id p) "thurgood") (all providers) in
  let connected_ :=
    filter (fun p => existsb (String.eqb (provider_id p)) (connected providers))
      thurgoodOnly in
  let paid := connected_ in
  let popular := thurgoodOnly in
  {| shown_all := thurgoodOnly;
     shown_default := default providers;
     shown_popular := popular;
     shown_connected := connected_;
     shown_paid := paid |}.

End Providers.

(* ------------------------------------------------------------------ *)
(** * Further worlds, used to run the tools *)
(* ------------------------------------------------------------------ *)

Module Sample.

(** An answer with the given status code and bodies. *)
Definition answer (T : Shape) (code : Z) (j : JsError + El T)
  (t : JsError + string) (b : JsError + bytes) : Response T :=
  {| ok := (200 <=? code) && (code <=? 299);
     status := Js.lit code;
     statusText := EmptyString;
     read_text := t;
     read_json := j;
     read_arrayBuffer := b |}.

(** The world [W] with another network. *)
Definition on_network (W : World)
  (net : forall T : Shape, list FetchCall -> FetchCall -> JsError + Response T)
  : World :=
  {| env_THURGOOD_API_KEY := env_THURGOOD_API_KEY W;
     env_CASEDEV_API_KEY := env_CASEDEV_API_KEY W;
     Auth_get := Auth_get W;
     Config_get := Config_get W;
     fs_readFile := fs_readFile W;
     fs_stat := fs_stat W;
     network := net;
     deadline_first := deadline_first W;
     path_resolve := path_resolve W;
     path_basename := path_basename W;
     path_extname := path_extname W;
     toLowerCase := toLowerCase W;
     toUpperCase := toUpperCase W;
     Number_toString := Number_toString W;
     JSON_stringify := JSON_stringify W;
     JSON_stringify_pretty := JSON_stringify_pretty W |}.

(** The world [W] with a file system that cannot read any file. *)
Definition unreadable (W : World) (e : JsError) : World :=
  {| env_THURGOOD_API_KEY := env_THURGOOD_API_KEY W;
     env_CASEDEV_API_KEY := env_CASEDEV_API_KEY W;
     Auth_get := Auth_get W;
     Config_get := Config_get W;
     fs_readFile := fun _ => inl e;
     fs_stat := fs_stat W;
     network := network W;
     deadline_first := deadline_first W;
     path_resolve := path_resolve W;
     path_basename := path_basename W;
     path_extname := path_extname W;
     toLowerCase := toLowerCase W;
     toUpperCase := toUpperCase W;
     Number_toString := Number_toString W;
     JSON_stringify := JSON_stringify W;
     JSON_stringify_pretty := JSON_stringify_pretty W |}.

(** A slot issued with indexing switched off. *)
Definition unindexedSlot : VaultUploadResponse :=
  {| objectId := "obj_456";
     uploadUrl := "https://s3.example.com/put/obj_456";
     expiresIn := Js.lit 3600;
     s3Key := "vaults/vault_abc/obj_456";
     auto_index := false;
     next_step := None |}.

(** A backend that issues [unindexedSlot] and accepts every exchange. *)
Definition unindexing : World :=
  on_network (Example.online [])
    (fun T _ _ =>
       inr (answer T 200
              match T return JsError + El T with
              | TVaultUploadResponse => inr unindexedSlot
              | T' => inr (Example.payload T')
              end
              (inr EmptyString) (inr []))).

(** A search answered with no [chunks] field at all. *)
Definition emptySearch : VaultSearchResponse :=
  {| sr_method := "hybrid";
     sr_query := "termination clause";
     sr_response := None;
     chunks := None;
     sources := None;
     sr_vault_id := "vault_abc" |}.

Definition searchless : World :=
  on_network (Example.online [])
    (fun T _ _ =>
       inr (answer T 200
              match T return JsError + El T with
              | TVaultSearchResponse => inr emptySearch
              | T' => inr (Example.payload T')
              end
              (inr EmptyString) (inr []))).

(** Request options that replace the content type. *)
Definition plainTextOptions : CaseDevClient.RequestOptions :=
  {| CaseDevClient.o_method := Some POST;
     CaseDevClient.o_body := None;
     CaseDevClient.o_headers := Some [("Content-Type", "text/plain")];
     CaseDevClient.o_timeout := None;
     CaseDevClient.o_responseType := None |}.

(** Transcription parameters in direct mode with every optional field
    given a falsy value. *)
Definition falsyOptions : TranscribeTool.Params :=
  {| TranscribeTool.p_vault_id := None;
     TranscribeTool.p_object_id := None;
     TranscribeTool.p_audio_url := Some "https://example.com/deposition.mp3";
     TranscribeTool.p_format := Some TranscribeTool.fmt_text;
     TranscribeTool.p_language_code := Some EmptyString;
     TranscribeTool.p_speaker_labels := Some false;
     TranscribeTool.p_speakers_expected := Some (Js.lit 0);
     TranscribeTool.p_word_boost := Some [] |}.

(** A backend that answers every exchange with status 200, the text [t]
    and the bytes [b]. *)
Definition serving (t : string) (b : bytes) : World :=
  on_network (Example.online [])
    (fun T _ _ =>
       inr (answer T 200 (inr (Example.payload T)) (inr t) (inr b))).

(** The first bytes of a PDF file. *)
Definition pdfBytes : bytes := [Byte.x25; Byte.x50; Byte.x44; Byte.x46].


(** An OCR download whose text has letters outside ASCII: nine code
    units in eleven bytes. *)
Definition ocrAccents : value :=
  VObj [("content", VStr "Exposé né");
        ("format", VStr "text")].




(** A backend that answers every exchange with status 200 and, where the
    body is read as it comes, the JSON value [v]. *)
Definition replying (v : value) : World :=
  on_network (Example.online [])
    (fun T _ _ =>
       inr (answer T 200
              match T return JsError + El T with
              | TUnknown => inr v
              | T' => inr (Example.payload T')
              end
              (inr EmptyString) (inr []))).

(** A host on which every directory can be made and every file written. *)
Definition host : Host :=
  {| path_dirname := fun _ => "/tmp/out";
     fs_mkdir := fun _ => None;
     fs_writeFile := fun _ => None;
     fs_writeFile_leaves := fun _ _ => None;
     fs_writeFile_other :=
       fun _ _ => (None, Some (Foreign "TypeError" "ERR_INVALID_ARG_TYPE"));
     Buffer_from_base64 :=
       fun v =>
         match v with
         | VStr _ => inr pdfBytes
         | _ => inl (Foreign "TypeError" "ERR_INVALID_ARG_TYPE")
         end;
     toLocaleString := fun _ => "10";
     list_separator := ",";
     Number_of_string := fun _ => Js.NaN;
     TypeError_message := fun at_ => "cannot evaluate " ++ at_;
     untyped_output := fun _ => EmptyString |}.

(** A host whose disk is full: directories can be made, and a write fails
    after the file was opened, which leaves it empty. *)
Definition fullDisk : Host :=
  {| path_dirname := path_dirname host;
     fs_mkdir := fs_mkdir host;
     fs_writeFile := fun _ => Some (Foreign "Error" "ENOSPC: no space left on device");
     fs_writeFile_leaves := fun _ _ => Some (DataBytes []);
     fs_writeFile_other := fs_writeFile_other host;
     Buffer_from_base64 := Buffer_from_base64 host;
     toLocaleString := toLocaleString host;
     list_separator := list_separator host;
     Number_of_string := Number_of_string host;
     TypeError_message := TypeError_message host;
     untyped_output := untyped_output host |}.

(** A disk that already holds the file the download is to replace. *)
Definition holdingContract : Disk :=
  {| files := [("/tmp/out/contract.pdf", DataBytes pdfBytes);
               ("/tmp/out/notes.txt", DataText "keep")];
     dirs := ["/tmp/out"] |}.

(** A completed transcription with two utterances and a flat text. *)
Definition deposition : TranscriptionResponse :=
  {| tr_id := "job_1";
     tr_status := completed;
     tr_vault_id := None;
     tr_source_object_id := None;
     tr_text := Some "Good morning. Please state your name.";
     tr_words := None;
     tr_utterances :=
       Some [{| u_text := "Good morning.";
                u_start := Js.lit 0;
                u_end := Js.lit 2;
                u_confidence := Js.lit 1;
                u_speaker := "A" |};
             {| u_text := "Please state your name.";
                u_start := Js.lit 3725;
                u_end := Js.lit 3728;
                u_confidence := Js.lit 1;
                u_speaker := "B" |}];
     tr_audio_duration := Some (Js.lit 3728);
     tr_language_code := Some "en_us" |}.

(** A backend that answers every status poll with [response]. *)
Definition polled (response : TranscriptionResponse) : World :=
  on_network (Example.online [])
    (fun T _ _ =>
       inr (answer T 200
              match T return JsError + El T with
              | TTranscriptionResponse => inr response
              | T' => inr (Example.payload T')
              end
              (inr EmptyString) (inr []))).

Definition statusParams : TranscribeStatusTool.Params :=
  {| TranscribeStatusTool.p_job_id := "job_1" |}.

Definition downloadParams : VaultObjectDownloadTool.Params :=
  {| VaultObjectDownloadTool.p_vault_id := "vault_abc";
     VaultObjectDownloadTool.p_object_id := "obj_123";
     VaultObjectDownloadTool.p_save_to := "/tmp/out/contract.pdf" |}.

Definition formatParams (f : FormatDocumentTool.OutputFormat)
  : FormatDocumentTool.Params :=
  {| FormatDocumentTool.p_content := "# Legal Memo";
     FormatDocumentTool.p_output_format := f;
     FormatDocumentTool.p_save_to := "/tmp/out/memo";
     FormatDocumentTool.p_input_format := None;
     FormatDocumentTool.p_variables := None |}.

Definition ocrParams (f : option OcrDownloadTool.Format)
  (save_to : option string) : OcrDownloadTool.Params :=
  {| OcrDownloadTool.p_job_id := "ocr_1";
     OcrDownloadTool.p_format := f;
     OcrDownloadTool.p_save_to := save_to |}.

Definition ingestParams : VaultIngestTool.Params :=
  {| VaultIngestTool.p_vault_id := "vault_abc";
     VaultIngestTool.p_object_id := "obj_123" |}.


(** Research results with entries under known keys, a falsy entry and one
    entry to show. *)
Definition researchEntries : list (string * value) :=
  [("summary", VStr "HIPAA requires notice within 60 days.");
   ("notes", VStr EmptyString);
   ("citations", VArr [VStr "45 CFR 164.404"])].

(** A provider store with another provider beside Thurgood. *)
Definition store : Providers.Store :=
  {| Providers.all :=
       [{| Providers.provider_id := "anthropic";
           Providers.provider_name := "Anthropic" |};
        {| Providers.provider_id := "thurgood";
           Providers.provider_name := "Thurgood" |}];
     Providers.connected := ["anthropic"; "thurgood"];
     Providers.default := [] |}.

(** No key in the environment, a persisted record of kind "api" whose key
    is empty, and a key in the configuration. *)
Definition emptyRecord : World :=
  Example.world None None (Some (AuthApi EmptyString)) (Some "sk_config")
    [200] false.

End Sample.

(* ------------------------------------------------------------------ *)
(** * Order facts on numbers *)
(* ------------------------------------------------------------------ *)

Section NumberOrder.

Import Js.

Lemma SFcompare_antisym (a b : number) (c : comparison) :
  SFcompare a b = Some c -> SFcompare b a = Some (CompOpp c).
Proof.
  destruct a as [sa|sa| |sa ma ea], b as [sb|sb| |sb mb eb]; simpl;
    try discriminate;
    try (intros H; injection H as <-;
         repeat match goal with s : bool |- _ => destruct s end;
         reflexivity).
  intros H; injection H as <-. f_equal.
  destruct sa, sb; simpl; try reflexivity;
    rewrite (Z.compare_antisym ea eb);
    destruct (ea ?= eb); simpl; try reflexivity;
    try apply (f_equal CompOpp);
    symmetry; exact (Pos.compare_cont_antisym ma mb Eq).
Qed.

Lemma compare_total (a b : number) :
  isNaN a = false -> isNaN b = false -> exists c, SFcompare a b = Some c.
Proof.
  destruct a as [sa|sa| |sa ma ea], b as [sb|sb| |sb mb eb]; simpl;
    try discriminate; intros _ _; eexists; reflexivity.
Qed.

Lemma not_lt_le (a b : number) :
  isNaN a = false -> isNaN b = false -> lt a b = false -> le b a = true.
Proof.
  intros Ha Hb. unfold lt, le, SFltb, SFleb.
  destruct (compare_total a b Ha Hb) as [c Hc].
  rewrite Hc, (SFcompare_antisym _ _ _ Hc).
  destruct c; simpl; congruence.
Qed.

Lemma lt_le (a b : number) : lt a b = true -> le a b = true.
Proof.
  unfold lt, le, SFltb, SFleb.
  destruct (SFcompare a b) as [[]|]; congruence.
Qed.

Lemma Math_max_notNaN (a b : number) :
  isNaN a = false -> isNaN b = false -> isNaN (Math_max a b) = false.
Proof.
  intros Ha Hb. unfold Math_max. rewrite Ha, Hb. simpl.
  destruct (lt a b); [exact Hb|].
  destruct (lt b a); [exact Ha|].
  destruct a as [[]| | |], b as [[]| | |]; simpl in *; congruence.
Qed.

(** [Math.max(a, b)] is at least [b] when [b] is not a zero. *)
Lemma Math_max_ge_r (a b : number) :
  isNaN a = false -> isNaN b = false ->
  (forall s, b <> S754_zero s) ->
  le b (Math_max a b) = true.
Proof.
  intros Ha Hb Hz. unfold Math_max. rewrite Ha, Hb. simpl.
  destruct (lt a b) eqn:Hab.
  - apply not_lt_le; auto.
    unfold lt, SFltb.
    destruct (compare_total b b Hb Hb) as [c Hc].
    pose proof (SFcompare_antisym _ _ _ Hc) as Hc'.
    rewrite Hc in *. destruct c; simpl in *; congruence.
  - destruct (lt b a) eqn:Hba.
    + apply lt_le; assumption.
    + assert (le b a = true) by (apply not_lt_le; auto).
      destruct a as [[]| | |]; auto;
        destruct b as [[]| | |]; auto; exfalso; eapply Hz; reflexivity.
Qed.

(** [Math.min(a, b)] is at most [b] when [b] is not a zero. *)
Lemma Math_min_le_r (a b : number) :
  isNaN a = false -> isNaN b = false ->
  (forall s, b <> S754_zero s) ->
  le (Math_min a b) b = true.
Proof.
  intros Ha Hb Hz. unfold Math_min. rewrite Ha, Hb. simpl.
  destruct (lt b a) eqn:Hba.
  - apply not_lt_le; auto.
    unfold lt, SFltb.
    destruct (compare_total b b Hb Hb) as [c Hc].
    pose proof (SFcompare_antisym _ _ _ Hc) as Hc'.
    rewrite Hc in *. destruct c; simpl in *; congruence.
  - destruct (lt a b) eqn:Hab.
    + apply lt_le; assumption.
    + assert (le a b = true) by (apply not_lt_le; auto).
      destruct a as [[]| | |]; auto;
        destruct b as [[]| | |]; auto; exfalso; eapply Hz; reflexivity.
Qed.

(** [Math.min(a, b)] stays above any bound both [a] and [b] are above. *)
Lemma Math_min_ge (lo a b : number) :
  isNaN a = false -> isNaN b = false ->
  le lo a = true -> le lo b = true -> le lo (Math_min a b) = true.
Proof.
  intros Ha Hb Hla Hlb. unfold Math_min. rewrite Ha, Hb. simpl.
  destruct (lt b a); [exact Hlb|].
  destruct (lt a b); [exact Hla|].
  destruct a as [[]| | |], b as [[]| | |]; assumption.
Qed.

End NumberOrder.

(* ------------------------------------------------------------------ *)
(** * Timers and controllers *)
(* ------------------------------------------------------------------ *)

Section Timers.

Lemma drop_timer_fresh (id : nat) (ts : list Timer) :
  Forall (fun t => (timer_id t < id)%nat) ts -> drop_timer id ts = ts.
Proof.
  induction 1 as [|t ts Ht _ IH]; simpl; [reflexivity|].
  destruct (Nat.eqb_spec (timer_id t) id) as [E|_]; [lia|].
  simpl. now rewrite IH.
Qed.

Lemma drop_timer_app (id : nat) (ts us : list Timer) :
  drop_timer id (ts ++ us)%list = (drop_timer id ts ++ drop_timer id us)%list.
Proof. unfold drop_timer. apply filter_app. Qed.

Lemma drop_timer_last (id : nat) (ts : list Timer) (t : Timer) :
  Forall (fun u => (timer_id u < id)%nat) ts ->
  timer_id t = id ->
  drop_timer id (ts ++ [t])%list = ts.
Proof.
  intros H E. rewrite drop_timer_app, (drop_timer_fresh _ _ H). simpl.
  rewrite E, Nat.eqb_refl. simpl. apply app_nil_r.
Qed.

Lemma armed_last (c : nat) (ts : list Timer) (t : Timer) :
  Forall (fun u => (timer_aborts u < c)%nat) ts ->
  timer_aborts t = c ->
  armed (Some c) (ts ++ [t])%list = Some t.
Proof.
  intros H E. simpl. induction H as [|u ts Hu _ IH]; simpl.
  - rewrite E, Nat.eqb_refl. reflexivity.
  - destruct (Nat.eqb_spec (timer_aborts u) c); [lia|exact IH].
Qed.

Lemma well_formed_initial : well_formed initial.
Proof. constructor. Qed.

Lemma well_formed_ids (st : State) :
  well_formed st ->
  Forall (fun u => (timer_id u < S (next_id st))%nat) (timers st)
  /\ Forall (fun u => (timer_aborts u < next_id st)%nat) (timers st).
Proof.
  unfold well_formed. intros H; split;
    (eapply Forall_impl; [|exact H]); simpl; intros; lia.
Qed.

End Timers.

(* ------------------------------------------------------------------ *)
(** * The credential resolver *)
(* ------------------------------------------------------------------ *)

Section Resolver.

Variable W : World.

(** Resolution reads the world and nothing else: it returns, never throws,
    and leaves the state as it was. *)
Lemma getApiKey_returns :
  exists k, forall st, CaseDevClient.getApiKey W st = (st, Return k).
Proof.
  unfold CaseDevClient.getApiKey.
  destruct (Js.truthy_str _); [eexists; reflexivity|].
  destruct (Auth_get W "thurgood") as [[| |]|];
    try (destruct (Js.truthy_str _)); eexists; reflexivity.
Qed.

(** Unless [THURGOOD_API_KEY] is set to the empty string, the resolver
    returns the first present source in the order of the design. *)
Lemma getApiKey_precedence (st : State) :
  env_THURGOOD_API_KEY W <> Some EmptyString ->
  CaseDevClient.getApiKey W st
  = (st, Return (CaseDevClient.resolve_by_precedence W)).
Proof.
  intros H. unfold CaseDevClient.getApiKey, CaseDevClient.resolve_by_precedence.
  destruct (env_THURGOOD_API_KEY W) as [k|]; simpl.
  - destruct (String.eqb_spec k EmptyString) as [->|_]; [congruence|].
    reflexivity.
  - destruct (Js.truthy_str (env_CASEDEV_API_KEY W)); [reflexivity|].
    destruct (Auth_get W "thurgood") as [[| |]|];
      try (destruct (Js.truthy_str _)); reflexivity.
Qed.

Lemma getApiKey_resolved (st : State) :
  CaseDevClient.getApiKey W st = (st, CaseDevClient.resolved W).
Proof.
  destruct getApiKey_returns as [k Hk].
  unfold CaseDevClient.resolved. now rewrite (Hk initial), (Hk st).
Qed.

End Resolver.

(* ------------------------------------------------------------------ *)
(** * The request executor *)
(* ------------------------------------------------------------------ *)

Section Executor.

#[local] Arguments drop_timer : simpl never.
#[local] Arguments Js.lit : simpl never.

Variable W : World.
Variable T : Shape.
Variable endpoint : string.
Variable options : CaseDevClient.RequestOptions.

(** Without a usable key the executor throws at once: the state, and with
    it the record of exchanges, is untouched. *)
Lemma request_no_key (st : State) (k : option string) :
  CaseDevClient.getApiKey W st = (st, Return k) ->
  Js.truthy_str k = false ->
  CaseDevClient.request W T endpoint options st = (st, Throw ApiKeyNotFound).
Proof.
  intros Hk Hf. unfold CaseDevClient.request, bind. rewrite Hk.
  destruct k as [k|]; [|reflexivity].
  simpl in Hf. apply negb_false_iff in Hf. rewrite Hf. reflexivity.
Qed.

(** With a key, the executor issues exactly one exchange and completes as
    [outcome] tells; the timer it set is gone whatever happened. *)
Lemma request_runs (st : State) (key : string) :
  CaseDevClient.getApiKey W st = (st, Return (Some key)) ->
  key <> EmptyString ->
  well_formed st ->
  let call := CaseDevClient.exchange key endpoint options (next_id st) in
  CaseDevClient.request W T endpoint options st
  = (CaseDevClient.after st call,
     CaseDevClient.outcome W T options (fetched st) call).
Proof.
  intros Hk Hne Hwf call.
  destruct (well_formed_ids _ Hwf) as [Hid Hab].
  unfold CaseDevClient.request, bind. rewrite Hk.
  destruct (String.eqb_spec key EmptyString) as [|_]; [contradiction|].
  unfold new_AbortController, setTimeout_abort, try_catch, bind, fetch.
  cbn [fst snd next_id timers fetched notices signal].
  fold (CaseDevClient.exchange key endpoint options (next_id st)). fold call.
  rewrite armed_last by auto.
  unfold CaseDevClient.outcome, CaseDevClient.timeout_in_force,
    CaseDevClient.after, clearTimeout.
  cbn [timer_delay timer_id].
  destruct (deadline_first W (fetched st) call _).
  - cbn. rewrite drop_timer_last by auto.
    rewrite (drop_timer_fresh (S (next_id st)) (timers st)) by exact Hid.
    reflexivity.
  - destruct (network W T (fetched st) call) as [e|response].
    + cbn. rewrite drop_timer_last by auto.
      unfold CaseDevClient.rethrown.
      destruct (String.eqb (error_name e) "AbortError"); reflexivity.
    + cbn [fst snd next_id timers fetched notices].
      rewrite drop_timer_last by auto.
      destruct (ok response); cbn [negb].
      * destruct (CaseDevClient.o_responseType options) as [[]|]; cbn;
          match goal with
          | |- context [await ?p] => destruct p as [e|x]
          end; cbn;
          rewrite ?(drop_timer_fresh (S (next_id st)) (timers st)) by exact Hid;
          unfold CaseDevClient.rethrown;
          try destruct (String.eqb (error_name e) "AbortError"); reflexivity.
      * cbn.
        rewrite (drop_timer_fresh (S (next_id st)) (timers st)) by exact Hid.
        reflexivity.
Qed.

(** A request leaves a well-formed state well-formed. *)
Lemma request_well_formed (st : State) :
  well_formed st ->
  well_formed (fst (CaseDevClient.request W T endpoint options st)).
Proof.
  intros Hwf.
  destruct (getApiKey_returns W) as [k Hk].
  destruct k as [key|].
  - destruct (String.eqb_spec key EmptyString) as [->|Hne].
    + now rewrite (request_no_key st (Some EmptyString)) by auto.
    + rewrite (request_runs st key) by auto.
      unfold well_formed in *. cbn [fst CaseDevClient.after timers next_id].
      eapply Forall_impl; [|exact Hwf]. simpl. intros t [? ?]. lia.
  - now rewrite (request_no_key st None) by auto.
Qed.

End Executor.

(* ------------------------------------------------------------------ *)
(** * What each tool does to the record of exchanges *)
(* ------------------------------------------------------------------ *)

Section ToolsWithoutKey.

Variable W : World.
Variable k : option string.
Hypothesis resolved_k : CaseDevClient.resolved W = Return k.
Hypothesis no_key : Js.truthy_str k = false.

Lemma request_rejected (T : Shape) (endpoint : string)
  (options : CaseDevClient.RequestOptions) (st : State) :
  CaseDevClient.request W T endpoint options st = (st, Throw ApiKeyNotFound).
Proof.
  apply request_no_key with (k := k); [|exact no_key].
  now rewrite getApiKey_resolved, resolved_k.
Qed.

Lemma search_rejected (params : VaultSearchTool.Params) (st : State) :
  VaultSearchTool.execute W params st = (st, Throw ApiKeyNotFound).
Proof.
  unfold VaultSearchTool.execute, bind. now rewrite request_rejected.
Qed.

Lemma research_rejected (params : LegalSearchTool.Params) (st : State) :
  exists st',
    LegalSearchTool.execute W params st = (st', Throw ApiKeyNotFound)
    /\ fetched st' = fetched st.
Proof.
  unfold LegalSearchTool.execute, bind, ctx_metadata.
  rewrite request_rejected. eexists; split; reflexivity.
Qed.

Lemma transcribe_rejected (params : TranscribeTool.Params) (st : State) :
  exists st',
    fetched st' = fetched st
    /\ (TranscribeTool.execute W params st
          = (st', Return TranscribeTool.missing_parameters)
        \/ TranscribeTool.execute W params st = (st', Throw ApiKeyNotFound)).
Proof.
  unfold TranscribeTool.execute.
  destruct (negb (TranscribeTool.isVaultMode params) && _).
  - exists st. split; [reflexivity|left; reflexivity].
  - unfold bind, ctx_metadata. rewrite request_rejected.
    eexists; split; [|right; reflexivity]. reflexivity.
Qed.

Lemma upload_rejected (params : VaultUploadTool.Params) (st : State) :
  exists e,
    VaultUploadTool.execute W params st = (st, Throw e)
    /\ (e = ApiKeyNotFound
        \/ fs_readFile W (path_resolve W (VaultUploadTool.p_file_path params)) = inl e
        \/ fs_stat W (path_resolve W (VaultUploadTool.p_file_path params)) = inl e).
Proof.
  unfold VaultUploadTool.execute, bind.
  destruct (fs_readFile W _) as [e|buf]; cbn.
  - exists e. auto.
  - destruct (fs_stat W _) as [e|stats]; cbn.
    + exists e. auto.
    + unfold VaultUploadTool.request_slot. rewrite request_rejected.
      exists ApiKeyNotFound. auto.
Qed.

End ToolsWithoutKey.

(* ------------------------------------------------------------------ *)
(** * Claims on the credential resolver and the request executor *)
(* ------------------------------------------------------------------ *)

(** C3.  When credential resolution yields no key (nothing, or an empty
    key), every request fails with an [AuthError] and leaves the state
    untouched, so no exchange was attempted; the same holds inside every
    tool: the search, research, transcription and upload tools record no
    exchange, and fail with the [AuthError] unless they stopped before
    reaching the executor (missing entry mode, unreadable file). *)
Theorem no_credential_no_network (W : World) (k : option string) :
  CaseDevClient.resolved W = Return k ->
  Js.truthy_str k = false ->
  (forall T endpoint options st,
      exists e,
        CaseDevClient.request W T endpoint options st = (st, Throw e)
        /\ kind_of e = AuthError)
  /\ (forall params st,
         VaultSearchTool.execute W params st = (st, Throw ApiKeyNotFound))
  /\ (forall params st,
         exists st',
           LegalSearchTool.execute W params st = (st', Throw ApiKeyNotFound)
           /\ fetched st' = fetched st)
  /\ (forall params st,
         exists st',
           fetched st' = fetched st
           /\ (TranscribeTool.execute W params st
                 = (st', Return TranscribeTool.missing_parameters)
               \/ TranscribeTool.execute W params st
                 = (st', Throw ApiKeyNotFound)))
  /\ (forall params st,
         exists e,
           VaultUploadTool.execute W params st = (st, Throw e)
           /\ (e = ApiKeyNotFound
               \/ fs_readFile W
                    (path_resolve W (VaultUploadTool.p_file_path params)) = inl e
               \/ fs_stat W
                    (path_resolve W (VaultUploadTool.p_file_path params)) = inl e)).
Proof.
  intros Hk Hf. repeat split.
  - intros T endpoint options st. exists ApiKeyNotFound. split; [|reflexivity].
    now apply request_rejected with (k := k).
  - intros. now apply search_rejected with (k := k).
  - intros. now apply research_rejected with (k := k).
  - intros. now apply transcribe_rejected with (k := k).
  - intros. now apply upload_rejected with (k := k).
Qed.

Lemma no_credential_no_network_witness :
  VaultSearchTool.execute Example.no_credential (Example.searchParams None) initial
  = (initial, Throw ApiKeyNotFound).
Proof.
  apply (no_credential_no_network Example.no_credential None);
    reflexivity.
Defined.

(** C4.  With [THURGOOD_API_KEY] set to the empty string and
    [CASEDEV_API_KEY] set to a key, the resolver returns no key, although
    [CASEDEV_API_KEY] is the first present source of the precedence. *)
Theorem getApiKey_skips_CASEDEV_API_KEY (st : State) :
  env_THURGOOD_API_KEY Example.empty_thurgood = Some EmptyString
  /\ env_CASEDEV_API_KEY Example.empty_thurgood = Some "sk_casedev"
  /\ CaseDevClient.resolve_by_precedence Example.empty_thurgood
     = Some "sk_casedev"
  /\ CaseDevClient.getApiKey Example.empty_thurgood st = (st, Return None).
Proof. repeat split. Qed.

(** C8.  From a well-formed state, the timers pending after a request are
    those pending before it, on every path: the timer the request set is
    cleared or spent whether the body decoded, the status was not a
    success, the exchange was aborted or anything was thrown.  When the
    deadline passes before the exchange settles, the request fails with a
    [TimeoutError] that carries the timeout in force for the call. *)
Theorem request_releases_timer (W : World) (T : Shape) (endpoint : string)
  (options : CaseDevClient.RequestOptions) (st : State) :
  well_formed st ->
  timers (fst (CaseDevClient.request W T endpoint options st)) = timers st
  /\ (forall key,
         CaseDevClient.resolved W = Return (Some key) ->
         key <> EmptyString ->
         deadline_first W (fetched st)
           (CaseDevClient.exchange key endpoint options (next_id st))
           (CaseDevClient.timeout_in_force options) = true ->
         exists e,
           snd (CaseDevClient.request W T endpoint options st) = Throw e
           /\ e = RequestTimedOut (CaseDevClient.timeout_in_force options)
           /\ kind_of e = TimeoutError).
Proof.
  intros Hwf. split.
  - destruct (CaseDevClient.resolved W) as [[key|]|e] eqn:Hr.
    + destruct (String.eqb_spec key EmptyString) as [->|Hne].
      * rewrite (request_no_key W T endpoint options st (Some EmptyString));
          [reflexivity| |reflexivity].
        now rewrite getApiKey_resolved, Hr.
      * rewrite (request_runs W T endpoint options st key);
          [reflexivity| |exact Hne|exact Hwf].
        now rewrite getApiKey_resolved, Hr.
    + rewrite (request_no_key W T endpoint options st None);
        [reflexivity| |reflexivity].
      now rewrite getApiKey_resolved, Hr.
    + destruct (getApiKey_returns W) as [k Hk].
      unfold CaseDevClient.resolved in Hr. rewrite (Hk initial) in Hr.
      discriminate.
  - intros key Hr Hne Hd.
    rewrite (request_runs W T endpoint options st key);
      [| now rewrite getApiKey_resolved, Hr | exact Hne | exact Hwf].
    cbn [snd]. unfold CaseDevClient.outcome. rewrite Hd.
    eexists; repeat split.
Qed.

Lemma request_releases_timer_witness :
  timers (fst (CaseDevClient.request
                 (Example.world (Some "sk_live") None None None [200] true)
                 TUnknown "/vault" CaseDevClient.no_options initial))
  = []
  /\ snd (CaseDevClient.request
            (Example.world (Some "sk_live") None None None [200] true)
            TUnknown "/vault" CaseDevClient.no_options initial)
     = Throw (RequestTimedOut (Js.lit 30000)).
Proof.
  destruct (request_releases_timer
              (Example.world (Some "sk_live") None None None [200] true)
              TUnknown "/vault" CaseDevClient.no_options initial
              well_formed_initial) as [Ht Hd].
  split; [exact Ht|].
  destruct (Hd "sk_live" eq_refl) as [e [He [-> _]]];
    [discriminate|reflexivity|exact He].
Defined.

(* ------------------------------------------------------------------ *)
(** * The upload pipeline *)
(* ------------------------------------------------------------------ *)

Section Upload.

Variable W : World.
Variable params : VaultUploadTool.Params.

(** A request either stops for want of a key or runs its one exchange. *)
Lemma request_cases (T : Shape) (endpoint : string)
  (options : CaseDevClient.RequestOptions) (st : State) :
  well_formed st ->
  CaseDevClient.request W T endpoint options st = (st, Throw ApiKeyNotFound)
  \/ exists key,
      CaseDevClient.resolved W = Return (Some key)
      /\ key <> EmptyString
      /\ CaseDevClient.request W T endpoint options st
         = (CaseDevClient.after st
              (CaseDevClient.exchange key endpoint options (next_id st)),
            CaseDevClient.outcome W T options (fetched st)
              (CaseDevClient.exchange key endpoint options (next_id st))).
Proof.
  intros Hwf.
  pose proof (getApiKey_resolved W st) as Hg.
  destruct (CaseDevClient.resolved W) as [[key|]|e] eqn:Hr.
  - destruct (String.eqb_spec key EmptyString) as [->|Hne].
    + left. now apply request_no_key with (k := Some EmptyString).
    + right. exists key. repeat split; auto.
      now apply request_runs.
  - left. now apply request_no_key with (k := None).
  - destruct (getApiKey_returns W) as [k Hk].
    rewrite (Hk st) in Hg. discriminate.
Qed.

(** The steps of [execute] once the file is read and the slot issued. *)
Lemma execute_after_slot (st st1 : State) (buf : bytes) (stats : Stats)
  (u : VaultUploadResponse) :
  let filePath := path_resolve W (VaultUploadTool.p_file_path params) in
  let filename := path_basename W filePath in
  let contentType := VaultUploadTool.contentType_of W filePath in
  fs_readFile W filePath = inr buf ->
  fs_stat W filePath = inr stats ->
  VaultUploadTool.request_slot W params filename contentType stats st
  = (st1, Return u) ->
  VaultUploadTool.execute W params st
  = bind (fetch W TUnknown (VaultUploadTool.transfer_call u contentType buf))
      (fun s3Response =>
         if negb (ok s3Response) then
           throw (S3UploadFailed (status s3Response) (statusText s3Response))
         else
           bind
             (if Js.truthy_str (next_step u) && auto_index u
              then
                try_catch
                  (bind (VaultUploadTool.request_ingest W params u)
                     (fun _ => ret "started"))
                  (fun _ => ret "failed to start")
              else ret "skipped")
             (fun ingestStatus =>
                ret (VaultUploadTool.result W params filename stats u
                       ingestStatus)))
      st1.
Proof.
  intros filePath filename contentType Hb Hs Hu.
  unfold VaultUploadTool.execute.
  fold filePath. fold filename. fold contentType.
  unfold bind at 1. rewrite Hb. cbn [await ret].
  unfold bind at 1. rewrite Hs. cbn [await ret].
  unfold bind at 1. rewrite Hu. reflexivity.
Qed.

End Upload.

(** C1.  When the file is read, the slot is issued, the transfer is
    answered with a success status, the ingestion trigger is due and its
    request fails with any error, the upload returns normally: the error is
    swallowed, the result carries the ingestion outcome "failed to start"
    and, as [objectId], the id issued with the slot.  The result is spelled
    out: its title, its metadata and its output, whose "Ingestion:" line
    reads "failed to start". *)
Theorem upload_survives_failed_trigger (W : World)
  (params : VaultUploadTool.Params) (st st1 st2 st3 : State) (buf : bytes)
  (stats : Stats) (u : VaultUploadResponse) (r : Response TUnknown)
  (e : JsError) :
  let filePath := path_resolve W (VaultUploadTool.p_file_path params) in
  let filename := path_basename W filePath in
  let contentType := VaultUploadTool.contentType_of W filePath in
  fs_readFile W filePath = inr buf ->
  fs_stat W filePath = inr stats ->
  VaultUploadTool.request_slot W params filename contentType stats st
  = (st1, Return u) ->
  fetch W TUnknown (VaultUploadTool.transfer_call u contentType buf) st1
  = (st2, Return r) ->
  ok r = true ->
  Js.truthy_str (next_step u) && auto_index u = true ->
  VaultUploadTool.request_ingest W params u st2 = (st3, Throw e) ->
  VaultUploadTool.execute W params st
  = (st3,
     Return (VaultUploadTool.result W params filename stats u "failed to start"))
  /\ obj_get "objectId"
       (metadata (VaultUploadTool.result W params filename stats u
                    "failed to start"))
     = Some (VStr (objectId u))
  /\ exists res,
      VaultUploadTool.execute W params st = (st3, Return res)
      /\ title res = "Uploaded: " ++ filename
      /\ metadata res
         = [("objectId", VStr (objectId u));
            ("vaultId", VStr (VaultUploadTool.p_vault_id params));
            ("filename", VStr filename);
            ("autoIndex", VBool true)]
      /\ output res
         = "Document uploaded to vault." ++ nl ++ nl
           ++ "Object ID: " ++ objectId u ++ nl
           ++ "Filename: " ++ filename ++ nl
           ++ "Size: "
           ++ Number_toString W
                (Js.Math_round (Js.div (size stats) (Js.lit 1024)))
           ++ " KB" ++ nl
           ++ "Auto-index: true" ++ nl
           ++ "Ingestion: failed to start" ++ nl ++ nl
           ++ "The document is being processed for indexing. Once complete, it will be searchable via casedev_vault_search.".
Proof.
  intros filePath filename contentType.
  subst contentType filename filePath.
  intros Hb Hs Hu Hput Hok Hdue Hing.
  assert (Hrun :
    VaultUploadTool.execute W params st
    = (st3,
       Return (VaultUploadTool.result W params
                 (path_basename W
                    (path_resolve W (VaultUploadTool.p_file_path params)))
                 stats u "failed to start"))).
  { rewrite (execute_after_slot W params st st1 buf stats u Hb Hs Hu).
    unfold bind at 1. rewrite Hput, Hok. cbn [negb].
    rewrite Hdue. unfold bind, try_catch. rewrite Hing. reflexivity. }
  split; [exact Hrun|]. split; [reflexivity|].
  apply andb_prop in Hdue. destruct Hdue as [_ Hai].
  eexists. split; [exact Hrun|].
  unfold VaultUploadTool.result. cbn [title metadata output].
  rewrite Hai. repeat split.
Qed.

Lemma upload_survives_failed_trigger_witness :
  snd (VaultUploadTool.execute (Example.online [200; 200; 500])
         Example.uploadParams initial)
  = Return (VaultUploadTool.result (Example.online [200; 200; 500])
              Example.uploadParams "/tmp/contract.pdf"
              {| size := Js.lit 2048 |} Example.uploadResponse
              "failed to start")
  /\ exists res,
      snd (VaultUploadTool.execute (Example.online [200; 200; 500])
             Example.uploadParams initial) = Return res
      /\ output res
         = "Document uploaded to vault." ++ nl ++ nl
           ++ "Object ID: obj_123" ++ nl
           ++ "Filename: /tmp/contract.pdf" ++ nl
           ++ "Size: n KB" ++ nl
           ++ "Auto-index: true" ++ nl
           ++ "Ingestion: failed to start" ++ nl ++ nl
           ++ "The document is being processed for indexing. Once complete, it will be searchable via casedev_vault_search.".
Proof.
  pose (W := Example.online [200; 200; 500]).
  pose (st1 := fst (VaultUploadTool.request_slot W Example.uploadParams
                      "/tmp/contract.pdf" "application/pdf"
                      {| size := Js.lit 2048 |} initial)).
  pose (put := VaultUploadTool.transfer_call Example.uploadResponse
                 "application/pdf" []).
  pose (st2 := fst (fetch W TUnknown put st1)).
  pose (st3 := fst (VaultUploadTool.request_ingest W Example.uploadParams
                      Example.uploadResponse st2)).
  destruct (upload_survives_failed_trigger W Example.uploadParams
              initial st1 st2 st3 [] {| size := Js.lit 2048 |}
              Example.uploadResponse (Example.respond TUnknown 200)
              (ApiError (Js.lit 500) EmptyString)
              eq_refl eq_refl eq_refl eq_refl eq_refl eq_refl eq_refl)
    as [H [_ [res [Hres [_ [_ Hout]]]]]].
  fold W. split.
  - rewrite H. reflexivity.
  - exists res. rewrite Hres. split; [reflexivity|]. exact Hout.
Defined.

(** C2.  When the file is read, the slot is issued and the transfer is
    answered with a non-success status, the upload fails with the
    [HttpError] of that status, and the exchanges it made are the slot
    request followed by the one transfer: nothing is sent to the ingestion
    endpoint and the transfer is not tried again. *)
Theorem upload_fails_on_rejected_transfer (W : World)
  (params : VaultUploadTool.Params) (st st1 st2 : State) (buf : bytes)
  (stats : Stats) (u : VaultUploadResponse) (r : Response TUnknown) :
  let filePath := path_resolve W (VaultUploadTool.p_file_path params) in
  let filename := path_basename W filePath in
  let contentType := VaultUploadTool.contentType_of W filePath in
  well_formed st ->
  fs_readFile W filePath = inr buf ->
  fs_stat W filePath = inr stats ->
  VaultUploadTool.request_slot W params filename contentType stats st
  = (st1, Return u) ->
  fetch W TUnknown (VaultUploadTool.transfer_call u contentType buf) st1
  = (st2, Return r) ->
  ok r = false ->
  exists err slot,
    VaultUploadTool.execute W params st = (st2, Throw err)
    /\ kind_of err = HttpError
    /\ http_status err = Some (status r)
    /\ fetched st2
       = (fetched st
          ++ [slot; VaultUploadTool.transfer_call u contentType buf])%list
    /\ url slot
       = CaseDevClient.CASEDEV_API_URL
         ++ "/vault/" ++ VaultUploadTool.p_vault_id params ++ "/upload"
    /\ method slot = POST.
Proof.
  intros filePath filename contentType.
  subst contentType filename filePath.
  intros Hwf Hb Hs Hu Hput Hok.
  assert (exists slot,
             fetched st1 = (fetched st ++ [slot])%list
             /\ url slot
                = CaseDevClient.CASEDEV_API_URL
                  ++ "/vault/" ++ VaultUploadTool.p_vault_id params ++ "/upload"
             /\ method slot = POST) as [slot [Hst1 [Hurl Hmeth]]].
  { pose proof Hu as Hslot. unfold VaultUploadTool.request_slot in Hslot.
    match type of Hslot with
    | CaseDevClient.request _ ?T ?ep ?o _ = _ =>
        destruct (request_cases W T ep o st Hwf) as [Hno|[key [_ [_ Hrun]]]]
    end.
    - rewrite Hno in Hslot. discriminate.
    - rewrite Hrun in Hslot. inversion Hslot.
      eexists. repeat split. }
  exists (S3UploadFailed (status r) (statusText r)), slot.
  split; [|split; [reflexivity|split; [reflexivity|]]].
  - rewrite (execute_after_slot W params st _ buf stats u Hb Hs Hu).
    unfold bind at 1. rewrite Hput, Hok. reflexivity.
  - match type of Hput with
    | fetch _ _ ?c _ = _ =>
        assert (fetched st2 = (fetched st1 ++ [c])%list) as ->
    end.
    { unfold fetch in Hput. cbn [signal VaultUploadTool.transfer_call armed] in Hput.
      destruct (network W TUnknown _ _); inversion Hput; reflexivity. }
    rewrite Hst1, <- app_assoc. repeat split; assumption.
Qed.

Lemma upload_fails_on_rejected_transfer_witness :
  snd (VaultUploadTool.execute (Example.online [200; 403])
         Example.uploadParams initial)
  = Throw (S3UploadFailed (Js.lit 403) EmptyString)
  /\ List.length
       (fetched (fst (VaultUploadTool.execute (Example.online [200; 403])
                        Example.uploadParams initial))) = 2%nat.
Proof.
  pose (W := Example.online [200; 403]).
  pose (st1 := fst (VaultUploadTool.request_slot W Example.uploadParams
                      "/tmp/contract.pdf" "application/pdf"
                      {| size := Js.lit 2048 |} initial)).
  pose (put := VaultUploadTool.transfer_call Example.uploadResponse
                 "application/pdf" []).
  pose (st2 := fst (fetch W TUnknown put st1)).
  destruct (upload_fails_on_rejected_transfer W Example.uploadParams
              initial st1 st2 [] {| size := Js.lit 2048 |}
              Example.uploadResponse (Example.respond TUnknown 403)
              well_formed_initial eq_refl eq_refl eq_refl eq_refl eq_refl)
    as [err [slot [H [_ [Hst [Hf _]]]]]].
  fold W. rewrite H. cbn [fst snd]. rewrite Hf. split; [|reflexivity].
  destruct err; try discriminate Hst; inversion H; reflexivity.
Defined.

(* ------------------------------------------------------------------ *)
(** * The search dispatcher *)
(* ------------------------------------------------------------------ *)

Section Search.

Variable W : World.

Lemma append_assoc (a b c : string) : (a ++ b) ++ c = a ++ (b ++ c).
Proof. induction a as [|x a IH]; simpl; [reflexivity|now rewrite IH]. Qed.

Lemma append_nil_r (a : string) : a ++ EmptyString = a.
Proof. induction a as [|x a IH]; simpl; [reflexivity|now rewrite IH]. Qed.

(** With a key, a search issues one exchange, whose body is the request
    body built from the parameters. *)
Lemma search_sends (params : VaultSearchTool.Params) (st : State)
  (key : string) :
  well_formed st ->
  CaseDevClient.resolved W = Return (Some key) ->
  key <> EmptyString ->
  exists call,
    fetched (fst (VaultSearchTool.execute W params st))
    = (fetched st ++ [call])%list
    /\ body call
       = Some (JsonString (VObj (VaultSearchTool.request_body params))).
Proof.
  intros Hwf Hr Hne.
  exists (CaseDevClient.exchange key
            ("/vault/" ++ VaultSearchTool.p_vault_id params ++ "/search")
            (VaultSearchTool.request_options params) (next_id st)).
  split; [|reflexivity].
  unfold VaultSearchTool.execute, bind.
  rewrite (request_runs W _ _ _ st key);
    [| now rewrite getApiKey_resolved, Hr | exact Hne | exact Hwf].
  destruct (CaseDevClient.outcome _ _ _ _ _) as [response|e]; [|reflexivity].
  destruct (chunks response) as [[|c cs]|]; reflexivity.
Qed.

(** The clamp keeps any number that is not NaN within [1, 100]. *)
Lemma clamp_bounds (x : Js.number) :
  Js.isNaN x = false ->
  Js.le (Js.lit 1) (Js.Math_min (Js.Math_max x (Js.lit 1)) (Js.lit 100)) = true
  /\ Js.le (Js.Math_min (Js.Math_max x (Js.lit 1)) (Js.lit 100)) (Js.lit 100)
     = true.
Proof.
  intros Hx.
  assert (Hm : Js.isNaN (Js.Math_max x (Js.lit 1)) = false)
    by (apply Math_max_notNaN; [exact Hx|reflexivity]).
  split.
  - apply Math_min_ge; [exact Hm|reflexivity| |reflexivity].
    apply Math_max_ge_r; [exact Hx|reflexivity|].
    intros s; vm_compute; discriminate.
  - apply Math_min_le_r; [exact Hm|reflexivity|].
    intros s; vm_compute; discriminate.
Qed.





End Search.

(** C5.  For every [top_k] the schema lets through (any number but NaN,
    or none), the [topK] field of the search request body is a number
    between 1 and 100 inclusive, and that body is the one sent; 500 is sent
    as 100 and 0 as 1. *)
Theorem search_topK_clamped (W : World) (params : VaultSearchTool.Params)
  (st : State) (key : string) :
  VaultSearchTool.p_top_k params <> Some Js.NaN ->
  (exists topK,
      obj_get "topK" (VaultSearchTool.request_body params) = Some (VNum topK)
      /\ Js.le (Js.lit 1) topK = true
      /\ Js.le topK (Js.lit 100) = true)
  /\ (well_formed st ->
      CaseDevClient.resolved W = Return (Some key) ->
      key <> EmptyString ->
      exists call,
        fetched (fst (VaultSearchTool.execute W params st))
        = (fetched st ++ [call])%list
        /\ body call
           = Some (JsonString (VObj (VaultSearchTool.request_body params))))
  /\ obj_get "topK"
       (VaultSearchTool.request_body (Example.searchParams (Some (Js.lit 500))))
     = Some (VNum (Js.lit 100))
  /\ obj_get "topK"
       (VaultSearchTool.request_body (Example.searchParams (Some (Js.lit 0))))
     = Some (VNum (Js.lit 1)).
Proof.
  intros Hn. split; [|split; [|split; reflexivity]].
  - eexists. split; [reflexivity|].
    apply clamp_bounds.
    destruct (VaultSearchTool.p_top_k params) as [[]|]; try reflexivity.
    now elim Hn.
  - intros Hwf Hr Hne. now apply search_sends with (key := key).
Qed.

Lemma search_topK_clamped_witness :
  exists topK,
    obj_get "topK"
      (VaultSearchTool.request_body (Example.searchParams (Some (Js.lit (-7)))))
    = Some (VNum topK)
    /\ Js.le (Js.lit 1) topK = true
    /\ Js.le topK (Js.lit 100) = true.
Proof.
  refine (proj1 (search_topK_clamped (Example.online [200])
                   (Example.searchParams (Some (Js.lit (-7))))
                   initial "sk_live" _)).
  discriminate.
Defined.

(** C10.  When [top_k] is omitted, the [topK] field of the search request
    body is exactly 10, and that body is the one sent. *)
Theorem search_topK_default (W : World) (params : VaultSearchTool.Params)
  (st : State) (key : string) :
  VaultSearchTool.p_top_k params = None ->
  obj_get "topK" (VaultSearchTool.request_body params) = Some (VNum (Js.lit 10))
  /\ (well_formed st ->
      CaseDevClient.resolved W = Return (Some key) ->
      key <> EmptyString ->
      exists call,
        fetched (fst (VaultSearchTool.execute W params st))
        = (fetched st ++ [call])%list
        /\ body call
           = Some (JsonString (VObj (VaultSearchTool.request_body params)))).
Proof.
  intros Hk. split.
  - unfold VaultSearchTool.request_body. rewrite Hk. reflexivity.
  - intros Hwf Hr Hne. now apply search_sends with (key := key).
Qed.

Lemma search_topK_default_witness :
  obj_get "topK" (VaultSearchTool.request_body (Example.searchParams None))
  = Some (VNum (Js.lit 10))
  /\ exists call,
      fetched (fst (VaultSearchTool.execute (Example.online [200])
                      (Example.searchParams None) initial))
      = [call]
      /\ body call
         = Some (JsonString
                   (VObj (VaultSearchTool.request_body
                            (Example.searchParams None)))).
Proof.
  destruct (search_topK_default (Example.online [200])
              (Example.searchParams None) initial "sk_live" eq_refl)
    as [H10 Hsent].
  split; [exact H10|].
  apply Hsent; [exact well_formed_initial|reflexivity|discriminate].
Defined.



(* ------------------------------------------------------------------ *)
(** * The research tool *)
(* ------------------------------------------------------------------ *)

(** The timeout chosen for each mode that is given. *)
Lemma research_timeout_by_mode (mode : LegalSearchTool.Mode) :
  LegalSearchTool.timeout_of (Some mode)
  = match mode with
    | LegalSearchTool.fast => Js.lit 60000
    | LegalSearchTool.normal => Js.lit 180000
    | LegalSearchTool.pro => Js.lit 360000
    end.
Proof. destruct mode; reflexivity. Qed.

(** C6.  With the mode left out, the research request names the model
    "normal" in its body but runs under the timeout of 60 000 ms, not the
    180 000 ms of the normal mode: in a world whose exchanges miss their
    deadline the tool fails with a timeout of 60 000 ms. *)
Theorem research_timeout_mode_omitted :
  LegalSearchTool.model_of None = LegalSearchTool.mode_name LegalSearchTool.normal
  /\ LegalSearchTool.timeout_of None = Js.lit 60000
  /\ LegalSearchTool.timeout_of (Some LegalSearchTool.normal) = Js.lit 180000
  /\ map body
       (fetched (fst (LegalSearchTool.execute Example.slow
                        (Example.researchParams None) initial)))
     = [Some (JsonString
                (VObj [("instructions",
                        VStr "HIPAA breach notification requirements");
                       ("model", VStr "normal")]))]
  /\ snd (LegalSearchTool.execute Example.slow (Example.researchParams None)
            initial)
     = Throw (RequestTimedOut (Js.lit 60000)).
Proof. repeat split. Qed.

(* ------------------------------------------------------------------ *)
(** * The transcription tool *)
(* ------------------------------------------------------------------ *)





(* ------------------------------------------------------------------ *)
(** * More on the request executor *)
(* ------------------------------------------------------------------ *)

Section Objects.

Variable A : Type.

Lemma obj_get_set (k key : string) (v : A) (fields : list (string * A)) :
  obj_get k (obj_set key v fields)
  = if String.eqb key k then Some v else obj_get k fields.
Proof.
  induction fields as [|[k' w] rest IH]; simpl.
  - destruct (String.eqb key k); reflexivity.
  - destruct (String.eqb_spec k' key) as [->|Hne]; simpl.
    + destruct (String.eqb key k); reflexivity.
    + rewrite IH. destruct (String.eqb_spec k' k) as [->|Hk]; [|reflexivity].
      destruct (String.eqb_spec key k) as [->|_]; [contradiction|reflexivity].
Qed.

Lemma obj_get_absent (k : string) (fields : list (string * A)) :
  ~ In k (map fst fields) -> obj_get k fields = None.
Proof.
  induction fields as [|[k' w] rest IH]; simpl; [reflexivity|].
  intros H. destruct (String.eqb_spec k' k) as [->|_].
  - elim H. now left.
  - apply IH. intros Hin. apply H. now right.
Qed.

(** Reading a key of [{ ...base, ...extra }]: the entry of [extra] if it
    has one, the entry of [base] otherwise. *)
Lemma obj_get_spread (k : string) (extra : list (string * A)) :
  NoDup (map fst extra) ->
  forall base,
    obj_get k (obj_spread base extra)
    = match obj_get k extra with
      | Some v => Some v
      | None => obj_get k base
      end.
Proof.
  unfold obj_spread.
  induction extra as [|[k' w] rest IH]; simpl; intros Hnd base;
    [reflexivity|].
  inversion Hnd as [|? ? Hnot Hrest]; subst.
  rewrite (IH Hrest), obj_get_set.
  destruct (String.eqb_spec k' k) as [->|_]; [|reflexivity].
  now rewrite (obj_get_absent k rest Hnot).
Qed.

End Objects.

Section ExecutorMore.

Variable W : World.

(** An exchange that carries no signal settles as the network decides and
    leaves timers and ids alone. *)
Lemma fetch_unsignalled (T : Shape) (call : FetchCall) (st : State) :
  signal call = None ->
  fetch W T call st
  = ({| fetched := fetched st ++ [call]; timers := timers st;
        next_id := next_id st; notices := notices st |},
     match network W T (fetched st) call with
     | inl e => Throw e
     | inr r => Return r
     end).
Proof. intros Hs. unfold fetch. rewrite Hs. reflexivity. Qed.

Lemma fetch_unsignalled_well_formed (T : Shape) (call : FetchCall) (st : State) :
  signal call = None ->
  well_formed st -> well_formed (fst (fetch W T call st)).
Proof. intros Hs Hwf. now rewrite fetch_unsignalled. Qed.

(** A request records at most its one exchange, after those recorded. *)
Lemma request_appends (T : Shape) (endpoint : string)
  (options : CaseDevClient.RequestOptions) (st : State) :
  well_formed st ->
  exists calls,
    fetched (fst (CaseDevClient.request W T endpoint options st))
    = (fetched st ++ calls)%list
    /\ (List.length calls <= 1)%nat.
Proof.
  intros Hwf.
  destruct (request_cases W T endpoint options st Hwf)
    as [Hno|[key [_ [_ Hrun]]]].
  - rewrite Hno. exists []. split; [now rewrite app_nil_r|simpl; lia].
  - rewrite Hrun. eexists [_]. split; [reflexivity|simpl; lia].
Qed.

(** A request whose exchange settles in time with a non-success status. *)
Lemma request_not_ok (T : Shape) (endpoint : string)
  (options : CaseDevClient.RequestOptions) (st : State) (key : string)
  (r : Response T) :
  well_formed st ->
  CaseDevClient.resolved W = Return (Some key) ->
  key <> EmptyString ->
  deadline_first W (fetched st)
    (CaseDevClient.exchange key endpoint options (next_id st))
    (CaseDevClient.timeout_in_force options) = false ->
  network W T (fetched st)
    (CaseDevClient.exchange key endpoint options (next_id st)) = inr r ->
  ok r = false ->
  CaseDevClient.request W T endpoint options st
  = (CaseDevClient.after st
       (CaseDevClient.exchange key endpoint options (next_id st)),
     Throw (ApiError (status r)
              match read_text r with
              | inr t => t
              | inl _ => "Unknown error"
              end)).
Proof.
  intros Hwf Hr Hne Hd Hn Hok.
  rewrite (request_runs W T endpoint options st key);
    [| now rewrite getApiKey_resolved, Hr | exact Hne | exact Hwf].
  unfold CaseDevClient.outcome. now rewrite Hd, Hn, Hok.
Qed.

(** A request whose exchange settles in time with a success status and a
    body that reads as asked. *)
Lemma request_ok (T : Shape) (endpoint : string)
  (options : CaseDevClient.RequestOptions) (st : State) (key : string)
  (r : Response T) :
  well_formed st ->
  CaseDevClient.resolved W = Return (Some key) ->
  key <> EmptyString ->
  deadline_first W (fetched st)
    (CaseDevClient.exchange key endpoint options (next_id st))
    (CaseDevClient.timeout_in_force options) = false ->
  network W T (fetched st)
    (CaseDevClient.exchange key endpoint options (next_id st)) = inr r ->
  ok r = true ->
  CaseDevClient.request W T endpoint options st
  = (CaseDevClient.after st
       (CaseDevClient.exchange key endpoint options (next_id st)),
     match Js.nullish (CaseDevClient.o_responseType options) json as rt
           return Completion (CaseDevClient.Result T rt) with
     | arraybuffer =>
         CaseDevClient.read (CaseDevClient.timeout_in_force options)
           (read_arrayBuffer r)
     | text_ =>
         CaseDevClient.read (CaseDevClient.timeout_in_force options)
           (read_text r)
     | json =>
         CaseDevClient.read (CaseDevClient.timeout_in_force options)
           (read_json r)
     end).
Proof.
  intros Hwf Hr Hne Hd Hn Hok.
  rewrite (request_runs W T endpoint options st key);
    [| now rewrite getApiKey_resolved, Hr | exact Hne | exact Hwf].
  unfold CaseDevClient.outcome. now rewrite Hd, Hn, Hok.
Qed.

End ExecutorMore.

(** X1.  When the exchange of a request settles in time with a
    non-success status, the request fails with the API error of that
    status, whose text is the body of the response, or "Unknown error"
    when the body cannot be read; the exchange is recorded and no timer is
    left. *)
Theorem request_reports_http_error (W : World) (T : Shape) (endpoint : string)
  (options : CaseDevClient.RequestOptions) (st : State) (key : string)
  (r : Response T) :
  well_formed st ->
  CaseDevClient.resolved W = Return (Some key) ->
  key <> EmptyString ->
  deadline_first W (fetched st)
    (CaseDevClient.exchange key endpoint options (next_id st))
    (CaseDevClient.timeout_in_force options) = false ->
  network W T (fetched st)
    (CaseDevClient.exchange key endpoint options (next_id st)) = inr r ->
  ok r = false ->
  CaseDevClient.request W T endpoint options st
  = (CaseDevClient.after st
       (CaseDevClient.exchange key endpoint options (next_id st)),
     Throw (ApiError (status r)
              match read_text r with
              | inr t => t
              | inl _ => "Unknown error"
              end)).
Proof. apply request_not_ok. Qed.

Lemma request_reports_http_error_witness :
  snd (CaseDevClient.request (Example.online [404]) TUnknown "/vault"
         CaseDevClient.no_options initial)
  = Throw (ApiError (Js.lit 404) EmptyString).
Proof.
  rewrite (request_reports_http_error (Example.online [404]) TUnknown "/vault"
             CaseDevClient.no_options initial "sk_live"
             (Example.respond TUnknown 404) well_formed_initial eq_refl);
    [reflexivity|discriminate|reflexivity|reflexivity|reflexivity].
Defined.

(** X2.  The headers of the exchange a request issues are the caller's
    headers laid over the two defaults: a header the caller names is sent
    with the caller's value, also when it is [Authorization] or
    [Content-Type]; any other header is sent as the default, the bearer
    token of the resolved key and the JSON content type. *)
Theorem request_headers_overlay (W : World) (T : Shape) (endpoint : string)
  (options : CaseDevClient.RequestOptions) (st : State) (key : string) :
  well_formed st ->
  CaseDevClient.resolved W = Return (Some key) ->
  key <> EmptyString ->
  NoDup (map fst (Js.nullish (CaseDevClient.o_headers options) [])) ->
  exists call,
    fetched (fst (CaseDevClient.request W T endpoint options st))
    = (fetched st ++ [call])%list
    /\ forall name,
        obj_get name (headers call)
        = match obj_get name (Js.nullish (CaseDevClient.o_headers options) [])
          with
          | Some v => Some v
          | None =>
              if String.eqb name "Authorization" then Some ("Bearer " ++ key)
              else if String.eqb name "Content-Type"
                   then Some "application/json"
                   else None
          end.
Proof.
  intros Hwf Hr Hne Hnd.
  exists (CaseDevClient.exchange key endpoint options (next_id st)). split.
  - rewrite (request_runs W T endpoint options st key);
      [reflexivity| now rewrite getApiKey_resolved, Hr | exact Hne | exact Hwf].
  - intros name. cbn [headers CaseDevClient.exchange].
    rewrite (obj_get_spread _ name _ Hnd).
    destruct (obj_get name _); [reflexivity|].
    cbn [obj_get]. rewrite (String.eqb_sym "Authorization" name),
      (String.eqb_sym "Content-Type" name). reflexivity.
Qed.

Lemma request_headers_overlay_witness :
  exists call,
    fetched (fst (CaseDevClient.request (Example.online [200]) TUnknown
                    "/format/v1/document" Sample.plainTextOptions initial))
    = [call]
    /\ obj_get "Content-Type" (headers call) = Some "text/plain"
    /\ obj_get "Authorization" (headers call) = Some "Bearer sk_live".
Proof.
  destruct (request_headers_overlay (Example.online [200]) TUnknown
              "/format/v1/document" Sample.plainTextOptions initial "sk_live"
              well_formed_initial eq_refl)
    as [call [Hf Hh]].
  - discriminate.
  - repeat constructor; simpl; tauto.
  - exists call. split; [exact Hf|].
    split; [exact (Hh "Content-Type")|exact (Hh "Authorization")].
Defined.

(* ------------------------------------------------------------------ *)
(** * More on the upload pipeline *)
(* ------------------------------------------------------------------ *)

Section UploadMore.

Variable W : World.
Variable params : VaultUploadTool.Params.

(** What a slot request that came back leaves behind: its one exchange,
    a POST to the upload endpoint of the vault whose body names the file,
    its content type, the indexing flag and the size. *)
Lemma slot_exchange (filename contentType : string) (stats : Stats)
  (st st1 : State) (c : Completion VaultUploadResponse) :
  well_formed st ->
  VaultUploadTool.request_slot W params filename contentType stats st
  = (st1, c) ->
  well_formed st1
  /\ (st1 = st
      \/ exists slot,
          fetched st1 = (fetched st ++ [slot])%list
          /\ url slot
             = CaseDevClient.CASEDEV_API_URL
               ++ "/vault/" ++ VaultUploadTool.p_vault_id params ++ "/upload"
          /\ method slot = POST
          /\ body slot
             = Some (JsonString (VObj
                 [("filename", VStr filename);
                  ("contentType", VStr contentType);
                  ("auto_index",
                   VBool (Js.nullish (VaultUploadTool.p_auto_index params) true));
                  ("sizeBytes", VNum (size stats))]))).
Proof.
  intros Hwf Hu. unfold VaultUploadTool.request_slot in Hu.
  split.
  - replace st1 with (fst (CaseDevClient.request W TVaultUploadResponse
                             ("/vault/" ++ VaultUploadTool.p_vault_id params
                              ++ "/upload")
                             {| CaseDevClient.o_method := Some POST;
                                CaseDevClient.o_body :=
                                  Some (VObj
                                    [("filename", VStr filename);
                                     ("contentType", VStr contentType);
                                     ("auto_index",
                                      VBool (Js.nullish
                                               (VaultUploadTool.p_auto_index params)
                                               true));
                                     ("sizeBytes", VNum (size stats))]);
                                CaseDevClient.o_headers := None;
                                CaseDevClient.o_timeout := None;
                                CaseDevClient.o_responseType := None |} st))
      by (now rewrite Hu).
    now apply request_well_formed.
  - match type of Hu with
    | CaseDevClient.request _ ?T ?ep ?o _ = _ =>
        destruct (request_cases W T ep o st Hwf) as [Hno|[key [_ [_ Hrun]]]]
    end.
    + rewrite Hno in Hu. left. now inversion Hu.
    + rewrite Hrun in Hu. right. inversion Hu.
      eexists. repeat split.
Qed.

End UploadMore.

(** X3.  An upload whose file cannot be read, or cannot be inspected,
    fails with the error of the file system and leaves the state as it
    was: nothing is sent, whatever the credentials. *)
Theorem upload_needs_readable_file (W : World)
  (params : VaultUploadTool.Params) (st : State) (e : JsError) :
  let filePath := path_resolve W (VaultUploadTool.p_file_path params) in
  fs_readFile W filePath = inl e
  \/ (exists buf, fs_readFile W filePath = inr buf)
     /\ fs_stat W filePath = inl e ->
  VaultUploadTool.execute W params st = (st, Throw e).
Proof.
  intros filePath [Hb|[[buf Hb] Hs]]; subst filePath;
    unfold VaultUploadTool.execute.
  - unfold bind at 1. now rewrite Hb.
  - unfold bind at 1. rewrite Hb. cbn [await ret].
    unfold bind at 1. now rewrite Hs.
Qed.

Lemma upload_needs_readable_file_witness :
  VaultUploadTool.execute
    (Sample.unreadable (Example.online [200; 200; 200])
       (Foreign "ENOENT" "no such file or directory"))
    Example.uploadParams initial
  = (initial, Throw (Foreign "ENOENT" "no such file or directory")).
Proof.
  apply upload_needs_readable_file. left. reflexivity.
Defined.

(** X4.  When the slot request fails, the upload fails with the same
    error and stops there: the state is the one the slot request left, in
    which at most the slot request itself was sent, so the bytes are never
    transferred. *)
Theorem upload_stops_when_slot_fails (W : World)
  (params : VaultUploadTool.Params) (st st1 : State) (buf : bytes)
  (stats : Stats) (e : JsError) :
  let filePath := path_resolve W (VaultUploadTool.p_file_path params) in
  let filename := path_basename W filePath in
  let contentType := VaultUploadTool.contentType_of W filePath in
  well_formed st ->
  fs_readFile W filePath = inr buf ->
  fs_stat W filePath = inr stats ->
  VaultUploadTool.request_slot W params filename contentType stats st
  = (st1, Throw e) ->
  VaultUploadTool.execute W params st = (st1, Throw e)
  /\ (st1 = st
      \/ exists slot,
          fetched st1 = (fetched st ++ [slot])%list
          /\ url slot
             = CaseDevClient.CASEDEV_API_URL
               ++ "/vault/" ++ VaultUploadTool.p_vault_id params ++ "/upload"
          /\ method slot = POST).
Proof.
  intros filePath filename contentType.
  subst contentType filename filePath.
  intros Hwf Hb Hs Hu. split.
  - unfold VaultUploadTool.execute.
    unfold bind at 1. rewrite Hb. cbn [await ret].
    unfold bind at 1. rewrite Hs. cbn [await ret].
    unfold bind at 1. now rewrite Hu.
  - destruct (slot_exchange W params _ _ _ st st1 _ Hwf Hu)
      as [_ [->|[slot [Hf [Hurl [Hm _]]]]]]; [now left|right].
    exists slot. auto.
Qed.

Lemma upload_stops_when_slot_fails_witness :
  snd (VaultUploadTool.execute (Example.online [503]) Example.uploadParams
         initial)
  = Throw (ApiError (Js.lit 503) EmptyString)
  /\ List.length
       (fetched (fst (VaultUploadTool.execute (Example.online [503])
                        Example.uploadParams initial))) = 1%nat.
Proof.
  pose (W := Example.online [503]).
  pose (st1 := fst (VaultUploadTool.request_slot W Example.uploadParams
                      "/tmp/contract.pdf" "application/pdf"
                      {| size := Js.lit 2048 |} initial)).
  destruct (upload_stops_when_slot_fails W Example.uploadParams initial st1
              [] {| size := Js.lit 2048 |}
              (ApiError (Js.lit 503) EmptyString)
              well_formed_initial eq_refl eq_refl eq_refl) as [H _].
  fold W. rewrite H. split; reflexivity.
Defined.

(** X5.  When the transfer succeeds and the slot calls for no ingestion
    (no next step, or indexing off in the response), the upload returns
    with the ingestion outcome "skipped" right after the transfer: no
    request goes to the ingestion endpoint.  The result is spelled out:
    the "Ingestion:" line of its output reads "skipped", and the closing
    sentence goes by the [auto_index] of the response. *)
Theorem upload_skips_ingestion (W : World)
  (params : VaultUploadTool.Params) (st st1 st2 : State) (buf : bytes)
  (stats : Stats) (u : VaultUploadResponse) (r : Response TUnknown) :
  let filePath := path_resolve W (VaultUploadTool.p_file_path params) in
  let filename := path_basename W filePath in
  let contentType := VaultUploadTool.contentType_of W filePath in
  fs_readFile W filePath = inr buf ->
  fs_stat W filePath = inr stats ->
  VaultUploadTool.request_slot W params filename contentType stats st
  = (st1, Return u) ->
  fetch W TUnknown (VaultUploadTool.transfer_call u contentType buf) st1
  = (st2, Return r) ->
  ok r = true ->
  Js.truthy_str (next_step u) && auto_index u = false ->
  VaultUploadTool.execute W params st
  = (st2, Return (VaultUploadTool.result W params filename stats u "skipped"))
  /\ fetched st2
     = (fetched st1 ++ [VaultUploadTool.transfer_call u contentType buf])%list
  /\ exists res,
      VaultUploadTool.execute W params st = (st2, Return res)
      /\ title res = "Uploaded: " ++ filename
      /\ metadata res
         = [("objectId", VStr (objectId u));
            ("vaultId", VStr (VaultUploadTool.p_vault_id params));
            ("filename", VStr filename);
            ("autoIndex", VBool (auto_index u))]
      /\ output res
         = "Document uploaded to vault." ++ nl ++ nl
           ++ "Object ID: " ++ objectId u ++ nl
           ++ "Filename: " ++ filename ++ nl
           ++ "Size: "
           ++ Number_toString W
                (Js.Math_round (Js.div (size stats) (Js.lit 1024)))
           ++ " KB" ++ nl
           ++ "Auto-index: " ++ (if auto_index u then "true" else "false")
           ++ nl
           ++ "Ingestion: skipped" ++ nl ++ nl
           ++ (if auto_index u
               then "The document is being processed for indexing. Once complete, it will be searchable via casedev_vault_search."
               else "Document stored but not indexed. Use casedev_vault_ingest to process it later.").
Proof.
  intros filePath filename contentType.
  subst contentType filename filePath.
  intros Hb Hs Hu Hput Hok Hdue.
  assert (Hrun :
    VaultUploadTool.execute W params st
    = (st2,
       Return (VaultUploadTool.result W params
                 (path_basename W
                    (path_resolve W (VaultUploadTool.p_file_path params)))
                 stats u "skipped"))).
  { rewrite (execute_after_slot W params st st1 buf stats u Hb Hs Hu).
    unfold bind at 1. rewrite Hput, Hok. cbn [negb].
    rewrite Hdue. reflexivity. }
  split; [exact Hrun|]. split.
  - rewrite fetch_unsignalled in Hput by reflexivity.
    now inversion Hput.
  - eexists. split; [exact Hrun|].
    unfold VaultUploadTool.result. cbn [title metadata output].
    destruct (auto_index u); repeat split.
Qed.

Lemma upload_skips_ingestion_witness :
  snd (VaultUploadTool.execute Sample.unindexing Example.uploadParams initial)
  = Return (VaultUploadTool.result Sample.unindexing Example.uploadParams
              "/tmp/contract.pdf" {| size := Js.lit 2048 |}
              Sample.unindexedSlot "skipped")
  /\ map method
       (fetched (fst (VaultUploadTool.execute Sample.unindexing
                        Example.uploadParams initial)))
     = [POST; PUT]
  /\ exists res,
      snd (VaultUploadTool.execute Sample.unindexing Example.uploadParams
             initial) = Return res
      /\ output res
         = "Document uploaded to vault." ++ nl ++ nl
           ++ "Object ID: obj_456" ++ nl
           ++ "Filename: /tmp/contract.pdf" ++ nl
           ++ "Size: n KB" ++ nl
           ++ "Auto-index: false" ++ nl
           ++ "Ingestion: skipped" ++ nl ++ nl
           ++ "Document stored but not indexed. Use casedev_vault_ingest to process it later.".
Proof.
  pose (W := Sample.unindexing).
  pose (st1 := fst (VaultUploadTool.request_slot W Example.uploadParams
                      "/tmp/contract.pdf" "application/pdf"
                      {| size := Js.lit 2048 |} initial)).
  pose (put := VaultUploadTool.transfer_call Sample.unindexedSlot
                 "application/pdf" []).
  pose (st2 := fst (fetch W TUnknown put st1)).
  destruct (upload_skips_ingestion W Example.uploadParams initial st1 st2 []
              {| size := Js.lit 2048 |} Sample.unindexedSlot
              (Sample.answer TUnknown 200 (inr VNull) (inr EmptyString)
                 (inr []))
              eq_refl eq_refl eq_refl eq_refl eq_refl eq_refl)
    as [H [Hf [res [Hres [_ [_ Hout]]]]]].
  fold W. split; [|split].
  - rewrite H. reflexivity.
  - rewrite H. cbn [fst snd]. rewrite Hf. reflexivity.
  - exists res. rewrite Hres. split; [reflexivity|].
    rewrite Hout. reflexivity.
Defined.

(** X6.  When the transfer succeeds, ingestion is due and its request
    returns, the upload returns with the ingestion outcome "started", and
    the one exchange made after the transfer is a POST without body to the
    ingestion endpoint of that vault and of the object id issued with the
    slot.  The result is spelled out: the "Ingestion:" line of its output
    reads "started", whatever status the ingestion request reported. *)
Theorem upload_starts_ingestion (W : World)
  (params : VaultUploadTool.Params) (st st1 st2 st3 : State) (buf : bytes)
  (stats : Stats) (u : VaultUploadResponse) (r : Response TUnknown)
  (started : string) :
  let filePath := path_resolve W (VaultUploadTool.p_file_path params) in
  let filename := path_basename W filePath in
  let contentType := VaultUploadTool.contentType_of W filePath in
  well_formed st ->
  fs_readFile W filePath = inr buf ->
  fs_stat W filePath = inr stats ->
  VaultUploadTool.request_slot W params filename contentType stats st
  = (st1, Return u) ->
  fetch W TUnknown (VaultUploadTool.transfer_call u contentType buf) st1
  = (st2, Return r) ->
  ok r = true ->
  Js.truthy_str (next_step u) && auto_index u = true ->
  VaultUploadTool.request_ingest W params u st2 = (st3, Return started) ->
  VaultUploadTool.execute W params st
  = (st3, Return (VaultUploadTool.result W params filename stats u "started"))
  /\ (exists ingest,
      fetched st3 = (fetched st2 ++ [ingest])%list
      /\ url ingest
         = CaseDevClient.CASEDEV_API_URL
           ++ "/vault/" ++ VaultUploadTool.p_vault_id params
           ++ "/ingest/" ++ objectId u
      /\ method ingest = POST
      /\ body ingest = None)
  /\ exists res,
      VaultUploadTool.execute W params st = (st3, Return res)
      /\ title res = "Uploaded: " ++ filename
      /\ metadata res
         = [("objectId", VStr (objectId u));
            ("vaultId", VStr (VaultUploadTool.p_vault_id params));
            ("filename", VStr filename);
            ("autoIndex", VBool true)]
      /\ output res
         = "Document uploaded to vault." ++ nl ++ nl
           ++ "Object ID: " ++ objectId u ++ nl
           ++ "Filename: " ++ filename ++ nl
           ++ "Size: "
           ++ Number_toString W
                (Js.Math_round (Js.div (size stats) (Js.lit 1024)))
           ++ " KB" ++ nl
           ++ "Auto-index: true" ++ nl
           ++ "Ingestion: started" ++ nl ++ nl
           ++ "The document is being processed for indexing. Once complete, it will be searchable via casedev_vault_search.".
Proof.
  intros filePath filename contentType.
  subst contentType filename filePath.
  intros Hwf Hb Hs Hu Hput Hok Hdue Hing.
  assert (Hexec :
    VaultUploadTool.execute W params st
    = (st3,
       Return (VaultUploadTool.result W params
                 (path_basename W
                    (path_resolve W (VaultUploadTool.p_file_path params)))
                 stats u "started"))).
  { rewrite (execute_after_slot W params st st1 buf stats u Hb Hs Hu).
    unfold bind at 1. rewrite Hput, Hok. cbn [negb].
    rewrite Hdue. unfold bind, try_catch. rewrite Hing. reflexivity. }
  split; [exact Hexec|]. split.
  2:{ apply andb_prop in Hdue. destruct Hdue as [_ Hai].
      eexists. split; [exact Hexec|].
      unfold VaultUploadTool.result. cbn [title metadata output].
      rewrite Hai. repeat split. }
  - destruct (slot_exchange W params _ _ _ st st1 _ Hwf Hu) as [Hwf1 _].
    assert (Hwf2 : well_formed st2).
    { replace st2 with (fst (fetch W TUnknown
                               (VaultUploadTool.transfer_call u
                                  (VaultUploadTool.contentType_of W
                                     (path_resolve W
                                        (VaultUploadTool.p_file_path params)))
                                  buf) st1))
        by (now rewrite Hput).
      now apply fetch_unsignalled_well_formed. }
    unfold VaultUploadTool.request_ingest in Hing.
    match type of Hing with
    | CaseDevClient.request _ ?T ?ep ?o _ = _ =>
        destruct (request_cases W T ep o st2 Hwf2) as [Hno|[key [_ [_ Hrun]]]]
    end.
    + rewrite Hno in Hing. discriminate.
    + rewrite Hrun in Hing. inversion Hing.
      eexists. repeat split.
Qed.

Lemma upload_starts_ingestion_witness :
  map url
    (fetched (fst (VaultUploadTool.execute (Example.online [200; 200; 202])
                     Example.uploadParams initial)))
  = ["https://api.case.dev/vault/vault_abc/upload";
     "https://s3.example.com/put/obj_123";
     "https://api.case.dev/vault/vault_abc/ingest/obj_123"]
  /\ exists res,
      snd (VaultUploadTool.execute (Example.online [200; 200; 202])
             Example.uploadParams initial) = Return res
      /\ output res
         = "Document uploaded to vault." ++ nl ++ nl
           ++ "Object ID: obj_123" ++ nl
           ++ "Filename: /tmp/contract.pdf" ++ nl
           ++ "Size: n KB" ++ nl
           ++ "Auto-index: true" ++ nl
           ++ "Ingestion: started" ++ nl ++ nl
           ++ "The document is being processed for indexing. Once complete, it will be searchable via casedev_vault_search.".
Proof.
  pose (W := Example.online [200; 200; 202]).
  pose (st1 := fst (VaultUploadTool.request_slot W Example.uploadParams
                      "/tmp/contract.pdf" "application/pdf"
                      {| size := Js.lit 2048 |} initial)).
  pose (put := VaultUploadTool.transfer_call Example.uploadResponse
                 "application/pdf" []).
  pose (st2 := fst (fetch W TUnknown put st1)).
  pose (st3 := fst (VaultUploadTool.request_ingest W Example.uploadParams
                      Example.uploadResponse st2)).
  destruct (upload_starts_ingestion W Example.uploadParams initial st1 st2
              st3 [] {| size := Js.lit 2048 |} Example.uploadResponse
              (Example.respond TUnknown 200) "processing"
              well_formed_initial eq_refl eq_refl eq_refl eq_refl eq_refl
              eq_refl eq_refl) as [H [_ [res [Hres [_ [_ Hout]]]]]].
  fold W. split.
  - rewrite H. reflexivity.
  - exists res. rewrite Hres. split; [reflexivity|]. exact Hout.
Defined.

(** X7.  After a slot was issued, the exchanges of an upload are, in
    order, the slot request, the transfer and at most one more.  The
    transfer is a PUT of the bytes read from the file to the URL of the
    slot; its only header is the content type, the same the slot request
    declared in its body, so the API key is not sent to the storage URL;
    and it carries no abort signal. *)
Theorem upload_transfer_exchange (W : World)
  (params : VaultUploadTool.Params) (st st1 : State) (buf : bytes)
  (stats : Stats) (u : VaultUploadResponse) :
  let filePath := path_resolve W (VaultUploadTool.p_file_path params) in
  let filename := path_basename W filePath in
  let contentType := VaultUploadTool.contentType_of W filePath in
  well_formed st ->
  fs_readFile W filePath = inr buf ->
  fs_stat W filePath = inr stats ->
  VaultUploadTool.request_slot W params filename contentType stats st
  = (st1, Return u) ->
  exists slot put rest declared,
    fetched (fst (VaultUploadTool.execute W params st))
    = (fetched st ++ slot :: put :: rest)%list
    /\ (List.length rest <= 1)%nat
    /\ body slot = Some (JsonString (VObj declared))
    /\ obj_get "contentType" declared = Some (VStr contentType)
    /\ url put = uploadUrl u
    /\ method put = PUT
    /\ headers put = [("Content-Type", contentType)]
    /\ obj_get "Authorization" (headers put) = None
    /\ signal put = None
    /\ body put = Some (Buffer buf).
Proof.
  intros filePath filename contentType.
  subst contentType filename filePath.
  intros Hwf Hb Hs Hu.
  destruct (slot_exchange W params _ _ _ st st1 _ Hwf Hu)
    as [Hwf1 [->|[slot [Hf [_ [_ Hbody]]]]]].
  { unfold VaultUploadTool.request_slot in Hu.
    match type of Hu with
    | CaseDevClient.request _ ?T ?ep ?o _ = _ =>
        destruct (request_cases W T ep o st Hwf) as [Hno|[key [_ [_ Hrun]]]]
    end.
    - rewrite Hno in Hu. discriminate.
    - rewrite Hrun in Hu. inversion Hu as [[Hst Hout]].
      apply (f_equal next_id) in Hst. cbn in Hst. lia. }
  set (ct := VaultUploadTool.contentType_of W
               (path_resolve W (VaultUploadTool.p_file_path params))) in *.
  set (put := VaultUploadTool.transfer_call u ct buf).
  assert (exists rest,
             fetched (fst (VaultUploadTool.execute W params st))
             = (fetched st1 ++ put :: rest)%list
             /\ (List.length rest <= 1)%nat) as [rest [Hrest Hlen]].
  { rewrite (execute_after_slot W params st st1 buf stats u Hb Hs Hu).
    fold ct. fold put. unfold bind at 1.
    rewrite fetch_unsignalled by reflexivity.
    set (st2 := {| fetched := fetched st1 ++ [put]; timers := timers st1;
                   next_id := next_id st1; notices := notices st1 |}).
    assert (Hwf2 : well_formed st2) by exact Hwf1.
    destruct (network W TUnknown (fetched st1) put) as [e|r].
    - exists []. split; [reflexivity|simpl; lia].
    - destruct (ok r); cbn [negb].
      + destruct (Js.truthy_str (next_step u) && auto_index u).
        * unfold bind, try_catch, VaultUploadTool.request_ingest.
          match goal with
          | |- context [CaseDevClient.request W ?T ?ep ?o st2] =>
              destruct (request_appends W T ep o st2 Hwf2) as [calls [Hc Hl]];
              destruct (CaseDevClient.request W T ep o st2) as [st3 [s|e]]
          end;
            cbn [fst ret] in *; exists calls;
            (split; [|exact Hl]); rewrite Hc; cbn [fetched st2];
            now rewrite <- app_assoc.
        * exists []. split; [reflexivity|simpl; lia].
      + exists []. split; [reflexivity|simpl; lia]. }
  exists slot, put, rest. eexists. split.
  - rewrite Hrest, Hf, <- app_assoc. reflexivity.
  - split; [exact Hlen|]. split; [exact Hbody|]. repeat split.
Qed.

Lemma upload_transfer_exchange_witness :
  exists put,
    In put
      (fetched (fst (VaultUploadTool.execute (Example.online [200; 200; 202])
                       Example.uploadParams initial)))
    /\ method put = PUT
    /\ headers put = [("Content-Type", "application/pdf")]
    /\ obj_get "Authorization" (headers put) = None.
Proof.
  pose (W := Example.online [200; 200; 202]).
  pose (st1 := fst (VaultUploadTool.request_slot W Example.uploadParams
                      "/tmp/contract.pdf" "application/pdf"
                      {| size := Js.lit 2048 |} initial)).
  destruct (upload_transfer_exchange W Example.uploadParams initial st1 []
              {| size := Js.lit 2048 |} Example.uploadResponse
              well_formed_initial eq_refl eq_refl eq_refl)
    as [slot [put [rest [declared
         [Hf [_ [_ [_ [_ [Hm [Hh [Ha _]]]]]]]]]]]].
  exists put. fold W. rewrite Hf. repeat split; auto.
  apply in_or_app. right. right. now left.
Defined.

(* ------------------------------------------------------------------ *)
(** * More on the search, research and transcription tools *)
(* ------------------------------------------------------------------ *)

Section NumberOrderMore.

Lemma le_not_lt (a b : Js.number) : Js.le a b = true -> Js.lt b a = false.
Proof.
  unfold Js.le, Js.lt, SFleb, SFltb.
  destruct (SFcompare a b) as [c|] eqn:Hc; [|discriminate].
  rewrite (SFcompare_antisym _ _ _ Hc). destruct c; simpl; congruence.
Qed.

Lemma le_not_NaN (a b : Js.number) :
  Js.le a b = true -> Js.isNaN a = false /\ Js.isNaN b = false.
Proof.
  unfold Js.le, SFleb.
  destruct a as [| | |], b as [| | |]; simpl; auto; discriminate.
Qed.

(** The clamp leaves a number of the interval [1, 100] as it is. *)
Lemma clamp_in_range (x : Js.number) :
  Js.le (Js.lit 1) x = true ->
  Js.le x (Js.lit 100) = true ->
  Js.Math_min (Js.Math_max x (Js.lit 1)) (Js.lit 100) = x.
Proof.
  intros Hlo Hhi.
  destruct (le_not_NaN _ _ Hlo) as [_ Hx].
  assert (Hmax : Js.Math_max x (Js.lit 1) = x).
  { unfold Js.Math_max. rewrite Hx, (le_not_lt _ _ Hlo). cbn [orb Js.isNaN].
    change (Js.isNaN (Js.lit 1)) with false. cbn [orb].
    destruct (Js.lt (Js.lit 1) x); [reflexivity|].
    destruct x as [[]| | |]; reflexivity. }
  rewrite Hmax. unfold Js.Math_min. rewrite Hx, (le_not_lt _ _ Hhi).
  change (Js.isNaN (Js.lit 100)) with false. cbn [orb].
  destruct (Js.lt x (Js.lit 100)); [reflexivity|].
  destruct x as [[]| | |]; reflexivity.
Qed.

End NumberOrderMore.

(** X8.  A [top_k] between 1 and 100 inclusive, whole or fractional, is
    sent as it is: the clamp only changes values outside the interval. *)
Theorem search_topK_in_range_unchanged (params : VaultSearchTool.Params)
  (x : Js.number) :
  VaultSearchTool.p_top_k params = Some x ->
  Js.le (Js.lit 1) x = true ->
  Js.le x (Js.lit 100) = true ->
  obj_get "topK" (VaultSearchTool.request_body params) = Some (VNum x).
Proof.
  intros Hk Hlo Hhi. unfold VaultSearchTool.request_body. rewrite Hk.
  cbn [obj_get String.eqb Ascii.eqb Bool.eqb Js.nullish].
  now rewrite (clamp_in_range x Hlo Hhi).
Qed.

Lemma search_topK_in_range_unchanged_witness :
  obj_get "topK"
    (VaultSearchTool.request_body
       (Example.searchParams (Some (Js.div (Js.lit 5) (Js.lit 2)))))
  = Some (VNum (Js.div (Js.lit 5) (Js.lit 2))).
Proof.
  apply search_topK_in_range_unchanged; reflexivity.
Defined.

(** X9.  A search that is answered in time with a success status and a
    body without chunks (the field absent, or an empty list) is not an
    error: the tool returns the "No results found" result, with a result
    count of 0, after its one exchange. *)
Theorem search_without_chunks_returns (W : World)
  (params : VaultSearchTool.Params) (st : State) (key : string)
  (r : Response TVaultSearchResponse) (response : VaultSearchResponse) :
  let call :=
    CaseDevClient.exchange key
      ("/vault/" ++ VaultSearchTool.p_vault_id params ++ "/search")
      (VaultSearchTool.request_options params) (next_id st) in
  well_formed st ->
  CaseDevClient.resolved W = Return (Some key) ->
  key <> EmptyString ->
  deadline_first W (fetched st) call (Js.lit 30000) = false ->
  network W TVaultSearchResponse (fetched st) call = inr r ->
  ok r = true ->
  read_json r = inr response ->
  chunks response = None \/ chunks response = Some [] ->
  VaultSearchTool.execute W params st
  = (CaseDevClient.after st call,
     Return (VaultSearchTool.no_results params response))
  /\ obj_get "resultCount"
       (metadata (VaultSearchTool.no_results params response))
     = Some (VNum (Js.lit 0)).
Proof.
  intros call Hwf Hr Hne Hd Hn Hok Hj Hc. split; [|reflexivity].
  unfold VaultSearchTool.execute, bind.
  rewrite (request_runs W _ _ _ st key);
    [| now rewrite getApiKey_resolved, Hr | exact Hne | exact Hwf].
  fold call. unfold CaseDevClient.outcome.
  change (CaseDevClient.timeout_in_force
            (VaultSearchTool.request_options params)) with (Js.lit 30000).
  rewrite Hd, Hn, Hok.
  cbn [CaseDevClient.o_responseType VaultSearchTool.request_options Js.nullish].
  rewrite Hj. cbn [CaseDevClient.read].
  destruct Hc as [-> | ->]; reflexivity.
Qed.

Lemma search_without_chunks_returns_witness :
  snd (VaultSearchTool.execute Sample.searchless (Example.searchParams None)
         initial)
  = Return (VaultSearchTool.no_results (Example.searchParams None)
              Sample.emptySearch).
Proof.
  destruct (search_without_chunks_returns Sample.searchless
              (Example.searchParams None) initial "sk_live"
              (Sample.answer TVaultSearchResponse 200
                 (inr Sample.emptySearch) (inr EmptyString) (inr []))
              Sample.emptySearch well_formed_initial eq_refl) as [H _];
    [discriminate|reflexivity|reflexivity|reflexivity|reflexivity
    |left; reflexivity|].
  rewrite H. reflexivity.
Defined.

(** X10.  For a research request whose mode is given, the body names that
    mode as the model and the deadline is the one of that mode: when the
    deadline passes before the exchange settles, the tool fails with the
    timeout of 60 000 ms for fast, 180 000 ms for normal and 360 000 ms
    for pro. *)
Theorem research_deadline_by_mode (W : World)
  (params : LegalSearchTool.Params) (st : State) (key : string)
  (mode : LegalSearchTool.Mode) :
  let timeout :=
    match mode with
    | LegalSearchTool.fast => Js.lit 60000
    | LegalSearchTool.normal => Js.lit 180000
    | LegalSearchTool.pro => Js.lit 360000
    end in
  let call :=
    CaseDevClient.exchange key "/search/v1/research"
      (LegalSearchTool.request_options params timeout) (next_id st) in
  well_formed st ->
  CaseDevClient.resolved W = Return (Some key) ->
  key <> EmptyString ->
  LegalSearchTool.p_mode params = Some mode ->
  deadline_first W (fetched st) call timeout = true ->
  snd (LegalSearchTool.execute W params st) = Throw (RequestTimedOut timeout)
  /\ fetched (fst (LegalSearchTool.execute W params st))
     = (fetched st ++ [call])%list
  /\ body call
     = Some (JsonString
               (VObj [("instructions", VStr (LegalSearchTool.p_query params));
                      ("model", VStr (LegalSearchTool.mode_name mode))])).
Proof.
  intros timeout call Hwf Hr Hne Hm Hd.
  assert (Ht : LegalSearchTool.timeout_of (LegalSearchTool.p_mode params)
               = timeout)
    by (rewrite Hm; apply research_timeout_by_mode).
  assert (Hrun :
    LegalSearchTool.execute W params st
    = (CaseDevClient.after
         {| fetched := fetched st; timers := timers st;
            next_id := next_id st;
            notices :=
              notices st
              ++ [{| notice_title :=
                       "Researching: "
                       ++ slice0 40 (LegalSearchTool.p_query params) ++ "...";
                     notice_metadata :=
                       [("mode",
                         opt_value
                           (fun m => VStr (LegalSearchTool.mode_name m))
                           (LegalSearchTool.p_mode params));
                        ("status", VStr "searching")] |}] |} call,
       Throw (RequestTimedOut timeout))).
  { unfold LegalSearchTool.execute. unfold bind at 1.
    unfold ctx_metadata at 1. rewrite Ht. unfold bind.
    rewrite (request_runs W _ _ _ _ key);
      [| now rewrite getApiKey_resolved, Hr | exact Hne | exact Hwf].
    cbn [next_id fetched]. fold call.
    unfold CaseDevClient.outcome.
    change (CaseDevClient.timeout_in_force
              (LegalSearchTool.request_options params timeout))
      with timeout.
    now rewrite Hd. }
  rewrite Hrun. repeat split.
  cbn [body call CaseDevClient.exchange CaseDevClient.o_body
         LegalSearchTool.request_options truthy].
  unfold LegalSearchTool.model_of. now rewrite Hm.
Qed.

Lemma research_deadline_by_mode_witness :
  snd (LegalSearchTool.execute Example.slow
         (Example.researchParams (Some LegalSearchTool.pro)) initial)
  = Throw (RequestTimedOut (Js.lit 360000)).
Proof.
  apply (research_deadline_by_mode Example.slow
           (Example.researchParams (Some LegalSearchTool.pro)) initial
           "sk_live" LegalSearchTool.pro well_formed_initial eq_refl);
    [discriminate|reflexivity|reflexivity].
Defined.

(** X11.  The section shown for "any other results" skips the entries
    under the three known keys and the entries whose value is falsy: it
    shows exactly what it would show for the entries left after dropping
    those, and nothing at all when no entry is left. *)
Theorem research_other_sections (W : World) (entries : list (string * value))
  (out : string) :
  let kept :=
    filter (fun kv => negb (LegalSearchTool.includes LegalSearchTool.knownKeys
                              (fst kv))
                      && truthy (snd kv)) entries in
  LegalSearchTool.show_others W entries out
  = LegalSearchTool.show_others W kept out
  /\ (kept = [] -> LegalSearchTool.show_others W entries out = out).
Proof.
  intros kept.
  assert (H : LegalSearchTool.show_others W entries out
              = LegalSearchTool.show_others W kept out).
  { subst kept. revert out.
    induction entries as [|[k v] rest IH]; intros out; [reflexivity|].
    cbn [LegalSearchTool.show_others filter fst snd].
    destruct (negb (LegalSearchTool.includes LegalSearchTool.knownKeys k)
              && truthy v) eqn:Hk.
    - cbn [LegalSearchTool.show_others]. rewrite Hk. apply IH.
    - apply IH. }
  split; [exact H|].
  intros Hnil. rewrite H, Hnil. reflexivity.
Qed.

(** X12.  What the transcription request body holds for the optional
    parameters: [speaker_labels] whenever it is given, also when false;
    [word_boost] whenever it is given, also when empty; [speakers_expected]
    only when it is a number other than 0 and NaN; [language_code] only
    when it is not empty; [format] only in vault mode, where it defaults
    to "json". *)
Theorem transcribe_optional_fields (params : TranscribeTool.Params) :
  let body := TranscribeTool.request_body params in
  obj_get "speaker_labels" body
  = option_map VBool (TranscribeTool.p_speaker_labels params)
  /\ obj_get "word_boost" body
     = option_map (fun ws => VArr (map VStr ws))
         (TranscribeTool.p_word_boost params)
  /\ obj_get "speakers_expected" body
     = match TranscribeTool.p_speakers_expected params with
       | Some n => if Js.truthy_num n then Some (VNum n) else None
       | None => None
       end
  /\ obj_get "language_code" body
     = (if Js.truthy_str (TranscribeTool.p_language_code params)
        then Some (opt_value VStr (TranscribeTool.p_language_code params))
        else None)
  /\ obj_get "format" body
     = (if TranscribeTool.isVaultMode params
        then Some (VStr (TranscribeTool.format_name
                           (Js.nullish (TranscribeTool.p_format params)
                              TranscribeTool.fmt_json)))
        else None).
Proof.
  intros body. subst body. unfold TranscribeTool.request_body.
  destruct (TranscribeTool.isVaultMode params),
    (Js.truthy_str (TranscribeTool.p_language_code params)),
    (TranscribeTool.p_speaker_labels params),
    (TranscribeTool.p_speakers_expected params) as [n|],
    (TranscribeTool.p_word_boost params);
    try destruct (Js.truthy_num n); repeat split.
Qed.

Lemma transcribe_optional_fields_witness :
  obj_get "speaker_labels" (TranscribeTool.request_body Sample.falsyOptions)
  = Some (VBool false)
  /\ obj_get "speakers_expected"
       (TranscribeTool.request_body Sample.falsyOptions) = None.
Proof.
  destruct (transcribe_optional_fields Sample.falsyOptions)
    as [Hl [_ [He _]]].
  split; [exact Hl|exact He].
Defined.

Lemma research_other_sections_witness :
  LegalSearchTool.show_others (Example.online []) Sample.researchEntries
    "Research results"
  = LegalSearchTool.show_others (Example.online [])
      [("citations", VArr [VStr "45 CFR 164.404"])] "Research results".
Proof.
  exact (proj1 (research_other_sections (Example.online [])
                  Sample.researchEntries "Research results")).
Defined.

(* ------------------------------------------------------------------ *)
(** * The transcription status tool *)
(* ------------------------------------------------------------------ *)

Section Status.

Variable W : World.

(** The loop over the utterances appends their lines in order. *)
Lemma show_utterances_transcript (us : list Utterance) :
  forall out,
    TranscribeStatusTool.show_utterances W us out
    = out ++ TranscribeStatusTool.transcript W us.
Proof.
  induction us as [|u rest IH]; intros out;
    cbn [TranscribeStatusTool.show_utterances TranscribeStatusTool.transcript].
  - now rewrite append_nil_r.
  - rewrite IH. fold (TranscribeStatusTool.utterance_line W u).
    now rewrite append_assoc.
Qed.

(** The heading does not look at the transcript content. *)
Lemma heading_with_content (response : TranscriptionResponse)
  (t : option string) (w : option (list Word)) (u : option (list Utterance)) :
  TranscribeStatusTool.heading W
    (TranscribeStatusTool.with_content response t w u)
  = TranscribeStatusTool.heading W response.
Proof. reflexivity. Qed.

(** The tool returns whenever its request returns, in the same state. *)
Lemma status_returns (params : TranscribeStatusTool.Params) (st st1 : State)
  (response : TranscriptionResponse) :
  CaseDevClient.request W TTranscriptionResponse
    ("/voice/transcription/" ++ TranscribeStatusTool.p_job_id params)
    CaseDevClient.no_options st
  = (st1, Return response) ->
  exists res,
    TranscribeStatusTool.execute W params st = (st1, Return res)
    /\ output res = TranscribeStatusTool.output_of W response
    /\ obj_get "jobId" (metadata res)
       = Some (VStr (TranscribeStatusTool.p_job_id params)).
Proof.
  intros Hr. unfold TranscribeStatusTool.execute, bind. rewrite Hr.
  eexists. repeat split.
Qed.

End Status.

(** X13.  For a job reported completed, the status tool shows the
    transcript after its heading: the utterances, one line each with time
    and speaker, in the order of the response, and then the flat text is
    not shown; without utterances, the flat text; with neither, nothing
    more, and the tool still returns. *)
Theorem transcribe_status_completed (W : World)
  (params : TranscribeStatusTool.Params) (st st1 : State)
  (response : TranscriptionResponse) :
  CaseDevClient.request W TTranscriptionResponse
    ("/voice/transcription/" ++ TranscribeStatusTool.p_job_id params)
    CaseDevClient.no_options st
  = (st1, Return response) ->
  tr_status response = completed ->
  exists res,
    TranscribeStatusTool.execute W params st = (st1, Return res)
    /\ (forall u us,
           tr_utterances response = Some (u :: us) ->
           output res
           = TranscribeStatusTool.heading W response
             ++ (nl ++ "--- Transcript ---" ++ nl ++ nl)
             ++ TranscribeStatusTool.transcript W (u :: us))
    /\ (tr_utterances response = None \/ tr_utterances response = Some [] ->
        output res
        = TranscribeStatusTool.heading W response
          ++ (nl ++ "--- Transcript ---" ++ nl ++ nl)
          ++ match tr_text response with
             | Some t => t
             | None => EmptyString
             end).
Proof.
  intros Hr Hc.
  destruct (status_returns W params st st1 response Hr) as [res [He [Ho _]]].
  exists res. split; [exact He|]. rewrite Ho.
  unfold TranscribeStatusTool.output_of. rewrite Hc. split.
  - intros u us Hu. rewrite Hu, show_utterances_transcript.
    now rewrite append_assoc.
  - assert (Ht : forall out,
               (if Js.truthy_str (tr_text response)
                then out ++ Js.nullish (tr_text response) EmptyString
                else out)
               = out ++ match tr_text response with
                        | Some t => t
                        | None => EmptyString
                        end).
    { intros out. destruct (tr_text response) as [t|]; simpl.
      - destruct (String.eqb_spec t EmptyString) as [->|_]; simpl;
          [now rewrite append_nil_r|reflexivity].
      - now rewrite append_nil_r. }
    intros [Hu|Hu]; rewrite Hu, Ht; now rewrite append_assoc.
Qed.

Lemma transcribe_status_completed_witness :
  exists res,
    snd (TranscribeStatusTool.execute (Sample.polled Sample.deposition)
           Sample.statusParams initial) = Return res
    /\ output res
       = TranscribeStatusTool.heading (Sample.polled Sample.deposition)
           Sample.deposition
         ++ (nl ++ "--- Transcript ---" ++ nl ++ nl)
         ++ "[n:0n] [A]: Good morning." ++ nl
         ++ "[n:0n:0n] [B]: Please state your name." ++ nl.
Proof.
  destruct (transcribe_status_completed (Sample.polled Sample.deposition)
              Sample.statusParams initial
              (fst (TranscribeStatusTool.execute
                      (Sample.polled Sample.deposition)
                      Sample.statusParams initial))
              Sample.deposition eq_refl eq_refl) as [res [He [Hu _]]].
  exists res. rewrite He. split; [reflexivity|].
  rewrite (Hu _ _ eq_refl). reflexivity.
Defined.

(** X14.  For a job that is not completed, the status tool shows its
    heading and one notice, that the transcription failed when the status
    is error and that it is still processing otherwise; whatever text,
    words or utterances the response carries, none of it is shown. *)
Theorem transcribe_status_not_completed (W : World)
  (params : TranscribeStatusTool.Params) (st st1 : State)
  (response : TranscriptionResponse) :
  CaseDevClient.request W TTranscriptionResponse
    ("/voice/transcription/" ++ TranscribeStatusTool.p_job_id params)
    CaseDevClient.no_options st
  = (st1, Return response) ->
  tr_status response <> completed ->
  exists res,
    TranscribeStatusTool.execute W params st = (st1, Return res)
    /\ output res
       = TranscribeStatusTool.heading W response
         ++ nl
         ++ match tr_status response with
            | error =>
                "The transcription failed. Please try again or contact support."
            | _ =>
                "Transcription is still processing. Check back in a moment."
            end
    /\ forall t w u,
        TranscribeStatusTool.output_of W
          (TranscribeStatusTool.with_content response t w u)
        = output res.
Proof.
  intros Hr Hc.
  destruct (status_returns W params st st1 response Hr) as [res [He [Ho _]]].
  exists res. split; [exact He|]. rewrite Ho.
  unfold TranscribeStatusTool.output_of.
  split.
  - destruct (tr_status response); try reflexivity. now elim Hc.
  - intros t w u. rewrite heading_with_content.
    cbn [tr_status TranscribeStatusTool.with_content].
    destruct (tr_status response); try reflexivity. now elim Hc.
Qed.

Lemma transcribe_status_not_completed_witness :
  exists res,
    snd (TranscribeStatusTool.execute
           (Sample.polled
              (TranscribeStatusTool.with_content Example.transcriptionResponse
                 (Some "partial text") None None))
           Sample.statusParams initial) = Return res
    /\ TranscribeStatusTool.output_of
         (Sample.polled
            (TranscribeStatusTool.with_content Example.transcriptionResponse
               (Some "partial text") None None))
         Example.transcriptionResponse
       = output res.
Proof.
  pose (W := Sample.polled
               (TranscribeStatusTool.with_content
                  Example.transcriptionResponse (Some "partial text")
                  None None)).
  destruct (transcribe_status_not_completed W Sample.statusParams initial
              (fst (TranscribeStatusTool.execute W Sample.statusParams
                      initial))
              (TranscribeStatusTool.with_content
                 Example.transcriptionResponse (Some "partial text")
                 None None)
              eq_refl) as [res [He [_ Hi]]].
  - discriminate.
  - exists res. fold W. rewrite He. split; [reflexivity|].
    exact (Hi None None None).
Defined.

(** X15.  With a key, a status poll is one GET without body to the
    address of the job; apart from recording that exchange it leaves the
    timers and the progress notices as they were, whatever the answer. *)
Theorem transcribe_status_polls_once (W : World)
  (params : TranscribeStatusTool.Params) (st : State) (key : string) :
  well_formed st ->
  CaseDevClient.resolved W = Return (Some key) ->
  key <> EmptyString ->
  exists call,
    fetched (fst (TranscribeStatusTool.execute W params st))
    = (fetched st ++ [call])%list
    /\ timers (fst (TranscribeStatusTool.execute W params st)) = timers st
    /\ notices (fst (TranscribeStatusTool.execute W params st)) = notices st
    /\ url call
       = CaseDevClient.CASEDEV_API_URL ++ "/voice/transcription/"
         ++ TranscribeStatusTool.p_job_id params
    /\ method call = GET
    /\ body call = None.
Proof.
  intros Hwf Hr Hne.
  exists (CaseDevClient.exchange key
            ("/voice/transcription/" ++ TranscribeStatusTool.p_job_id params)
            CaseDevClient.no_options (next_id st)).
  unfold TranscribeStatusTool.execute, bind.
  rewrite (request_runs W _ _ _ st key);
    [| now rewrite getApiKey_resolved, Hr | exact Hne | exact Hwf].
  destruct (CaseDevClient.outcome _ _ _ _ _); repeat split.
Qed.

Lemma transcribe_status_polls_once_witness :
  map method
    (fetched (fst (TranscribeStatusTool.execute (Example.online [200])
                     Sample.statusParams initial)))
  = [GET].
Proof.
  destruct (transcribe_status_polls_once (Example.online [200])
              Sample.statusParams initial "sk_live" well_formed_initial
              eq_refl) as [call [Hf [_ [_ [_ [Hm _]]]]]].
  - discriminate.
  - rewrite Hf. cbn [map app fetched initial]. now rewrite Hm.
Defined.

(* ------------------------------------------------------------------ *)
(** * The remaining vault tools *)
(* ------------------------------------------------------------------ *)

Section Strings.





(** On text within ASCII a code unit is a byte. *)
Lemma length_ascii :
  forall s,
    (forall c, In c (list_ascii_of_string s) -> (JsString.code c < 128)%N) ->
    JsString.length s = String.length s.
Proof.
  induction s as [|c s IH]; intros Ha; [reflexivity|].
  cbn [JsString.length String.length]. rewrite IH.
  - assert (Hc : (JsString.code c < 128)%N) by (apply Ha; now left).
    unfold JsString.units, JsString.is_continuation, JsString.is_pair_lead.
    destruct (N.leb_spec 128 (JsString.code c)); [lia|].
    destruct (N.leb_spec 240 (JsString.code c)); [lia|reflexivity].
  - intros c' Hin. apply Ha. now right.
Qed.

End Strings.

(** X16.  The ingest tool sends the request the upload pipeline sends as
    its third step for the same vault and object, and, unlike the upload,
    lets its failure through: answered in time with a non-success status,
    the tool fails with the API error of that status. *)
Theorem ingest_tool_surfaces_failure (W : World) (H : Host)
  (params : VaultIngestTool.Params) (uploaded : VaultUploadTool.Params)
  (u : VaultUploadResponse) (st : State) (key : string)
  (r : Response TUnknown) :
  let call :=
    CaseDevClient.exchange key
      ("/vault/" ++ VaultIngestTool.p_vault_id params ++ "/ingest/"
       ++ VaultIngestTool.p_object_id params)
      VaultIngestTool.request_options (next_id st) in
  well_formed st ->
  CaseDevClient.resolved W = Return (Some key) ->
  key <> EmptyString ->
  VaultIngestTool.p_vault_id params = VaultUploadTool.p_vault_id uploaded ->
  VaultIngestTool.p_object_id params = objectId u ->
  fetched (fst (VaultIngestTool.execute W H params st))
  = fetched (fst (VaultUploadTool.request_ingest W uploaded u st))
  /\ (deadline_first W (fetched st) call (Js.lit 30000) = false ->
      network W TUnknown (fetched st) call = inr r ->
      ok r = false ->
      VaultIngestTool.execute W H params st
      = (CaseDevClient.after st call,
         Throw (ApiError (status r)
                  match read_text r with
                  | inr t => t
                  | inl _ => "Unknown error"
                  end))).
Proof.
  intros call Hwf Hr Hne Hv Ho.
  assert (Hg : forall st', CaseDevClient.getApiKey W st'
                           = (st', Return (Some key)))
    by (intros st'; now rewrite getApiKey_resolved, Hr).
  split.
  - unfold VaultIngestTool.execute, VaultUploadTool.request_ingest, bind.
    rewrite !(request_runs W _ _ _ st key) by auto.
    rewrite Hv, Ho.
    destruct (CaseDevClient.outcome W TUnknown _ _ _) as [response|e];
      [|reflexivity].
    unfold await.
    destruct (Dyn.prop H _ response "status"); [reflexivity|].
    destruct (Dyn.prop H _ response "message"); reflexivity.
  - intros Hd Hn Hok.
    unfold VaultIngestTool.execute, bind.
    now rewrite (request_not_ok W TUnknown _ _ st key r).
Qed.

Lemma ingest_tool_surfaces_failure_witness :
  snd (VaultIngestTool.execute (Example.online [409]) Sample.host
         Sample.ingestParams initial)
  = Throw (ApiError (Js.lit 409) EmptyString).
Proof.
  destruct (ingest_tool_surfaces_failure (Example.online [409]) Sample.host
              Sample.ingestParams Example.uploadParams Example.uploadResponse
              initial "sk_live" (Example.respond TUnknown 409)
              well_formed_initial eq_refl) as [_ Hf];
    [discriminate|reflexivity|reflexivity|].
  rewrite Hf; reflexivity.
Defined.



(* ------------------------------------------------------------------ *)
(** * The tools that save files *)
(* ------------------------------------------------------------------ *)

Section Saving.

Variable W : World.
Variable H : Host.

(** Writing a file changes that file and no other. *)
Lemma writeFile_writes (path : string) (data : FileData) (d : Disk)
  (st : State) :
  fs_writeFile H path = None ->
  exists d',
    writeFile H path data d st = (d', st, Return tt)
    /\ obj_get path (files d') = Some data
    /\ (forall p, p <> path -> obj_get p (files d') = obj_get p (files d))
    /\ stat W path d' st
       = (d', st, Return {| size := Js.lit (Z.of_nat (byteLength data)) |}).
Proof.
  intros Hw. unfold writeFile. rewrite Hw. eexists. split; [reflexivity|].
  unfold holding. cbn [files]. split; [|split].
  - now rewrite obj_get_set, String.eqb_refl.
  - intros p Hp. rewrite obj_get_set.
    destruct (String.eqb_spec path p); [congruence|reflexivity].
  - unfold stat. cbn [files]. now rewrite obj_get_set, String.eqb_refl.
Qed.

(** Making a directory leaves the files alone. *)
Lemma mkdir_files (dir : string) (d d' : Disk) (st st' : State)
  (c : Completion unit) :
  mkdir H dir d st = (d', st', c) -> files d' = files d /\ st' = st.
Proof.
  unfold mkdir. destruct (fs_mkdir H dir); intros E; inversion E; auto.
Qed.

(** The file at [path] apart, a disk holding something at [path] is the
    disk it was. *)
Lemma holding_others (path : string) (data : FileData) (d : Disk) :
  forall p, p <> path ->
            obj_get p (files (holding path data d)) = obj_get p (files d).
Proof.
  intros p Hp. unfold holding. cbn [files]. rewrite obj_get_set.
  destruct (String.eqb_spec path p); [congruence|reflexivity].
Qed.

(** A write that fails fails with the error of the host, and leaves the
    disk as it was or with what the host says is left in the file. *)
Lemma writeFile_failed (path : string) (data : FileData) (d d' : Disk)
  (st st' : State) (e : JsError) :
  writeFile H path data d st = (d', st', Throw e) ->
  st' = st
  /\ fs_writeFile H path = Some e
  /\ (d' = d
      \/ exists residue,
          fs_writeFile_leaves H path data = Some residue
          /\ d' = holding path residue d).
Proof.
  unfold writeFile. destruct (fs_writeFile H path) as [e'|]; intros E;
    inversion E; subst. split; [reflexivity|]. split; [reflexivity|].
  destruct (fs_writeFile_leaves H path data) as [residue|].
  - right. now exists residue.
  - now left.
Qed.

(** Whatever a write does, it does to the file at its path. *)
Lemma writeFile_others (path : string) (data : FileData) (d d' : Disk)
  (st st' : State) (c : Completion unit) :
  writeFile H path data d st = (d', st', c) ->
  st' = st
  /\ forall p, p <> path -> obj_get p (files d') = obj_get p (files d).
Proof.
  unfold writeFile. destruct (fs_writeFile H path) as [e'|]; intros E;
    inversion E; subst; (split; [reflexivity|]).
  - destruct (fs_writeFile_leaves H path data);
      [apply holding_others|reflexivity].
  - apply holding_others.
Qed.

Lemma writeFile_value_others (path : string) (v : value) (d d' : Disk)
  (st st' : State) (c : Completion unit) :
  writeFile_value H path v d st = (d', st', c) ->
  st' = st
  /\ forall p, p <> path -> obj_get p (files d') = obj_get p (files d).
Proof.
  destruct v; cbn [writeFile_value];
    try (intros E; inversion E; subst; split; [reflexivity|];
         destruct (fst (fs_writeFile_other H path _));
         [apply holding_others|reflexivity]).
  apply writeFile_others.
Qed.

End Saving.

(** X18.  When the download request is answered in time with a success
    status and readable bytes, and the directory can be made and the file
    written, the download tool leaves at the resolved path a file holding
    exactly the bytes received, changes no other file, and reports as size
    the number of those bytes. *)
Theorem download_saves_received_bytes (W : World) (H : Host)
  (params : VaultObjectDownloadTool.Params) (d : Disk) (st : State)
  (key : string) (r : Response TUnknown) (b : bytes) :
  let savePath := path_resolve W (VaultObjectDownloadTool.p_save_to params) in
  let call :=
    CaseDevClient.exchange key
      ("/vault/" ++ VaultObjectDownloadTool.p_vault_id params ++ "/objects/"
       ++ VaultObjectDownloadTool.p_object_id params ++ "/download")
      VaultObjectDownloadTool.request_options (next_id st) in
  well_formed st ->
  CaseDevClient.resolved W = Return (Some key) ->
  key <> EmptyString ->
  deadline_first W (fetched st) call (Js.lit 30000) = false ->
  network W TUnknown (fetched st) call = inr r ->
  ok r = true ->
  read_arrayBuffer r = inr b ->
  fs_mkdir H (path_dirname H savePath) = None ->
  fs_writeFile H savePath = None ->
  exists d' st' res,
    VaultObjectDownloadTool.execute W H params d st = (d', st', Return res)
    /\ obj_get savePath (files d') = Some (DataBytes b)
    /\ (forall p, p <> savePath -> obj_get p (files d') = obj_get p (files d))
    /\ obj_get "size" (metadata res)
       = Some (VNum (Js.lit (Z.of_nat (List.length b))))
    /\ obj_get "savedTo" (metadata res) = Some (VStr savePath)
    /\ fetched st' = (fetched st ++ [call])%list.
Proof.
  intros savePath call Hwf Hr Hne Hd Hn Hok Hb Hm Hw.
  unfold VaultObjectDownloadTool.execute.
  unfold bindD at 1. unfold lift at 1, ctx_metadata at 1.
  unfold bindD at 1. unfold lift at 1.
  rewrite (request_ok W TUnknown _ _ _ key r); auto.
  cbn [next_id fetched
       CaseDevClient.o_responseType VaultObjectDownloadTool.request_options
       Js.nullish]. fold call.
  rewrite Hb. cbn [CaseDevClient.read].
  fold savePath.
  unfold bindD at 1, mkdir at 1. rewrite Hm.
  unfold bindD at 1.
  match goal with
  | |- context [writeFile H savePath ?data ?d0 ?s0] =>
      destruct (writeFile_writes W H savePath data d0 s0 Hw)
        as [d' [Hwr [Hget [Hother Hstat]]]]
  end.
  rewrite Hwr. unfold bindD at 1. rewrite Hstat.
  exists d'. eexists. eexists. split; [reflexivity|].
  split; [exact Hget|]. split; [exact Hother|]. repeat split.
Qed.

Lemma download_saves_received_bytes_witness :
  exists d' st' res,
    VaultObjectDownloadTool.execute (Sample.serving EmptyString Sample.pdfBytes)
      Sample.host Sample.downloadParams blank initial
    = (d', st', Return res)
    /\ files d' = [("/tmp/out/contract.pdf", DataBytes Sample.pdfBytes)]
    /\ obj_get "size" (metadata res) = Some (VNum (Js.lit 4)).
Proof.
  destruct (download_saves_received_bytes
              (Sample.serving EmptyString Sample.pdfBytes) Sample.host
              Sample.downloadParams blank initial "sk_live"
              (Sample.answer TUnknown 200 (inr VNull) (inr EmptyString)
                 (inr Sample.pdfBytes))
              Sample.pdfBytes well_formed_initial eq_refl)
    as [d' [st' [res [He [_ [_ [Hs _]]]]]]];
    try reflexivity; try discriminate.
  exists d', st', res. split; [exact He|]. split; [|exact Hs].
  inversion He. reflexivity.
Defined.

(** X19.  A download that fails changes no file other than the one at the
    save path.  That file too is as it was when the failure comes before
    the write, at the request or when making the directory; when it is the
    write that fails, the file is as it was or holds what the failed write
    left in it. *)
Theorem download_failure_spares_other_files (W : World) (H : Host)
  (params : VaultObjectDownloadTool.Params) (d d' : Disk) (st st' : State)
  (e : JsError) :
  let savePath := path_resolve W (VaultObjectDownloadTool.p_save_to params) in
  VaultObjectDownloadTool.execute W H params d st = (d', st', Throw e) ->
  (forall p, p <> savePath -> obj_get p (files d') = obj_get p (files d))
  /\ (files d' = files d
      \/ exists b residue,
          fs_writeFile H savePath = Some e
          /\ fs_writeFile_leaves H savePath (DataBytes b) = Some residue
          /\ files d' = obj_set savePath residue (files d))
  /\ (fs_writeFile H savePath = None -> files d' = files d).
Proof.
  intros savePath.
  assert (Hmain :
    VaultObjectDownloadTool.execute W H params d st = (d', st', Throw e) ->
    files d' = files d
    \/ exists b residue,
        fs_writeFile H savePath = Some e
        /\ fs_writeFile_leaves H savePath (DataBytes b) = Some residue
        /\ files d' = obj_set savePath residue (files d)).
  { unfold VaultObjectDownloadTool.execute.
    unfold bindD at 1. unfold lift at 1, ctx_metadata at 1.
    unfold bindD at 1. unfold lift at 1.
    destruct (CaseDevClient.request W TUnknown _ _ _) as [st1 [b|e1]];
      [|intros E; inversion E; now left].
    fold savePath. unfold bindD at 1.
    destruct (mkdir H _ d st1) as [[d1 st2] [[]|e1]] eqn:Hm;
      destruct (mkdir_files H _ _ _ _ _ _ Hm) as [Hf ->];
      [|intros E; inversion E; subst; now left].
    unfold bindD at 1.
    destruct (writeFile H savePath _ d1 st1) as [[d2 st3] [[]|e1]] eqn:Hw.
    - unfold writeFile in Hw.
      destruct (fs_writeFile H _); [discriminate|]. inversion Hw; subst.
      unfold bindD, stat, holding. cbn [files].
      rewrite obj_get_set, String.eqb_refl. intros E. discriminate.
    - intros E. inversion E; subst.
      destruct (writeFile_failed H _ _ _ _ _ _ _ Hw)
        as [_ [He [-> | [residue [Hl ->]]]]].
      + now left.
      + right. exists b, residue. unfold holding. cbn [files].
        rewrite Hf. auto. }
  intros He. destruct (Hmain He) as [Hsame | [b [residue [Hw [Hl Hf]]]]].
  - split; [|split]; auto. intros p _. now rewrite Hsame.
  - split; [|split].
    + intros p Hp. rewrite Hf, obj_get_set.
      destruct (String.eqb_spec savePath p); [congruence|reflexivity].
    + right. now exists b, residue.
    + intros Hn. rewrite Hn in Hw. discriminate.
Qed.

Lemma download_failure_spares_other_files_witness :
  obj_get "/tmp/out/notes.txt"
    (files (fst (fst (VaultObjectDownloadTool.execute
                        (Sample.serving EmptyString Sample.pdfBytes)
                        Sample.fullDisk Sample.downloadParams
                        Sample.holdingContract initial))))
  = Some (DataText "keep")
  /\ obj_get "/tmp/out/contract.pdf"
       (files (fst (fst (VaultObjectDownloadTool.execute
                           (Sample.serving EmptyString Sample.pdfBytes)
                           Sample.fullDisk Sample.downloadParams
                           Sample.holdingContract initial))))
     = Some (DataBytes []).
Proof.
  pose (W := Sample.serving EmptyString Sample.pdfBytes).
  destruct (download_failure_spares_other_files W Sample.fullDisk
              Sample.downloadParams Sample.holdingContract
              (fst (fst (VaultObjectDownloadTool.execute W Sample.fullDisk
                           Sample.downloadParams Sample.holdingContract
                           initial)))
              initial
              (snd (fst (VaultObjectDownloadTool.execute W Sample.fullDisk
                           Sample.downloadParams Sample.holdingContract
                           initial)))
              (Foreign "Error" "ENOSPC: no space left on device")
              eq_refl) as [Hothers _].
  fold W. split.
  - rewrite Hothers; [reflexivity|discriminate].
  - reflexivity.
Defined.

(** X20.  When the format request is answered in time with a success
    status and the directory can be made and the file written, the format
    tool leaves at the resolved path what it received, read by the output
    format: the text of the body for the HTML preview, the bytes of the
    body for PDF and DOCX; no other file changes, and the size reported is
    the size of what was written. *)
Theorem format_saves_received_document (W : World) (H : Host)
  (params : FormatDocumentTool.Params) (d : Disk) (st : State)
  (key : string) (r : Response TUnknown) (t : string) (b : bytes) :
  let outputPath := path_resolve W (FormatDocumentTool.p_save_to params) in
  let call :=
    CaseDevClient.exchange key "/format/v1/document"
      (FormatDocumentTool.request_options params) (next_id st) in
  let saved :=
    match FormatDocumentTool.p_output_format params with
    | FormatDocumentTool.html_preview => DataText t
    | _ => DataBytes b
    end in
  well_formed st ->
  CaseDevClient.resolved W = Return (Some key) ->
  key <> EmptyString ->
  deadline_first W (fetched st) call (Js.lit 30000) = false ->
  network W TUnknown (fetched st) call = inr r ->
  ok r = true ->
  read_text r = inr t ->
  read_arrayBuffer r = inr b ->
  fs_mkdir H (path_dirname H outputPath) = None ->
  fs_writeFile H outputPath = None ->
  exists d' st' res,
    FormatDocumentTool.execute W H params d st = (d', st', Return res)
    /\ obj_get outputPath (files d') = Some saved
    /\ (forall p, p <> outputPath ->
                  obj_get p (files d') = obj_get p (files d))
    /\ obj_get "size" (metadata res)
       = Some (VNum (Js.lit (Z.of_nat (byteLength saved)))).
Proof.
  intros outputPath call saved Hwf Hr Hne Hd Hn Hok Ht Hb Hm Hw.
  unfold FormatDocumentTool.execute.
  unfold bindD at 1. unfold lift at 1, ctx_metadata at 1.
  unfold bindD at 1. unfold lift at 1.
  rewrite (request_ok W TUnknown _ _ _ key r); auto.
  cbn [next_id fetched]. fold call. fold outputPath.
  assert (Hdata :
    exists x : CaseDevClient.Result TUnknown
                 (FormatDocumentTool.responseType_of
                    (FormatDocumentTool.p_output_format params)),
      match
        Js.nullish
          (CaseDevClient.o_responseType
             (FormatDocumentTool.request_options params)) json as rt
        return Completion (CaseDevClient.Result TUnknown rt)
      with
      | arraybuffer =>
          CaseDevClient.read
            (CaseDevClient.timeout_in_force
               (FormatDocumentTool.request_options params))
            (read_arrayBuffer r)
      | text_ =>
          CaseDevClient.read
            (CaseDevClient.timeout_in_force
               (FormatDocumentTool.request_options params))
            (read_text r)
      | json =>
          CaseDevClient.read
            (CaseDevClient.timeout_in_force
               (FormatDocumentTool.request_options params))
            (read_json r)
      end = Return x
      /\ FormatDocumentTool.file_data
           (FormatDocumentTool.p_output_format params) x = saved).
  { subst saved.
    cbn [CaseDevClient.o_responseType FormatDocumentTool.request_options
         Js.nullish].
    destruct (FormatDocumentTool.p_output_format params);
      cbn [FormatDocumentTool.responseType_of];
      rewrite ?Ht, ?Hb; eexists; split; reflexivity. }
  destruct Hdata as [x [Hx Hsaved]]. rewrite Hx.
  unfold bindD at 1, mkdir at 1. rewrite Hm.
  unfold bindD at 1. rewrite Hsaved.
  match goal with
  | |- context [writeFile H outputPath saved ?d0 ?s0] =>
      destruct (writeFile_writes W H outputPath saved d0 s0 Hw)
        as [d' [Hwr [Hget [Hother Hstat]]]]
  end.
  rewrite Hwr. unfold bindD at 1. rewrite Hstat.
  exists d'. eexists. eexists. split; [reflexivity|].
  split; [exact Hget|]. split; [exact Hother|]. reflexivity.
Qed.

Lemma format_saves_received_document_witness :
  exists d' st' res,
    FormatDocumentTool.execute (Sample.serving "<h1>Legal Memo</h1>" [])
      Sample.host (Sample.formatParams FormatDocumentTool.html_preview)
      blank initial
    = (d', st', Return res)
    /\ obj_get "/tmp/out/memo" (files d')
       = Some (DataText "<h1>Legal Memo</h1>").
Proof.
  destruct (format_saves_received_document
              (Sample.serving "<h1>Legal Memo</h1>" []) Sample.host
              (Sample.formatParams FormatDocumentTool.html_preview)
              blank initial "sk_live"
              (Sample.answer TUnknown 200 (inr VNull)
                 (inr "<h1>Legal Memo</h1>") (inr []))
              "<h1>Legal Memo</h1>" [] well_formed_initial eq_refl)
    as [d' [st' [res [He [Hg _]]]]];
    try reflexivity; try discriminate.
  exists d', st', res. split; [exact He|exact Hg].
Defined.

(* ------------------------------------------------------------------ *)
(** * The OCR download tool *)
(* ------------------------------------------------------------------ *)

Section OcrDelivery.

Variable W : World.
Variable H : Host.
Variable params : OcrDownloadTool.Params.

(** Reading a settled promise changes neither the disk nor the state. *)
Lemma lift_await {A : Type} (p : JsError + A) (d : Disk) (st : State) :
  lift (await p) d st
  = (d, st, match p with inl e => Throw e | inr a => Return a end).
Proof.
  destruct p; reflexivity.
Qed.

(** Once the request has returned, the tool sends nothing more. *)
Lemma deliver_state (format : OcrDownloadTool.Format) (response : value)
  (d : Disk) (st : State) :
  snd (fst (OcrDownloadTool.deliver W H params format response d st)) = st.
Proof.
  unfold OcrDownloadTool.deliver.
  destruct (OcrDownloadTool.is_pdf format
            && Js.truthy_str (OcrDownloadTool.p_save_to params)).
  - unfold bindD at 1. rewrite lift_await.
    destruct (Dyn.prop H _ response "content") as [e|encoded];
      [reflexivity|].
    unfold bindD at 1. rewrite lift_await.
    destruct (Buffer_from_base64 H encoded) as [e|b]; [reflexivity|].
    unfold bindD at 1.
    destruct (writeFile H _ _ d st) as [[d1 st1] [[]|e]] eqn:Hw;
      destruct (writeFile_others H _ _ _ _ _ _ _ Hw) as [-> _];
      [|reflexivity].
    unfold bindD at 1. rewrite lift_await.
    destruct (Dyn.prop H _ response "pages"); reflexivity.
  - destruct (Js.truthy_str (OcrDownloadTool.p_save_to params)).
    + unfold bindD at 1. rewrite lift_await.
      destruct (OcrDownloadTool.content_of W H format response)
        as [e|content]; [reflexivity|].
      unfold bindD at 1.
      destruct (writeFile_value H _ content d st) as [[d1 st1] [[]|e]] eqn:Hw;
        destruct (writeFile_value_others H _ _ _ _ _ _ _ Hw) as [-> _];
        [|reflexivity].
      unfold bindD at 1. rewrite lift_await.
      destruct (OcrDownloadTool.preview W H content); reflexivity.
    + unfold bindD at 1. rewrite lift_await.
      destruct (OcrDownloadTool.content_of W H format response)
        as [e|content]; [reflexivity|].
      unfold bindD at 1. rewrite lift_await.
      destruct (Dyn.length_of H _ content); reflexivity.
Qed.

(** Without a place to save, the tool writes nothing. *)
Lemma deliver_unsaved (format : OcrDownloadTool.Format) (response : value)
  (d : Disk) (st : State) :
  Js.truthy_str (OcrDownloadTool.p_save_to params) = false ->
  fst (fst (OcrDownloadTool.deliver W H params format response d st)) = d.
Proof.
  intros Hs. unfold OcrDownloadTool.deliver. rewrite Hs, andb_false_r.
  unfold bindD at 1. rewrite lift_await.
  destruct (OcrDownloadTool.content_of W H format response)
    as [e|content]; [reflexivity|].
  unfold bindD at 1. rewrite lift_await.
  destruct (Dyn.length_of H _ content); reflexivity.
Qed.

End OcrDelivery.

(** X21.  The OCR download tool refuses a PDF download without a place to
    save it (no [save_to], or an empty one) before doing anything: it
    returns the "save_to required" error result with the disk and the
    state untouched, with or without a credential.  In every other case it
    goes to the backend: with a key, its one exchange is a GET to the
    download address of the job in the format asked, "text" by default. *)
Theorem ocr_pdf_needs_save_to (W : World) (H : Host)
  (params : OcrDownloadTool.Params) (d : Disk) (st : State) :
  let format :=
    Js.nullish (OcrDownloadTool.p_format params) OcrDownloadTool.fmt_text in
  let refused :=
    OcrDownloadTool.is_pdf format
    && negb (Js.truthy_str (OcrDownloadTool.p_save_to params)) in
  (refused = true ->
   OcrDownloadTool.execute W H params d st
   = (d, st, Return OcrDownloadTool.save_to_required))
  /\ (refused = false ->
      forall key,
        well_formed st ->
        CaseDevClient.resolved W = Return (Some key) ->
        key <> EmptyString ->
        exists call,
          fetched (snd (fst (OcrDownloadTool.execute W H params d st)))
          = (fetched st ++ [call])%list
          /\ url call
             = CaseDevClient.CASEDEV_API_URL ++ "/ocr/v1/"
               ++ OcrDownloadTool.p_job_id params ++ "/download/"
               ++ OcrDownloadTool.format_name format
          /\ method call = GET
          /\ body call = None).
Proof.
  intros format refused. subst refused. split.
  - intros Hrf. unfold OcrDownloadTool.execute. fold format. now rewrite Hrf.
  - intros Hrf key Hwf Hr Hne.
    exists (CaseDevClient.exchange key
              ("/ocr/v1/" ++ OcrDownloadTool.p_job_id params ++ "/download/"
               ++ OcrDownloadTool.format_name format)
              CaseDevClient.no_options (next_id st)).
    split; [|repeat split].
    unfold OcrDownloadTool.execute. fold format. rewrite Hrf.
    unfold bindD at 1. unfold lift at 1.
    rewrite (request_runs W _ _ _ st key);
      [| now rewrite getApiKey_resolved, Hr | exact Hne | exact Hwf].
    destruct (CaseDevClient.outcome _ _ _ _ _) as [raw|e]; [|reflexivity].
    rewrite deliver_state. reflexivity.
Qed.

Lemma ocr_pdf_needs_save_to_witness :
  OcrDownloadTool.execute Example.no_credential Sample.host
    (Sample.ocrParams (Some OcrDownloadTool.fmt_pdf) (Some EmptyString))
    blank initial
  = (blank, initial, Return OcrDownloadTool.save_to_required).
Proof.
  apply (ocr_pdf_needs_save_to Example.no_credential Sample.host
           (Sample.ocrParams (Some OcrDownloadTool.fmt_pdf)
              (Some EmptyString)) blank initial).
  reflexivity.
Defined.



(** X23.  Without a place to save, the OCR download tool never touches
    the disk, whatever happens.  When its request returns for the text or
    JSON format with a string as content, the output is the whole
    content, not a preview, and the length reported is the length of that
    content in UTF-16 code units.  In text format a body without
    [content], or with a null one, makes the tool fail with a
    [TypeError]. *)
Theorem ocr_unsaved_returns_content (W : World) (H : Host)
  (params : OcrDownloadTool.Params) (d : Disk) (st : State) :
  let format :=
    Js.nullish (OcrDownloadTool.p_format params) OcrDownloadTool.fmt_text in
  Js.truthy_str (OcrDownloadTool.p_save_to params) = false ->
  fst (fst (OcrDownloadTool.execute W H params d st)) = d
  /\ (forall st1 raw content,
         CaseDevClient.request W TUnknown
           ("/ocr/v1/" ++ OcrDownloadTool.p_job_id params ++ "/download/"
            ++ OcrDownloadTool.format_name format)
           CaseDevClient.no_options st
         = (st1, Return raw) ->
         format = OcrDownloadTool.fmt_json
         /\ raw <> VUndefined /\ content = JSON_stringify_pretty W raw
         \/ format = OcrDownloadTool.fmt_text
            /\ (exists fields,
                   raw = VObj fields
                   /\ obj_get "content" fields = Some (VStr content)) ->
         exists res,
           OcrDownloadTool.execute W H params d st = (d, st1, Return res)
           /\ output res = content
           /\ metadata res
              = [("jobId", VStr (OcrDownloadTool.p_job_id params));
                 ("format", VStr (OcrDownloadTool.format_name format));
                 ("length",
                  VNum (Js.lit (Z.of_nat (JsString.length content))))])
  /\ (forall st1 fields,
         format = OcrDownloadTool.fmt_text ->
         CaseDevClient.request W TUnknown
           ("/ocr/v1/" ++ OcrDownloadTool.p_job_id params ++ "/download/"
            ++ OcrDownloadTool.format_name format)
           CaseDevClient.no_options st
         = (st1, Return (VObj fields)) ->
         obj_get "content" fields = None
         \/ obj_get "content" fields = Some VNull ->
         exists message,
           OcrDownloadTool.execute W H params d st
           = (d, st1, Throw (Foreign "TypeError" message))).
Proof.
  intros format Hs.
  assert (Hrun : forall st1 raw,
    OcrDownloadTool.is_pdf format = false ->
    CaseDevClient.request W TUnknown
      ("/ocr/v1/" ++ OcrDownloadTool.p_job_id params ++ "/download/"
       ++ OcrDownloadTool.format_name format)
      CaseDevClient.no_options st
    = (st1, Return raw) ->
    OcrDownloadTool.execute W H params d st
    = (let+ content :=
         lift (await (OcrDownloadTool.content_of W H format raw)) in
       let+ length :=
         lift (await (Dyn.length_of H "content.length" content)) in
       retD {| title :=
                 "OCR " ++ OcrDownloadTool.format_name format ++ " content";
               metadata :=
                 [("jobId", VStr (OcrDownloadTool.p_job_id params));
                  ("format", VStr (OcrDownloadTool.format_name format));
                  ("length", length)];
               output := Dyn.as_output H content |}) d st1).
  { intros st1 raw Hpdf Hr. unfold OcrDownloadTool.execute. fold format.
    rewrite Hs, Hpdf. cbn [andb negb]. unfold bindD at 1, lift at 1.
    rewrite Hr. unfold OcrDownloadTool.deliver. rewrite Hs, andb_false_r.
    reflexivity. }
  split; [|split].
  - unfold OcrDownloadTool.execute. fold format. rewrite Hs.
    cbn [negb]. rewrite andb_true_r.
    destruct (OcrDownloadTool.is_pdf format); [reflexivity|].
    unfold bindD, lift.
    destruct (CaseDevClient.request W TUnknown _ _ st) as [st1 [raw|e]];
      [|reflexivity].
    now apply deliver_unsaved.
  - intros st1 raw content Hr Hc.
    assert (Hfmt : OcrDownloadTool.is_pdf format = false
                   /\ OcrDownloadTool.content_of W H format raw
                      = inr (VStr content)).
    { unfold OcrDownloadTool.content_of.
      destruct Hc as [[-> [Hraw ->]] | [-> [fields [-> Hf]]]].
      - split; [reflexivity|]. cbn [OcrDownloadTool.is_json].
        destruct raw; try reflexivity. contradiction.
      - split; [reflexivity|]. cbn [OcrDownloadTool.is_json Dyn.prop].
        now rewrite Hf. }
    destruct Hfmt as [Hpdf Hcontent].
    rewrite (Hrun st1 raw Hpdf Hr).
    unfold bindD at 1. rewrite lift_await, Hcontent.
    unfold bindD at 1. rewrite lift_await. cbn [Dyn.length_of].
    eexists. repeat split.
  - intros st1 fields Hf Hr Hc.
    exists (TypeError_message H "content.length").
    rewrite (Hrun st1 (VObj fields)); [|now rewrite Hf|exact Hr].
    unfold bindD at 1. rewrite lift_await.
    unfold OcrDownloadTool.content_of. rewrite Hf.
    cbn [OcrDownloadTool.is_json Dyn.prop].
    destruct Hc as [-> | ->]; reflexivity.
Qed.

Lemma ocr_unsaved_returns_content_witness :
  fst (fst (OcrDownloadTool.execute (Sample.replying Sample.ocrAccents)
              Sample.host (Sample.ocrParams None None) blank initial))
  = blank
  /\ exists res,
      snd (OcrDownloadTool.execute (Sample.replying Sample.ocrAccents)
             Sample.host (Sample.ocrParams None None) blank initial)
      = Return res
      /\ output res = "Exposé né"
      /\ obj_get "length" (metadata res) = Some (VNum (Js.lit 9)).
Proof.
  pose (W := Sample.replying Sample.ocrAccents).
  destruct (ocr_unsaved_returns_content W Sample.host
              (Sample.ocrParams None None) blank initial eq_refl)
    as [Hdisk [Hshow _]].
  split; [exact Hdisk|].
  destruct (Hshow (fst (CaseDevClient.request W TUnknown
                          "/ocr/v1/ocr_1/download/text"
                          CaseDevClient.no_options initial))
              Sample.ocrAccents "Exposé né" eq_refl)
    as [res [He [Ho Hm]]].
  { right. split; [reflexivity|]. eexists. split; reflexivity. }
  exists res. fold W. rewrite He. split; [reflexivity|].
  split; [exact Ho|]. rewrite Hm. reflexivity.
Defined.

(* ------------------------------------------------------------------ *)
(** * The provider list of the desktop application *)
(* ------------------------------------------------------------------ *)

Section ProviderList.

Lemma filter_all_or_none {A : Type} (f g : A -> bool) (b : bool)
  (l : list A) :
  (forall x, f x = true -> g x = b) ->
  filter g (filter f l) = if b then filter f l else [].
Proof.
  intros Hfg. induction l as [|x l IH]; simpl.
  - destruct b; reflexivity.
  - destruct (f x) eqn:Hf; [|exact IH].
    simpl. rewrite (Hfg x Hf), IH. destruct b; reflexivity.
Qed.

End ProviderList.

(** X24.  Whatever the stores hold, the provider hook shows only
    providers whose id is "thurgood", in the order of the store in use
    (the project's when a directory is open, the global one otherwise);
    the popular list is that list; the connected and paid lists are that
    same list when "thurgood" is among the connected ids of the store, and
    empty otherwise. *)
Theorem providers_only_thurgood (currentDirectory : string)
  (child : string -> Providers.Store) (global : Providers.Store) :
  let store :=
    if String.eqb currentDirectory EmptyString then global
    else child currentDirectory in
  let shown := Providers.useProviders currentDirectory child global in
  Providers.shown_all shown
  = filter (fun p => String.eqb (Providers.provider_id p) "thurgood")
      (Providers.all store)
  /\ Forall (fun p => Providers.provider_id p = "thurgood")
       (Providers.shown_all shown)
  /\ Providers.shown_popular shown = Providers.shown_all shown
  /\ Providers.shown_connected shown
     = (if existsb (String.eqb "thurgood") (Providers.connected store)
        then Providers.shown_all shown else [])
  /\ Providers.shown_paid shown = Providers.shown_connected shown.
Proof.
  intros store shown. subst shown store. unfold Providers.useProviders.
  destruct (String.eqb currentDirectory EmptyString);
    cbn [negb Providers.shown_all Providers.shown_popular
         Providers.shown_connected Providers.shown_paid];
    (split; [reflexivity|]);
    (split; [apply Forall_forall; intros p Hp;
             apply filter_In in Hp; destruct Hp as [_ Hp];
             now apply String.eqb_eq in Hp|]);
    (split; [reflexivity|]);
    (split; [|reflexivity]);
    apply filter_all_or_none;
    intros p Hp; apply String.eqb_eq in Hp; now rewrite Hp.
Qed.

Lemma providers_only_thurgood_witness :
  Providers.shown_connected
    (Providers.useProviders "/home/counsel/smith-v-jones"
       (fun _ => Sample.store) Sample.store)
  = [{| Providers.provider_id := "thurgood";
        Providers.provider_name := "Thurgood" |}].
Proof.
  destruct (providers_only_thurgood "/home/counsel/smith-v-jones"
              (fun _ => Sample.store) Sample.store)
    as [_ [_ [_ [Hc _]]]].
  rewrite Hc. reflexivity.
Defined.

(* ------------------------------------------------------------------ *)
(** * More on the credential resolver *)
(* ------------------------------------------------------------------ *)

(** X25.  When the environment gives no usable key, a persisted record of
    kind "api" decides: the resolver returns its key as it is, without
    looking at the configuration, so an empty key in the record makes
    every request fail for want of a key even when a key is configured.
    A persisted record of another kind is passed over, and the configured
    key, if not empty, is returned. *)
Theorem persisted_record_decides (W : World) (st : State) :
  Js.truthy_str
    (Js.nullish_opt (env_THURGOOD_API_KEY W) (env_CASEDEV_API_KEY W)) = false ->
  (forall key,
      Auth_get W "thurgood" = Some (AuthApi key) ->
      CaseDevClient.getApiKey W st = (st, Return (Some key))
      /\ (key = EmptyString ->
          forall T endpoint options,
            CaseDevClient.request W T endpoint options st
            = (st, Throw ApiKeyNotFound)))
  /\ ((forall key, Auth_get W "thurgood" <> Some (AuthApi key)) ->
      CaseDevClient.getApiKey W st
      = (st,
         Return (if Js.truthy_str (CaseDevClient.config_apiKey (Config_get W))
                 then CaseDevClient.config_apiKey (Config_get W)
                 else None))).
Proof.
  intros Henv. split.
  - intros key Ha.
    assert (Hg : CaseDevClient.getApiKey W st = (st, Return (Some key)))
      by (unfold CaseDevClient.getApiKey; now rewrite Henv, Ha).
    split; [exact Hg|].
    intros -> T endpoint options.
    now apply request_no_key with (k := Some EmptyString).
  - intros Ha. unfold CaseDevClient.getApiKey. rewrite Henv.
    destruct (Auth_get W "thurgood") as [[| key |]|];
      try (destruct (Js.truthy_str
                       (CaseDevClient.config_apiKey (Config_get W)));
           reflexivity).
    now elim (Ha key).
Qed.

Lemma persisted_record_decides_witness :
  CaseDevClient.config_apiKey (Config_get Sample.emptyRecord)
  = Some "sk_config"
  /\ CaseDevClient.request Sample.emptyRecord TUnknown "/vault"
       CaseDevClient.no_options initial
     = (initial, Throw ApiKeyNotFound).
Proof.
  split; [reflexivity|].
  destruct (persisted_record_decides Sample.emptyRecord initial eq_refl)
    as [Hrec _].
  destruct (Hrec EmptyString eq_refl) as [_ Hreq].
  now apply Hreq.
Defined.
